(** * Scene-Builder: the sanitizer, the normalization engine and the fallback
    pipeline of [src/app/agents/pipeline.py], checked against the validation
    schema of [src/app/core/schema.py].

    Python values are embedded shallowly: [str] as [string], [int] as [Z],
    [float] as IEEE binary64 ([spec_float]), [dict] as an association list in
    insertion order, an exception as the [Raise] branch of a result type, a
    pydantic model as a record with its validator.

    A character is a code point from U+0000 to U+00FF; [str.strip],
    [str.lower] and the JSON escapes are those of Python on this range.
    The conversions between text and numbers that Python and pydantic leave
    to their libraries are parameters ([PyLib]). *)

From Stdlib Require Import List String Ascii ZArith Bool Lia Arith.
From Stdlib Require Import Floats.SpecFloat.
From Stdlib Require Import DecimalString DecimalZ DecimalPos.
Set Warnings "-register-all".
Import ListNotations.
Open Scope string_scope.
Open Scope list_scope.
Open Scope nat_scope.

(* ================================================================== *)
(** * Python strings *)
(* ================================================================== *)

Module PyStr.

Definition chars := list ascii.

Definition of_string : string -> chars := list_ascii_of_string.
Definition to_string : chars -> string := string_of_list_ascii.

(** [str.isspace] on U+0000..U+00FF: TAB..CR, FS..US, space, NEL, NBSP.
    This is the set [str.strip()] removes. *)
Definition is_space (c : ascii) : bool :=
  let n := nat_of_ascii c in
  ((9 <=? n) && (n <=? 13)) || ((28 <=? n) && (n <=? 32))
  || (n =? 133) || (n =? 160).

Definition eqc (a b : ascii) : bool := Ascii.eqb a b.
Arguments eqc : simpl never.

Fixpoint lstrip_by (p : ascii -> bool) (l : chars) : chars :=
  match l with
  | c :: l' => if p c then lstrip_by p l' else l
  | [] => []
  end.

Fixpoint rstrip_by (p : ascii -> bool) (l : chars) : chars :=
  match l with
  | [] => []
  | c :: l' =>
      match rstrip_by p l' with
      | [] => if p c then [] else [c]
      | r => c :: r
      end
  end.

(** [s.strip()] and [s.strip(cs)]: both ends, a character set. *)
Definition strip_by (p : ascii -> bool) (l : chars) : chars :=
  rstrip_by p (lstrip_by p l).

Definition strip : chars -> chars := strip_by is_space.

Definition strip_chars (cs : chars) : chars -> chars :=
  strip_by (fun c => existsb (eqc c) cs).

(** [s.startswith(p)]. *)
Fixpoint startswith (l p : chars) {struct p} : bool :=
  match p, l with
  | [], _ => true
  | a :: p', b :: l' => eqc a b && startswith l' p'
  | _ :: _, [] => false
  end.

(** [sub in s]. *)
Fixpoint contains (s sub : chars) : bool :=
  startswith s sub ||
  match s with [] => false | _ :: s' => contains s' sub end.

(** [str.lower] on U+0000..U+00FF: A..Z and the Latin-1 capitals
    U+00C0..U+00DE (U+00D7, the multiplication sign, apart) move up by 32. *)
Definition lower_char (c : ascii) : ascii :=
  let n := nat_of_ascii c in
  if ((65 <=? n) && (n <=? 90))
     || ((192 <=? n) && (n <=? 222) && negb (n =? 215))
  then ascii_of_nat (n + 32) else c.

Definition lower : chars -> chars := map lower_char.

(** Position of the first / last occurrence of a character. *)
Fixpoint index_of (c : ascii) (l : chars) : option nat :=
  match l with
  | [] => None
  | x :: l' => if eqc x c then Some 0 else option_map S (index_of c l')
  end.

Fixpoint rindex_of (c : ascii) (l : chars) : option nat :=
  match l with
  | [] => None
  | x :: l' =>
      match rindex_of c l' with
      | Some i => Some (S i)
      | None => if eqc x c then Some 0 else None
      end
  end.

(** [s.find(c)] and [s.rfind(c)] for a one-character needle: the index,
    or [-1]. *)
Definition find (l : chars) (c : ascii) : Z :=
  match index_of c l with Some i => Z.of_nat i | None => (-1)%Z end.

Definition rfind (l : chars) (c : ascii) : Z :=
  match rindex_of c l with Some i => Z.of_nat i | None => (-1)%Z end.

(** [s[lo:hi]] for indices that are not negative (the only ones the code
    slices with); an upper index below the lower one gives the empty string. *)
Definition slice (l : chars) (lo hi : Z) : chars :=
  firstn (Z.to_nat (hi - lo)) (skipn (Z.to_nat lo) l).

(** [s.replace(old, new)] for a non-empty [old]: occurrences are taken left
    to right and do not overlap. [skip] counts the characters of a matched
    occurrence still to be dropped. *)
Fixpoint replace_from (old new : chars) (skip : nat) (l : chars) : chars :=
  match l with
  | [] => []
  | c :: l' =>
      match skip with
      | S k => replace_from old new k l'
      | O =>
          if startswith l old
          then new ++ replace_from old new (List.length old - 1) l'
          else c :: replace_from old new 0 l'
      end
  end.

Definition replace (l old new : chars) : chars := replace_from old new 0 l.

End PyStr.

(* ================================================================== *)
(** * The Raw-Text Sanitizer *)
(* ================================================================== *)

Module Sanitizer.
Import PyStr.

Definition backtick : ascii := "`"%char.
Definition fence : chars := of_string "```".
Definition lbrace : ascii := "{"%char.
Definition rbrace : ascii := "}"%char.

(** Lines 29-33: the branch taken when the trimmed text starts with a
    fence. *)
Definition strip_fence (text : chars) : chars :=
  if startswith text fence then
    let text := strip_chars [backtick] text in
    let text := if startswith (lower text) (of_string "json")
                then skipn 4 text else text in
    replace text fence []
  else text.

(** Lines 34-37: the span from the first [{] to the last [}]. *)
Definition brace_span (text : chars) : chars :=
  let start := find text lbrace in
  let end_ := rfind text rbrace in
  if negb (start =? -1)%Z && negb (end_ =? -1)%Z
  then slice text start (end_ + 1)%Z
  else text.

(** [_clean_gemini_json], on character lists. *)
Definition clean_chars (text : chars) : chars :=
  match text with
  | [] => text
  | _ =>
      let text := strip text in
      let text := strip_fence text in
      let text := brace_span text in
      strip text
  end.

(** [_clean_gemini_json(text)]. *)
Definition _clean_gemini_json (text : string) : string :=
  to_string (clean_chars (of_string text)).

End Sanitizer.

(* ================================================================== *)
(** * Python values *)
(* ================================================================== *)

Module Py.

(** A Python [float]: IEEE binary64. *)
Definition float := spec_float.
Definition prec : Z := 53.
Definition emax : Z := 1024.

(** The nearest double of an integer (ties to even). *)
Definition float_of_Z (z : Z) : float := binary_normalize prec emax z 0 false.

(** The integers [float(int)] converts: those that round below 2^1024. *)
Definition float_range (z : Z) : bool :=
  (Z.abs z <? 2 ^ 1024 - 2 ^ 970)%Z.

(** What [json.loads] returns: [None], [bool], [int], [float], [str],
    [list] and [dict] (string keys, in insertion order). *)
Inductive value : Type :=
| VNone
| VBool (b : bool)
| VInt (z : Z)
| VFloat (f : float)
| VStr (s : string)
| VList (l : list value)
| VDict (d : list (string * value)).

Definition dict := list (string * value).

(** The exceptions the modelled code can raise. [ValidationError] is
    pydantic's. *)
Inductive exn : Type :=
| AttributeError | TypeError | ValueError | OverflowError | ValidationError.

Inductive result (A : Type) : Type :=
| Ok (a : A)
| Raise (e : exn).
Arguments Ok {A} a.
Arguments Raise {A} e.

Definition bind {A B} (m : result A) (k : A -> result B) : result B :=
  match m with Ok a => k a | Raise e => Raise e end.

Definition of_option {A} (e : exn) (o : option A) : result A :=
  match o with Some a => Ok a | None => Raise e end.

(** Library conversions between text and numbers that stay outside the
    model; every theorem holds whatever they return. *)
Class PyLib : Type := {
  (** the builtin [float(s)] for a string (also [json]'s [parse_float]) *)
  float_of_str : string -> option float;
  (** [float.__repr__], which [json.dumps] prints floats with *)
  float_repr : float -> string;
  (** pydantic's lax coercion of a string to a [float] field *)
  lax_float_of_str : string -> option float;
  (** pydantic's lax coercion of a string to an [int] field *)
  lax_int_of_str : string -> option Z;
  (** pydantic's lax coercion of a float to an [int] field *)
  lax_int_of_float : float -> option Z;
  (** pydantic's lax coercion of a bool to a [float] and to an [int] field *)
  lax_float_of_bool : bool -> option float;
  lax_int_of_bool : bool -> option Z
}.

(** ** dict *)

(** [k in d] / [d[k]]. *)
Fixpoint dict_get (k : string) (d : dict) : option value :=
  match d with
  | [] => None
  | (k', v) :: d' => if String.eqb k' k then Some v else dict_get k d'
  end.

Definition dict_mem (k : string) (d : dict) : bool :=
  match dict_get k d with Some _ => true | None => false end.

(** [d.get(k, default)]. *)
Definition get (d : dict) (k : string) (default : value) : value :=
  match dict_get k d with Some v => v | None => default end.

(** [d[k] = v]: an existing key keeps its place, a new one goes last. *)
Fixpoint dict_set (k : string) (v : value) (d : dict) : dict :=
  match d with
  | [] => [(k, v)]
  | (k', v') :: d' =>
      if String.eqb k' k then (k, v) :: d' else (k', v') :: dict_set k v d'
  end.

(** [dict(pairs)]. *)
Definition dict_of_pairs (kvs : list (string * value)) : dict :=
  fold_left (fun d kv => dict_set (fst kv) (snd kv) d) kvs [].

(** ** builtins *)

(** [bool(v)]. *)
Definition truthy (v : value) : bool :=
  match v with
  | VNone => false
  | VBool b => b
  | VInt z => negb (z =? 0)%Z
  | VFloat (S754_zero _) => false
  | VFloat _ => true
  | VStr s => negb (String.eqb s "")
  | VList l => match l with [] => false | _ => true end
  | VDict d => match d with [] => false | _ => true end
  end.

(** [isinstance(v, dict)]. *)
Definition is_dict (v : value) : bool :=
  match v with VDict _ => true | _ => false end.

(** The items [for x in v] visits: a list's elements, a dict's keys, a
    string's characters; other values are not iterable. *)
Definition iter (v : value) : result (list value) :=
  match v with
  | VList l => Ok l
  | VDict d => Ok (map (fun kv => VStr (fst kv)) d)
  | VStr s => Ok (map (fun c => VStr (String c "")) (list_ascii_of_string s))
  | _ => Raise TypeError
  end.

(** [v.get(k, default)]: only a dict has the method. *)
Definition get_attr_get (v : value) (k : string) (default : value) : result value :=
  match v with
  | VDict d => Ok (get d k default)
  | _ => Raise AttributeError
  end.

(** [float(v)]. *)
Definition py_float `{PyLib} (v : value) : result float :=
  match v with
  | VInt z => if float_range z then Ok (float_of_Z z) else Raise OverflowError
  | VBool b => Ok (float_of_Z (if b then 1 else 0))
  | VFloat f => Ok f
  | VStr s => of_option ValueError (float_of_str s)
  | VNone | VList _ | VDict _ => Raise TypeError
  end.

(** [str(n)] for an [int]. *)
Definition str_of_Z (z : Z) : string :=
  DecimalString.NilZero.string_of_int (Z.to_int z).

Definition str_of_nat (n : nat) : string := str_of_Z (Z.of_nat n).

(** An instance to run examples with: it reads a string as a number only
    when the string is a decimal integer literal, and coerces a bool to 0 or
    1. The examples below hold no numeric string and print no float. *)
Definition int_of_text (s : string) : option Z :=
  option_map Z.of_int (NilZero.int_of_string s).

Definition float_of_text (s : string) : option float :=
  match int_of_text s with
  | Some z => if float_range z then Some (float_of_Z z) else None
  | None => None
  end.

Definition sample_lib : PyLib := {|
  float_of_str := float_of_text;
  float_repr := fun _ => "";
  lax_float_of_str := float_of_text;
  lax_int_of_str := int_of_text;
  lax_int_of_float := fun _ => None;
  lax_float_of_bool := fun b => Some (float_of_Z (if b then 1 else 0));
  lax_int_of_bool := fun b => Some (if b then 1 else 0)%Z
|}.

End Py.

Declare Scope py_scope.
Notation "x <- m ;; k" := (Py.bind m (fun x => k))
  (at level 61, m at next level, right associativity) : py_scope.
Notation "' pat <- m ;; k" := (Py.bind m (fun x => let 'pat := x in k))
  (at level 61, pat pattern, m at next level, right associativity) : py_scope.
Open Scope py_scope.

(* ================================================================== *)
(** * The [json] module: [dumps] and [loads] *)
(* ================================================================== *)

Module Json.
Import PyStr Py.

Definition dquote : ascii := ascii_of_nat 34.
Definition backslash : ascii := ascii_of_nat 92.

Definition hex_digit (n : nat) : ascii :=
  if n <? 10 then ascii_of_nat (48 + n) else ascii_of_nat (87 + n).

(** [ESCAPE_ASCII] of [json.encoder] ([ensure_ascii=True]): the short
    escapes, printable ASCII as it is, [\u00xx] for the rest. *)
Definition escape_char (c : ascii) : chars :=
  let n := nat_of_ascii c in
  if eqc c dquote then [backslash; dquote]
  else if eqc c backslash then [backslash; backslash]
  else if n =? 10 then [backslash; "n"%char]
  else if n =? 13 then [backslash; "r"%char]
  else if n =? 9 then [backslash; "t"%char]
  else if n =? 8 then [backslash; "b"%char]
  else if n =? 12 then [backslash; "f"%char]
  else if (32 <=? n) && (n <=? 126) then [c]
  else [backslash; "u"%char; "0"%char; "0"%char;
        hex_digit (n / 16); hex_digit (n mod 16)].

Definition dumps_str (s : string) : chars :=
  dquote :: flat_map escape_char (of_string s) ++ [dquote].

Definition item_sep : chars := of_string ", ".
Definition key_sep : chars := of_string ": ".

Definition dumps_float `{PyLib} (f : float) : chars :=
  match f with
  | S754_nan => of_string "NaN"
  | S754_infinity false => of_string "Infinity"
  | S754_infinity true => of_string "-Infinity"
  | _ => of_string (float_repr f)
  end.

(** [json.dumps(v)] with the default separators. *)
Fixpoint dumps_chars `{PyLib} (v : value) : chars :=
  match v with
  | VNone => of_string "null"
  | VBool true => of_string "true"
  | VBool false => of_string "false"
  | VInt z => of_string (str_of_Z z)
  | VFloat f => dumps_float f
  | VStr s => dumps_str s
  | VList l =>
      "["%char ::
      (fix items (l : list value) : chars :=
         match l with
         | [] => []
         | x :: l' =>
             dumps_chars x ++
             match l' with [] => [] | _ :: _ => item_sep ++ items l' end
         end) l ++ ["]"%char]
  | VDict d =>
      "{"%char ::
      (fix members (d : list (string * value)) : chars :=
         match d with
         | [] => []
         | (k, x) :: d' =>
             dumps_str k ++ key_sep ++ dumps_chars x ++
             match d' with [] => [] | _ :: _ => item_sep ++ members d' end
         end) d ++ ["}"%char]
  end.

Definition dumps `{PyLib} (v : value) : string := to_string (dumps_chars v).

(** ** The decoder *)

(** [WHITESPACE] of [json.decoder]. *)
Definition is_ws (c : ascii) : bool :=
  let n := nat_of_ascii c in
  (n =? 32) || (n =? 9) || (n =? 10) || (n =? 13).

Definition skip_ws : chars -> chars := lstrip_by is_ws.

Definition is_digit (c : ascii) : bool :=
  let n := nat_of_ascii c in (48 <=? n) && (n <=? 57).

Definition hex_val (c : ascii) : option nat :=
  let n := nat_of_ascii c in
  if (48 <=? n) && (n <=? 57) then Some (n - 48)
  else if (97 <=? n) && (n <=? 102) then Some (n - 87)
  else if (65 <=? n) && (n <=? 70) then Some (n - 55)
  else None.

Definition hex4 (a b c d : ascii) : option nat :=
  match hex_val a, hex_val b, hex_val c, hex_val d with
  | Some x, Some y, Some z, Some w => Some (((x * 16 + y) * 16 + z) * 16 + w)
  | _, _, _, _ => None
  end.

(** The character a one-letter escape stands for. *)
Definition unescape (e : ascii) : option ascii :=
  if eqc e dquote then Some dquote
  else if eqc e backslash then Some backslash
  else if eqc e "/"%char then Some "/"%char
  else if eqc e "b"%char then Some (ascii_of_nat 8)
  else if eqc e "f"%char then Some (ascii_of_nat 12)
  else if eqc e "n"%char then Some (ascii_of_nat 10)
  else if eqc e "r"%char then Some (ascii_of_nat 13)
  else if eqc e "t"%char then Some (ascii_of_nat 9)
  else None.

(** [scanstring] (strict), called after the opening quote: the decoded
    string and the text after the closing quote. An escape above U+00FF has
    no character in this model and is refused. *)
Fixpoint scanstring (s : chars) : option (chars * chars) :=
  match s with
  | [] => None
  | c :: r =>
      if eqc c dquote then Some ([], r)
      else if eqc c backslash then
        match r with
        | [] => None
        | e :: r1 =>
            if eqc e "u"%char then
              match r1 with
              | h1 :: h2 :: h3 :: h4 :: r2 =>
                  match hex4 h1 h2 h3 h4 with
                  | Some n =>
                      if n <? 256 then
                        match scanstring r2 with
                        | Some (t, r3) => Some (ascii_of_nat n :: t, r3)
                        | None => None
                        end
                      else None
                  | None => None
                  end
              | _ => None
              end
            else
              match unescape e with
              | Some x =>
                  match scanstring r1 with
                  | Some (t, r3) => Some (x :: t, r3)
                  | None => None
                  end
              | None => None
              end
        end
      else if nat_of_ascii c <? 32 then None
      else
        match scanstring r with
        | Some (t, r3) => Some (c :: t, r3)
        | None => None
        end
  end.

(** The longest run of digits at the front. *)
Fixpoint span_digits (s : chars) : chars * chars :=
  match s with
  | c :: r =>
      if is_digit c then let (ds, r') := span_digits r in (c :: ds, r')
      else ([], s)
  | [] => ([], [])
  end.

(** [int(text)] for a run of digits. *)
Definition Z_of_digits (ds : chars) : Z :=
  match NilEmpty.uint_of_string (to_string ds) with
  | Some u => Z.of_uint u
  | None => 0%Z
  end.

(** [NUMBER_RE]: an optional minus sign, then 0 or a digit run that does
    not start with 0, then an optional fraction (a dot and digits) and an
    optional exponent (e or E, an optional sign, digits). An integer literal
    gives an [int], any other a [float]. *)
Definition scan_number `{PyLib} (s : chars) : option (value * chars) :=
  let (neg, s1) :=
    match s with
    | c :: r => if eqc c "-"%char then (true, r) else (false, s)
    | [] => (false, s)
    end in
  match s1 with
  | d :: r =>
      if is_digit d then
        let (ip, r1) := if eqc d "0"%char then ([d], r) else span_digits s1 in
        let (frac, r2) :=
          match r1 with
          | c :: f =>
              if eqc c "."%char then
                let (fd, r') := span_digits f in
                match fd with [] => ([], r1) | _ => (c :: fd, r') end
              else ([], r1)
          | [] => ([], r1)
          end in
        let (ex, r3) :=
          match r2 with
          | c :: e =>
              if eqc c "e"%char || eqc c "E"%char then
                let (sg, e') :=
                  match e with
                  | g :: e'' =>
                      if eqc g "+"%char || eqc g "-"%char
                      then ([g], e'') else ([], e)
                  | [] => ([], e)
                  end in
                let (ed, r') := span_digits e' in
                match ed with [] => ([], r2) | _ => (c :: sg ++ ed, r') end
              else ([], r2)
          | [] => ([], r2)
          end in
        match frac, ex with
        | [], [] =>
            Some (VInt (if neg then - Z_of_digits ip else Z_of_digits ip)%Z, r3)
        | _, _ =>
            match float_of_str
                    (to_string ((if neg then ["-"%char] else []) ++ ip ++ frac ++ ex))
            with
            | Some f => Some (VFloat f, r3)
            | None => None
            end
        end
      else None
  | [] => None
  end.

(** A literal word at the front. *)
Definition word (w : string) (v : value) (s : chars) : option (value * chars) :=
  if startswith s (of_string w)
  then Some (v, skipn (String.length w) s) else None.

(** [scan_once], [JSONObject] and [JSONArray]. [fuel] bounds the nesting
    and the number of items; the text's length is always enough. The
    object and array loops return the pairs and the items in order. *)
Fixpoint scan_once `{PyLib} (fuel : nat) (s : chars) : option (value * chars) :=
  match fuel with
  | O => None
  | S fuel' =>
      match s with
      | [] => None
      | c :: r =>
          if eqc c dquote then
            match scanstring r with
            | Some (t, r') => Some (VStr (to_string t), r')
            | None => None
            end
          else if eqc c "{"%char then
            match skip_ws r with
            | c1 :: r1 =>
                if eqc c1 "}"%char then Some (VDict [], r1)
                else if eqc c1 dquote then
                  match scan_members fuel' r1 with
                  | Some (kvs, r2) => Some (VDict (dict_of_pairs kvs), r2)
                  | None => None
                  end
                else None
            | [] => None
            end
          else if eqc c "["%char then
            match skip_ws r with
            | c1 :: r1 =>
                if eqc c1 "]"%char then Some (VList [], r1)
                else
                  match scan_items fuel' (c1 :: r1) with
                  | Some (l, r2) => Some (VList l, r2)
                  | None => None
                  end
            | [] => None
            end
          else if eqc c "n"%char then word "null" VNone s
          else if eqc c "t"%char then word "true" (VBool true) s
          else if eqc c "f"%char then word "false" (VBool false) s
          else
            match scan_number s with
            | Some res => Some res
            | None =>
                if eqc c "N"%char then word "NaN" (VFloat S754_nan) s
                else if eqc c "I"%char
                then word "Infinity" (VFloat (S754_infinity false)) s
                else if eqc c "-"%char
                then word "-Infinity" (VFloat (S754_infinity true)) s
                else None
            end
      end
  end

with scan_members `{PyLib} (fuel : nat) (s : chars)
  : option (list (string * value) * chars) :=
  (* [s] starts just after the opening quote of a key *)
  match fuel with
  | O => None
  | S fuel' =>
      match scanstring s with
      | Some (k, r) =>
          match skip_ws r with
          | c :: r1 =>
              if eqc c ":"%char then
                match scan_once fuel' (skip_ws r1) with
                | Some (v, r2) =>
                    match skip_ws r2 with
                    | c2 :: r3 =>
                        if eqc c2 "}"%char then Some ([(to_string k, v)], r3)
                        else if eqc c2 ","%char then
                          match skip_ws r3 with
                          | c3 :: r4 =>
                              if eqc c3 dquote then
                                match scan_members fuel' r4 with
                                | Some (kvs, r5) =>
                                    Some ((to_string k, v) :: kvs, r5)
                                | None => None
                                end
                              else None
                          | [] => None
                          end
                        else None
                    | [] => None
                    end
                | None => None
                end
              else None
          | [] => None
          end
      | None => None
      end
  end

with scan_items `{PyLib} (fuel : nat) (s : chars)
  : option (list value * chars) :=
  match fuel with
  | O => None
  | S fuel' =>
      match scan_once fuel' s with
      | Some (v, r) =>
          match skip_ws r with
          | c :: r1 =>
              if eqc c "]"%char then Some ([v], r1)
              else if eqc c ","%char then
                match scan_items fuel' (skip_ws r1) with
                | Some (l, r2) => Some (v :: l, r2)
                | None => None
                end
              else None
          | [] => None
          end
      | None => None
      end
  end.

(** [json.loads(s)]: one value, white space around it, nothing else.
    [None] is [JSONDecodeError]. The bound CPython puts on the digits of an
    integer literal (4300 by default) is left out. *)
Definition loads_chars `{PyLib} (s : chars) : option value :=
  match scan_once (S (List.length s)) (skip_ws s) with
  | Some (v, r) => match skip_ws r with [] => Some v | _ :: _ => None end
  | None => None
  end.

Definition loads `{PyLib} (s : string) : option value :=
  loads_chars (of_string s).

End Json.

(* ================================================================== *)
(** * The validation schema ([schema.py]) *)
(* ================================================================== *)

Module Schema.
Import Py.

Record Effect : Type := {
  eff_name : string;
  eff_props : dict
}.

Record Action : Type := {
  act_id : string;
  act_type : string;
  act_startSec : float;
  act_durationSec : float;
  act_props : dict;
  act_effects : option (list Effect)
}.

Record Row : Type := {
  row_id : string;
  row_kind : string;
  row_actions : list Action;
  row_transitions : option (list Effect)
}.

Record SceneItem : Type := {
  sc_id : string;
  sc_title : option string;
  sc_durationSec : float;
  sc_rows : list Row
}.

Record Meta : Type := {
  aspectRatio : option string;
  fps : option Z;
  totalDurationSec : float;
  generator : option string;
  version : option string
}.

Record SceneSchema : Type := {
  scenes : list SceneItem;
  meta : Meta
}.

Record SceneInputConstraints : Type := {
  c_totalDurationSec : option Z;
  c_aspectRatio : option string;
  c_fps : option Z;
  c_language : option string;
  c_deterministic : option bool
}.

(** ** pydantic's validators (lax mode, Python input) *)

Definition obind {A B} (o : option A) (k : A -> option B) : option B :=
  match o with Some a => k a | None => None end.

Fixpoint omap {A B} (f : A -> option B) (l : list A) : option (list B) :=
  match l with
  | [] => Some []
  | x :: l' =>
      obind (f x) (fun y => obind (omap f l') (fun ys => Some (y :: ys)))
  end.

(** [str]: a string, nothing else. *)
Definition v_str (v : value) : option string :=
  match v with VStr s => Some s | _ => None end.

(** [float]: a float or an integer in range; a bool or a string as the lax
    coercions decide. *)
Definition v_float `{PyLib} (v : value) : option float :=
  match v with
  | VFloat f => Some f
  | VInt z => if float_range z then Some (float_of_Z z) else None
  | VBool b => lax_float_of_bool b
  | VStr s => lax_float_of_str s
  | VNone | VList _ | VDict _ => None
  end.

(** [int]: an integer; a bool, a float or a string as the lax coercions
    decide. *)
Definition v_int `{PyLib} (v : value) : option Z :=
  match v with
  | VInt z => Some z
  | VBool b => lax_int_of_bool b
  | VFloat f => lax_int_of_float f
  | VStr s => lax_int_of_str s
  | VNone | VList _ | VDict _ => None
  end.

(** [Optional[T]]. *)
Definition v_optional {A} (f : value -> option A) (v : value)
  : option (option A) :=
  match v with VNone => Some None | _ => option_map Some (f v) end.

(** [List[T]]. *)
Definition v_list {A} (f : value -> option A) (v : value) : option (list A) :=
  match v with VList l => omap f l | _ => None end.

(** [Dict[str, Any]]. *)
Definition v_dict (v : value) : option dict :=
  match v with VDict d => Some d | _ => None end.

(** [Literal[...]] of strings. *)
Definition v_literal (allowed : list string) (v : value) : option string :=
  match v with
  | VStr s => if existsb (String.eqb s) allowed then Some s else None
  | _ => None
  end.

(** A required field, and a field with a default (the default is not
    validated). Keys the model does not declare are ignored. *)
Definition required {A} (d : dict) (k : string) (f : value -> option A)
  : option A :=
  match dict_get k d with Some v => f v | None => None end.

Definition defaulted {A} (d : dict) (k : string) (f : value -> option A)
  (default : A) : option A :=
  match dict_get k d with Some v => f v | None => Some default end.

Definition validate_Effect (v : value) : option Effect :=
  match v with
  | VDict d =>
      obind (required d "name" v_str) (fun name =>
      obind (defaulted d "props" v_dict []) (fun props =>
      Some {| eff_name := name; eff_props := props |}))
  | _ => None
  end.

Definition action_types : list string := ["video"; "image"; "audio"; "text"].
Definition row_kinds : list string :=
  ["video"; "image"; "audio"; "text"; "captions"].

Definition validate_Action `{PyLib} (v : value) : option Action :=
  match v with
  | VDict d =>
      obind (required d "id" v_str) (fun id =>
      obind (required d "type" (v_literal action_types)) (fun type =>
      obind (required d "startSec" v_float) (fun startSec =>
      obind (required d "durationSec" v_float) (fun durationSec =>
      obind (required d "props" v_dict) (fun props =>
      obind (defaulted d "effects" (v_optional (v_list validate_Effect))
               (Some [])) (fun effects =>
      Some {| act_id := id; act_type := type; act_startSec := startSec;
              act_durationSec := durationSec; act_props := props;
              act_effects := effects |}))))))
  | _ => None
  end.

Definition validate_Row `{PyLib} (v : value) : option Row :=
  match v with
  | VDict d =>
      obind (required d "id" v_str) (fun id =>
      obind (required d "kind" (v_literal row_kinds)) (fun kind =>
      obind (required d "actions" (v_list validate_Action)) (fun actions =>
      obind (defaulted d "transitions" (v_optional (v_list validate_Effect))
               (Some [])) (fun transitions =>
      Some {| row_id := id; row_kind := kind; row_actions := actions;
              row_transitions := transitions |}))))
  | _ => None
  end.

Definition validate_SceneItem `{PyLib} (v : value) : option SceneItem :=
  match v with
  | VDict d =>
      obind (required d "id" v_str) (fun id =>
      obind (defaulted d "title" (v_optional v_str) (Some "")) (fun title =>
      obind (required d "durationSec" v_float) (fun durationSec =>
      obind (required d "rows" (v_list validate_Row)) (fun rows =>
      Some {| sc_id := id; sc_title := title; sc_durationSec := durationSec;
              sc_rows := rows |}))))
  | _ => None
  end.

Definition validate_Meta `{PyLib} (v : value) : option Meta :=
  match v with
  | VDict d =>
      obind (defaulted d "aspectRatio" (v_optional v_str) (Some "16:9"))
        (fun ar =>
      obind (defaulted d "fps" (v_optional v_int) (Some 30%Z)) (fun fps_ =>
      obind (required d "totalDurationSec" v_float) (fun total =>
      obind (defaulted d "generator" (v_optional v_str)
               (Some "scene-builder-agent")) (fun gen =>
      obind (defaulted d "version" (v_optional v_str) (Some "1.0.0"))
        (fun ver =>
      Some {| aspectRatio := ar; fps := fps_; totalDurationSec := total;
              generator := gen; version := ver |})))))
  | _ => None
  end.

(** [Meta.model_dump()]. *)
Definition dump_optional {A} (f : A -> value) (o : option A) : value :=
  match o with Some a => f a | None => VNone end.

Definition dump_Meta (m : Meta) : dict :=
  [("aspectRatio", dump_optional VStr (aspectRatio m));
   ("fps", dump_optional VInt (fps m));
   ("totalDurationSec", VFloat (totalDurationSec m));
   ("generator", dump_optional VStr (generator m));
   ("version", dump_optional VStr (version m))].

(** [SceneSchema(plan=..., scenes=..., meta=...)]: [plan] is not a field of
    the model and is ignored; a violation raises [ValidationError]. *)
Definition SceneSchema_init `{PyLib} (plan scenes_ meta_ : value)
  : result SceneSchema :=
  of_option ValidationError
    (obind (v_list validate_SceneItem scenes_) (fun ss =>
     obind (validate_Meta meta_) (fun m =>
     Some {| scenes := ss; meta := m |}))).

(** ** [model_dump] and [parse_obj] *)

Definition dump_Effect (e : Effect) : dict :=
  [("name", VStr (eff_name e)); ("props", VDict (eff_props e))].

Definition dump_effects (l : list Effect) : value :=
  VList (map (fun e => VDict (dump_Effect e)) l).

Definition dump_Action (a : Action) : dict :=
  [("id", VStr (act_id a));
   ("type", VStr (act_type a));
   ("startSec", VFloat (act_startSec a));
   ("durationSec", VFloat (act_durationSec a));
   ("props", VDict (act_props a));
   ("effects", dump_optional dump_effects (act_effects a))].

Definition dump_Row (r : Row) : dict :=
  [("id", VStr (row_id r));
   ("kind", VStr (row_kind r));
   ("actions", VList (map (fun a => VDict (dump_Action a)) (row_actions r)));
   ("transitions", dump_optional dump_effects (row_transitions r))].

Definition dump_SceneItem (s : SceneItem) : dict :=
  [("id", VStr (sc_id s));
   ("title", dump_optional VStr (sc_title s));
   ("durationSec", VFloat (sc_durationSec s));
   ("rows", VList (map (fun r => VDict (dump_Row r)) (sc_rows s)))].

(** [SceneSchema.model_dump()]. *)
Definition dump_SceneSchema (doc : SceneSchema) : dict :=
  [("scenes", VList (map (fun s => VDict (dump_SceneItem s)) (scenes doc)));
   ("meta", VDict (dump_Meta (meta doc)))].

(** [SceneSchema.parse_obj(obj)]: the validation of a mapping. *)
Definition parse_obj `{PyLib} (obj : value) : result SceneSchema :=
  of_option ValidationError
    match obj with
    | VDict d =>
        obind (required d "scenes" (v_list validate_SceneItem)) (fun ss =>
        obind (required d "meta" validate_Meta) (fun m =>
        Some {| scenes := ss; meta := m |}))
    | _ => None
    end.

End Schema.

(* ================================================================== *)
(** * The Normalization Engine *)
(* ================================================================== *)

Module Normalizer.
Import PyStr Py Schema.

(** [for i, x in enumerate(l, start)], collecting the results; the first
    exception ends the loop. *)
Fixpoint for_enumerate {A B} (f : nat -> A -> result B) (start : nat)
  (l : list A) : result (list B) :=
  match l with
  | [] => Ok []
  | x :: l' =>
      y <- f start x ;;
      ys <- for_enumerate f (S start) l' ;;
      Ok (y :: ys)
  end.

Definition for_each {A B} (f : A -> result B) (l : list A) : result (list B) :=
  for_enumerate (fun _ => f) 0 l.

(** [x if not isinstance(x, dict) else [x]] (lines 55-56, 59-60). *)
Definition wrap_dict (v : value) : value :=
  if is_dict v then VList [v] else v.

(** Lines 64-65 on one transition [t]: a dict gets its [name]; on any
    other value the membership test, the subscript or [.get] raises. *)
Definition name_transition (t : value) : result value :=
  match t with
  | VDict d =>
      if negb (dict_mem "name" d) || negb (truthy (get d "name" VNone))
      then Ok (VDict (dict_set "name" (get d "type" (VStr "unknown")) d))
      else Ok t
  | VStr s =>
      if contains (of_string s) (of_string "name")
      then Raise TypeError else Raise AttributeError
  | VList l =>
      if existsb (fun x => match x with
                           | VStr s => String.eqb s "name"
                           | _ => false
                           end) l
      then Raise TypeError else Raise AttributeError
  | VNone | VBool _ | VInt _ | VFloat _ => Raise TypeError
  end.

(** Lines 63-65 (and 93-95): the loop over [scene_transitions]. The dicts
    are updated in place, so a list comes back with its items renamed; any
    other iterable comes back as it is when the loop body raised nothing.
    Parsed JSON is a tree: no transition is shared with another part of
    the input. *)
Definition name_transitions (ts : value) : result value :=
  match ts with
  | VList l => l' <- for_each name_transition l ;; Ok (VList l')
  | _ => items <- iter ts ;; _ <- for_each name_transition items ;; Ok ts
  end.

(** [s.lower()] on a value: only a string has the method. *)
Definition py_lower (v : value) : result string :=
  match v with
  | VStr s => Ok (to_string (lower (of_string s)))
  | _ => Raise AttributeError
  end.

(** Lines 72-90: the action built from one asset. *)
Definition normalize_asset `{PyLib} (idx : nat) (duration : value)
  (aidx : nat) (asset : value) : result value :=
  match asset with
  | VDict a =>
      let effects := get a "effects" (VList []) in
      let effects :=
        if is_dict effects then VList [effects]
        else match effects with VNone => VList [] | _ => effects end in
      asset_type <- py_lower (get a "type" (VStr "video")) ;;
      let asset_type :=
        if String.eqb asset_type "music" then "audio" else asset_type in
      let id := get a "id"
                  (VStr ("action-" ++ str_of_nat idx ++ "-" ++ str_of_nat aidx)) in
      startSec <- py_float (get a "startSec" (VInt 0)) ;;
      durationSec <- py_float (get a "durationSec" duration) ;;
      let props := get a "props" (VDict (dict_set "src" (get a "src" (VStr "")) a)) in
      Ok (VDict [("id", id);
                 ("type", VStr asset_type);
                 ("startSec", VFloat startSec);
                 ("durationSec", VFloat durationSec);
                 ("props", props);
                 ("effects", effects)])
  | _ => Raise AttributeError
  end.

(** Lines 50-112: the scene object built from one raw scene. *)
Definition normalize_scene `{PyLib} (idx : nat) (sc : value) : result value :=
  match sc with
  | VDict s =>
      let assets := get s "assets" (VList []) in
      let scene_effects := wrap_dict (get s "effects" (VList [])) in
      let scene_transitions := wrap_dict (get s "transitions" (VList [])) in
      scene_transitions <- name_transitions scene_transitions ;;
      let duration := get s "durationSec" (VInt 3) in
      items <- iter assets ;;
      row_actions <- for_enumerate (normalize_asset idx duration) 1 items ;;
      scene_transitions <- name_transitions scene_transitions ;;
      let row := VDict [("id", VStr ("row-" ++ str_of_nat idx ++ "-1"));
                        ("kind", VStr "video");
                        ("actions", VList row_actions);
                        ("transitions", scene_transitions)] in
      let rows := [row] in
      Ok (VDict [("id", get s "id" (VStr ("scene_" ++ str_of_nat idx)));
                 ("title", get s "title" (VStr ("Scene " ++ str_of_nat idx)));
                 ("description", get s "description" (VStr ""));
                 ("rows", VList rows);
                 ("durationSec", duration)])
  | _ => Raise AttributeError
  end.

(** [_normalize_to_scene_schema(raw_scene, *_, **__)]. *)
Definition _normalize_to_scene_schema `{PyLib} (raw_scene : value)
  : result SceneSchema :=
  plan <- get_attr_get raw_scene "plan" (VDict []) ;;
  raw_scenes <- get_attr_get raw_scene "scenes" (VList []) ;;
  items <- iter raw_scenes ;;
  scenes <- for_enumerate normalize_scene 1 items ;;
  meta <- get_attr_get raw_scene "meta" (VDict []) ;;
  notes_default <- get_attr_get plan "notes" (VStr "") ;;
  notes <- get_attr_get plan "summary" notes_default ;;
  prompt <- get_attr_get plan "prompt" (VStr "") ;;
  SceneSchema_init
    (VDict [("scenesCount", VInt (Z.of_nat (List.length scenes)));
            ("notes", notes);
            ("prompt", prompt)])
    (VList scenes) meta.

End Normalizer.

(* ================================================================== *)
(** * The Plan Summarizer, the Fallback Generator and the pipeline *)
(* ================================================================== *)

Module Pipeline.
Import PyStr Py Schema Normalizer.

Record Plan : Type := {
  scenesCount : nat;
  notes : string;
  prompt : string
}.

Record Output : Type := {
  plan : Plan;
  scene : SceneSchema
}.

(** [_make_plan(prompt, normalized_scene)]; the dump of a [SceneSchema]
    always has its [scenes]. *)
Definition _make_plan (prompt_ : string) (normalized_scene : SceneSchema) : Plan :=
  let scenes_count := List.length (scenes normalized_scene) in
  {| scenesCount := scenes_count;
     notes := "Generated " ++ str_of_nat scenes_count ++ " scene(s) from prompt";
     prompt := prompt_ |}.

(** [c.f if c and getattr(c, f, None) else default]: a constraints object
    is always true, its field counts when it is neither [None] nor false
    as a bool. *)
Definition field_or {A} (constraints : option SceneInputConstraints)
  (f : SceneInputConstraints -> option A) (nonzero : A -> bool) (default : A) : A :=
  match constraints with
  | Some c =>
      match f c with
      | Some x => if nonzero x then x else default
      | None => default
      end
  | None => default
  end.

Definition nonzero_int (z : Z) : bool := negb (z =? 0)%Z.
Definition nonempty_str (s : string) : bool := negb (String.eqb s "").

(** Lines 215-241: the fallback document. [uuid_hex] is
    [uuid.uuid4().hex]. *)
Definition mock_scene (uuid_hex : string) (prompt_ : string)
  (constraints : option SceneInputConstraints) : value :=
  VDict [
    ("processId", VStr ("proc-" ++ substring 0 8 uuid_hex));
    ("plan", VDict [
       ("title", VStr "Mock Plan");
       ("summary", VStr "Fallback mock plan if LLM unavailable.");
       ("themes", VList [VStr "mock"])]);
    ("scenes", VList [
       VDict [
         ("id", VStr "1");
         ("title", VStr "Intro");
         ("description", VStr prompt_);
         ("assets", VList [
            VDict [("type", VStr "video"); ("src", VStr "placeholder_intro.mp4")];
            VDict [("type", VStr "text"); ("src", VStr prompt_)]]);
         ("effects", VList [
            VDict [("type", VStr "transition"); ("name", VStr "fadeIn")]]);
         ("durationSec",
          VInt (field_or constraints c_totalDurationSec nonzero_int 10%Z))]]);
    ("meta", VDict [
       ("totalDurationSec",
        VInt (field_or constraints c_totalDurationSec nonzero_int 10%Z));
       ("aspectRatio",
        VStr (field_or constraints c_aspectRatio nonempty_str "16:9"));
       ("fps", VInt (field_or constraints c_fps nonzero_int 30%Z));
       ("language", VStr "en")])].

(** [not raw_output or not raw_output.strip()] (line 214). *)
Definition no_output (raw_output : option string) : bool :=
  match raw_output with
  | None => true
  | Some s =>
      match of_string s with
      | [] => true
      | l => match strip l with [] => true | _ :: _ => false end
      end
  end.

(** [run_pipeline(prompt, constraints)] from line 213 on. [raw_output] is
    what the generation adapter left (lines 133-211): [None] without a key
    or a client, the empty string after a failed call, else the model's
    text. *)
Definition run_pipeline `{PyLib} (raw_output : option string)
  (uuid_hex : string) (prompt_ : string)
  (constraints : option SceneInputConstraints) : result Output :=
  let raw_output :=
    if no_output raw_output
    then Json.dumps (mock_scene uuid_hex prompt_ constraints)
    else match raw_output with Some s => s | None => "" end in
  parsed <- of_option ValueError
              (Json.loads (Sanitizer._clean_gemini_json raw_output)) ;;
  normalized <- _normalize_to_scene_schema parsed ;;
  let plan_ := _make_plan prompt_ normalized in
  Ok {| plan := plan_; scene := normalized |}.

End Pipeline.

(* ================================================================== *)
(** * The endpoint ([api/v1/scene.py]) *)
(* ================================================================== *)

Module Api.
Import Py Schema Pipeline.

Record SceneRequest : Type := {
  req_prompt : string;
  req_constraints : option SceneInputConstraints
}.

Record SceneResponse : Type := {
  resp_plan : Plan;
  resp_scene : SceneSchema
}.

(** What the handler ends with: the response, or an [HTTPException] with
    its status code (its [detail], the text of the exception, is left
    out). *)
Inductive outcome : Type :=
| Respond (r : SceneResponse)
| HTTPException (status_code : nat).

(** [generate_scene(request)]: the pipeline, then the validation of the
    dumped scene; any exception becomes a 422. [raw_output] and [uuid_hex]
    are what [run_pipeline] takes from its environment. *)
Definition generate_scene `{PyLib} (raw_output : option string)
  (uuid_hex : string) (request : SceneRequest) : outcome :=
  match run_pipeline raw_output uuid_hex (req_prompt request)
          (req_constraints request) with
  | Ok result =>
      match parse_obj (VDict (dump_SceneSchema (scene result))) with
      | Ok scene_obj =>
          Respond {| resp_plan := plan result; resp_scene := scene_obj |}
      | Raise _ => HTTPException 422
      end
  | Raise _ => HTTPException 422
  end.

End Api.

(* ================================================================== *)
(** * Vocabulary of the statements and proofs *)
(* ================================================================== *)

Module Vocabulary.
Import PyStr Py Sanitizer.

(** What a strip leaves at the front. *)
Definition head_kept (p : ascii -> bool) (l : chars) : Prop :=
  match l with c :: _ => p c = false | [] => True end.

(** The number of backticks at the front. *)
Fixpoint lead (l : chars) : nat :=
  match l with
  | c :: l' => if eqc c backtick then S (lead l') else 0
  | [] => 0
  end.

(** A text from an opening to a closing brace. *)
Definition braced (m : chars) : Prop :=
  exists mid, m = lbrace :: mid ++ [rbrace].

(** A step into a value: a key of a dict or an index of a list. *)
Inductive step : Type :=
| Key (k : string)
| Idx (i : nat).

(** [v[s1][s2]...]. *)
Fixpoint at_path (v : value) (path : list step) : option value :=
  match path with
  | [] => Some v
  | Key k :: path' =>
      match v with
      | VDict d =>
          match dict_get k d with
          | Some x => at_path x path'
          | None => None
          end
      | _ => None
      end
  | Idx i :: path' =>
      match v with
      | VList l =>
          match nth_error l i with
          | Some x => at_path x path'
          | None => None
          end
      | _ => None
      end
  end.

Definition newline : string := String (ascii_of_nat 10) "".

(** ** JSON texts *)

(** The fuel [scan_once] needs to read a value back. *)
Fixpoint need (v : value) : nat :=
  match v with
  | VList l => S (list_sum (map (fun x => S (need x)) l))
  | VDict d => S (list_sum (map (fun kv => S (need (snd kv))) d))
  | _ => 1
  end.

Fixpoint uniq_keys (ks : list string) : bool :=
  match ks with
  | [] => true
  | k :: ks' => negb (existsb (String.eqb k) ks') && uniq_keys ks'
  end.

(** The values whose text does not depend on how a float is printed and
    that a Python dict can hold: no float, no key twice. *)
Fixpoint printable (v : value) : bool :=
  match v with
  | VFloat _ => false
  | VList l => forallb printable l
  | VDict d => uniq_keys (map fst d) && forallb (fun kv => printable (snd kv)) d
  | _ => true
  end.

(** The text between the brackets of a list and the braces of a dict, as
    [dumps_chars] writes it; for a dict, from after the first quote on. *)
Fixpoint dumps_items `{PyLib} (l : list value) : chars :=
  match l with
  | [] => []
  | x :: l' =>
      Json.dumps_chars x ++
      match l' with [] => [] | _ :: _ => Json.item_sep ++ dumps_items l' end
  end.

Fixpoint dumps_members `{PyLib} (d : list (string * value)) : chars :=
  match d with
  | [] => []
  | (k, x) :: d' =>
      Json.dumps_str k ++ Json.key_sep ++ Json.dumps_chars x ++
      match d' with [] => [] | _ :: _ => Json.item_sep ++ dumps_members d' end
  end.

(** A text after which a number literal ends. *)
Definition ends_number (rest : chars) : Prop :=
  match rest with
  | [] => True
  | c :: _ =>
      Json.is_digit c = false /\ eqc c "."%char = false /\
      eqc c "e"%char = false /\ eqc c "E"%char = false
  end.

(** [scan_once] reads back the text of every printable value that needs
    at most [n]. *)
Definition reads_back `{PyLib} (n : nat) : Prop :=
  forall v, need v <= n -> printable v = true ->
  forall fuel rest, need v <= fuel -> ends_number rest ->
  Json.scan_once fuel (Json.dumps_chars v ++ rest) = Some (v, rest).

(** ** The fallback run *)

Import Schema Pipeline.

(** The duration the fallback writes. *)
Definition fallback_duration (constraints : option SceneInputConstraints) : Z :=
  field_or constraints c_totalDurationSec nonzero_int 10%Z.

(** The document the fallback run ends with. *)
Definition fallback_action (id type src : string) (dur : Z) : Action :=
  {| act_id := id; act_type := type;
     act_startSec := float_of_Z 0; act_durationSec := float_of_Z dur;
     act_props := [("type", VStr type); ("src", VStr src)];
     act_effects := Some [] |}.

Definition fallback_document (prompt_ : string)
  (constraints : option SceneInputConstraints) : SceneSchema :=
  let dur := fallback_duration constraints in
  {| scenes := [
       {| sc_id := "1"; sc_title := Some "Intro";
          sc_durationSec := float_of_Z dur;
          sc_rows := [
            {| row_id := "row-1-1"; row_kind := "video";
               row_actions := [
                 fallback_action "action-1-1" "video" "placeholder_intro.mp4" dur;
                 fallback_action "action-1-2" "text" prompt_ dur];
               row_transitions := Some [] |}] |}];
     meta := {| aspectRatio :=
                  Some (field_or constraints c_aspectRatio nonempty_str "16:9");
                fps := Some (field_or constraints c_fps nonzero_int 30%Z);
                totalDurationSec := float_of_Z dur;
                generator := Some "scene-builder-agent";
                version := Some "1.0.0" |} |}.

(** What the determinism test compares: the scene count of the plan and
    the durations of the scenes, or the exception. *)
Definition observed (r : result Output) : result (nat * list float) :=
  match r with
  | Ok o => Ok (scenesCount (plan o), map sc_durationSec (scenes (scene o)))
  | Raise e => Raise e
  end.

(** ** More vocabulary *)

(** The character set of [strip("`")]. *)
Definition tick (c : ascii) : bool := existsb (eqc c) [backtick].

Import Normalizer.

(** The name lines 64-65 leave on a transition [t]: its own [name] when it
    has one that is true as a bool, else its [type], else ["unknown"]. *)
Definition transition_name (t : dict) : value :=
  if dict_mem "name" t && truthy (get t "name" VNone)
  then get t "name" VNone
  else get t "type" (VStr "unknown").

(** The effects lines 72-76 hand to the action of an asset [a]. *)
Definition asset_effects (a : dict) : value :=
  let effects := get a "effects" (VList []) in
  if is_dict effects then VList [effects]
  else match effects with VNone => VList [] | _ => effects end.

(** The type lines 78-80 give an asset type [t]. *)
Definition coerced_type (t : string) : string :=
  let t := to_string (lower (of_string t)) in
  if String.eqb t "music" then "audio" else t.

Import Schema.

(** The enumerated fields of a document hold allowed values. *)
Definition action_typed (a : Action) : bool :=
  existsb (String.eqb (act_type a)) action_types.

Definition row_typed (r : Row) : bool :=
  existsb (String.eqb (row_kind r)) row_kinds
  && forallb action_typed (row_actions r).

Definition scene_typed (s : SceneItem) : bool := forallb row_typed (sc_rows s).

Definition well_typed (doc : SceneSchema) : bool :=
  forallb scene_typed (scenes doc).

(** ** A raw answer and its document, for the examples *)

Definition sample_asset : dict :=
  [("type", VStr "Music"); ("src", VStr "x.mp3");
   ("effects", VDict [("name", VStr "zoom")])].

Definition sample_transition : dict := [("type", VStr "fade")].

Definition sample_scene : dict :=
  [("assets", VList [VDict sample_asset]);
   ("transitions", VDict sample_transition)].

Definition sample_top : dict :=
  [("scenes", VList [VDict sample_scene]);
   ("meta", VDict [("totalDurationSec", VInt 7)])].

Definition sample_action : Action :=
  {| act_id := "action-1-1"; act_type := "audio";
     act_startSec := float_of_Z 0; act_durationSec := float_of_Z 3;
     act_props := sample_asset;
     act_effects := Some [{| eff_name := "zoom"; eff_props := [] |}] |}.

Definition sample_row : Row :=
  {| row_id := "row-1-1"; row_kind := "video";
     row_actions := [sample_action];
     row_transitions := Some [{| eff_name := "fade"; eff_props := [] |}] |}.

Definition sample_item : SceneItem :=
  {| sc_id := "scene_1"; sc_title := Some "Scene 1";
     sc_durationSec := float_of_Z 3; sc_rows := [sample_row] |}.

Definition sample_doc : SceneSchema :=
  {| scenes := [sample_item];
     meta := {| aspectRatio := Some "16:9"; fps := Some 30%Z;
                totalDurationSec := float_of_Z 7;
                generator := Some "scene-builder-agent";
                version := Some "1.0.0" |} |}.

End Vocabulary.

(* ================================================================== *)
(** * Facts about the string operations *)
(* ================================================================== *)

Module PyStrFacts.
Import PyStr Vocabulary.

Lemma of_to_string (l : chars) : of_string (to_string l) = l.
Proof. apply list_ascii_of_string_of_list_ascii. Qed.

Lemma to_of_string (s : string) : to_string (of_string s) = s.
Proof. apply string_of_list_ascii_of_string. Qed.

Lemma eqc_true (a b : ascii) : eqc a b = true <-> a = b.
Proof. apply Ascii.eqb_eq. Qed.

Lemma eqc_refl (a : ascii) : eqc a a = true.
Proof. apply Ascii.eqb_refl. Qed.

Lemma lstrip_head_kept p l : head_kept p (lstrip_by p l).
Proof.
  induction l as [|c l IH]; simpl; [exact I|].
  destruct (p c) eqn:E; [exact IH | exact E].
Qed.

Lemma lstrip_fixed p l : head_kept p l -> lstrip_by p l = l.
Proof. destruct l as [|c l]; simpl; intros H; [reflexivity | now rewrite H]. Qed.

Lemma rstrip_head_kept p l : head_kept p l -> head_kept p (rstrip_by p l).
Proof.
  destruct l as [|c l]; simpl; intros H; [exact I|].
  destruct (rstrip_by p l); [rewrite H|]; exact H.
Qed.

Lemma rstrip_idem p l : rstrip_by p (rstrip_by p l) = rstrip_by p l.
Proof.
  induction l as [|c l IH]; simpl; [reflexivity|].
  destruct (rstrip_by p l) as [|x r] eqn:E.
  - destruct (p c) eqn:Ec; simpl; [reflexivity | now rewrite Ec].
  - change (rstrip_by p (c :: x :: r)) with
      (match rstrip_by p (x :: r) with
       | [] => if p c then [] else [c]
       | y :: r' => c :: y :: r'
       end).
    now rewrite IH.
Qed.

Lemma strip_by_idem p l : strip_by p (strip_by p l) = strip_by p l.
Proof.
  unfold strip_by.
  rewrite (lstrip_fixed p (rstrip_by p (lstrip_by p l))).
  - apply rstrip_idem.
  - apply rstrip_head_kept, lstrip_head_kept.
Qed.

Lemma rstrip_keeps_last p l c :
  p c = false -> rstrip_by p (l ++ [c]) = l ++ [c].
Proof.
  intros Hc. induction l as [|a l IH]; simpl.
  - now rewrite Hc.
  - rewrite IH. destruct (l ++ [c]) eqn:E; [|reflexivity].
    now destruct l.
Qed.

Lemma strip_by_enclosed p a mid b :
  p a = false -> p b = false ->
  strip_by p (a :: mid ++ [b]) = a :: mid ++ [b].
Proof.
  intros Ha Hb. unfold strip_by. simpl. rewrite Ha.
  exact (rstrip_keeps_last p (a :: mid) b Hb).
Qed.

Lemma in_lstrip p l x : In x (lstrip_by p l) -> In x l.
Proof.
  induction l as [|c l IH]; simpl; [tauto|].
  destruct (p c); simpl; tauto.
Qed.

Lemma in_rstrip p l x : In x (rstrip_by p l) -> In x l.
Proof.
  induction l as [|c l IH]; simpl; [tauto|].
  destruct (rstrip_by p l) as [|y r].
  - destruct (p c); simpl; tauto.
  - simpl in *. tauto.
Qed.

Lemma in_strip p l x : In x (strip_by p l) -> In x l.
Proof. unfold strip_by. intros H. apply (in_lstrip p), (in_rstrip p), H. Qed.

(** ** first and last occurrence *)

Lemma index_of_none c l : index_of c l = None <-> ~ In c l.
Proof.
  induction l as [|x l IH]; simpl; [tauto|].
  destruct (eqc x c) eqn:E.
  - apply eqc_true in E. split; [discriminate | tauto].
  - assert (x <> c) by (intros ->; rewrite eqc_refl in E; discriminate).
    destruct (index_of c l); simpl.
    + split; [discriminate|]. intros Hn.
      assert (Hc : ~ In c l) by tauto. apply IH in Hc. discriminate.
    + split; [|reflexivity]. intros _ [?|?]; [tauto | now apply IH].
Qed.

Lemma rindex_of_none c l : rindex_of c l = None <-> ~ In c l.
Proof.
  induction l as [|x l IH]; simpl; [tauto|].
  destruct (rindex_of c l).
  - split; [discriminate|]. intros H. exfalso. apply H. right.
    destruct (in_dec ascii_dec c l) as [Hi|Hn]; [exact Hi|].
    apply IH in Hn. discriminate.
  - destruct (eqc x c) eqn:E.
    + apply eqc_true in E. split; [discriminate | tauto].
    + assert (x <> c) by (intros ->; rewrite eqc_refl in E; discriminate).
      split; [|reflexivity]. intros _ [?|?]; [tauto | now apply IH].
Qed.

Lemma index_of_some c l i :
  index_of c l = Some i -> nth_error l i = Some c.
Proof.
  revert i. induction l as [|x l IH]; simpl; intros i; [discriminate|].
  destruct (eqc x c) eqn:E.
  - apply eqc_true in E. intros [= <-]. now subst.
  - destruct (index_of c l); simpl; [|discriminate].
    intros [= <-]. now apply IH.
Qed.

Lemma rindex_of_some c l i :
  rindex_of c l = Some i -> nth_error l i = Some c.
Proof.
  revert i. induction l as [|x l IH]; simpl; intros i; [discriminate|].
  destruct (rindex_of c l).
  - intros [= <-]. now apply IH.
  - destruct (eqc x c) eqn:E; [|discriminate].
    apply eqc_true in E. intros [= <-]. now subst.
Qed.

Lemma rindex_of_last c l : rindex_of c (l ++ [c]) = Some (List.length l).
Proof.
  induction l as [|x l IH]; simpl.
  - now rewrite eqc_refl.
  - now rewrite IH.
Qed.

(** ** sublists *)

Lemma startswith_app l p r : startswith l p = true -> startswith (l ++ r) p = true.
Proof.
  revert l. induction p as [|a p IH]; intros l; [reflexivity|].
  destruct l as [|b l]; simpl; [discriminate|].
  destruct (eqc a b); simpl; [apply IH | discriminate].
Qed.

Lemma rstrip_prefix p l : exists r, l = rstrip_by p l ++ r.
Proof.
  induction l as [|c l [r IH]]; simpl; [now exists []|].
  destruct (rstrip_by p l) as [|y t].
  - destruct (p c); [now exists (c :: l) | exists l; simpl in *; now rewrite IH].
  - exists r. simpl in *. now rewrite <- IH.
Qed.

Lemma contains_startswith l sub : contains l sub = false -> startswith l sub = false.
Proof. destruct l; simpl; intros H; now apply orb_false_iff in H. Qed.

Lemma contains_lstrip p l sub :
  contains l sub = false -> contains (lstrip_by p l) sub = false.
Proof.
  induction l as [|c l IH]; [trivial|].
  intros H. simpl lstrip_by. destruct (p c); [|exact H].
  apply IH. simpl in H. now apply orb_false_iff in H.
Qed.

Lemma contains_rstrip p l sub :
  sub <> [] -> contains l sub = false -> contains (rstrip_by p l) sub = false.
Proof.
  intros Hsub. induction l as [|c l IH]; [trivial|].
  intros H. pose proof H as H0. simpl in H. apply orb_false_iff in H.
  destruct H as [H1 H2]. specialize (IH H2).
  destruct (startswith (rstrip_by p (c :: l)) sub) eqn:E.
  - destruct (rstrip_prefix p (c :: l)) as [r Hr].
    apply startswith_app with (r := r) in E. rewrite <- Hr in E. congruence.
  - simpl in *. destruct (rstrip_by p l) as [|y t].
    + destruct (p c); simpl in *; [exact IH|].
      rewrite E. destruct sub; [congruence | reflexivity].
    + simpl in *. now rewrite E.
Qed.

Lemma contains_strip p l sub :
  sub <> [] -> contains l sub = false -> contains (strip_by p l) sub = false.
Proof.
  intros Hs H. unfold strip_by. now apply contains_rstrip, contains_lstrip.
Qed.

End PyStrFacts.

(* ================================================================== *)
(** * The sanitizer: idempotence and what it returns *)
(* ================================================================== *)

Module SanitizerFacts.
Import PyStr PyStrFacts Sanitizer Vocabulary.

Lemma eqc_sym a b : eqc a b = eqc b a.
Proof. apply Ascii.eqb_sym. Qed.

Lemma startswith_fence_lead l : startswith l fence = (3 <=? lead l).
Proof.
  destruct l as [|a [|b [|c l]]]; simpl; rewrite ?(eqc_sym backtick);
    repeat match goal with |- context [eqc ?x backtick] =>
             destruct (eqc x backtick); simpl end; reflexivity.
Qed.

Lemma replace_fence_hit l :
  replace (backtick :: backtick :: backtick :: l) fence [] = replace l fence [].
Proof. reflexivity. Qed.

Lemma replace_fence_miss c l :
  startswith (c :: l) fence = false ->
  replace (c :: l) fence [] = c :: replace l fence [].
Proof.
  intros E. unfold replace.
  change (replace_from fence [] 0 (c :: l))
    with (if startswith (c :: l) fence
          then [] ++ replace_from fence [] (List.length fence - 1) l
          else c :: replace_from fence [] 0 l).
  now rewrite E.
Qed.

Lemma startswith_fence_inv l :
  startswith l fence = true ->
  exists r, l = backtick :: backtick :: backtick :: r.
Proof.
  destruct l as [|a [|b [|c l]]]; simpl; rewrite ?andb_false_r; try discriminate.
  intros H. apply andb_true_iff in H as [Ha H].
  apply andb_true_iff in H as [Hb H]. apply andb_true_iff in H as [Hc _].
  apply eqc_true in Ha, Hb, Hc. subst. now exists l.
Qed.

(** After the replacement no fence is left, and no new backtick comes to
    the front. *)
Lemma replace_fence_spec n : forall l,
  List.length l <= n ->
  contains (replace l fence []) fence = false /\
  lead (replace l fence []) <= lead l.
Proof.
  induction n as [|n IH]; intros l Hn.
  - destruct l; [split; [reflexivity | apply Nat.le_refl] | simpl in Hn; lia].
  - destruct l as [|c l]; [split; [reflexivity | apply Nat.le_refl]|].
    destruct (startswith (c :: l) fence) eqn:E.
    + destruct (startswith_fence_inv _ E) as [r Hr]. rewrite Hr.
      rewrite replace_fence_hit.
      assert (Hl : List.length r <= n).
      { rewrite Hr in Hn. simpl in Hn. lia. }
      destruct (IH r Hl) as [H1 H2]. split; [exact H1|].
      simpl. lia.
    + rewrite (replace_fence_miss _ _ E).
      assert (Hl : List.length l <= n) by (simpl in Hn; lia).
      destruct (IH l Hl) as [H1 H2].
      rewrite startswith_fence_lead in E. apply Nat.leb_gt in E.
      assert (H3 : lead (c :: replace l fence []) <= lead (c :: l)).
      { simpl. destruct (eqc c backtick); lia. }
      split; [|exact H3].
      change (contains (c :: replace l fence []) fence)
        with (startswith (c :: replace l fence []) fence
              || contains (replace l fence []) fence).
      rewrite H1, startswith_fence_lead, orb_false_r.
      apply Nat.leb_gt. lia.
Qed.

Lemma replace_no_fence l : contains (replace l fence []) fence = false.
Proof. exact (proj1 (replace_fence_spec (List.length l) l (Nat.le_refl _))). Qed.

Lemma fence_nonempty : fence <> [].
Proof. discriminate. Qed.

(** The text the brace step receives never yields, once trimmed, a text
    that starts with a fence. *)
Lemma trimmed_no_fence x :
  startswith (strip (strip_fence (strip x))) fence = false.
Proof.
  unfold strip_fence. destruct (startswith (strip x) fence) eqn:E.
  - apply contains_startswith, contains_strip;
      [exact fence_nonempty | apply replace_no_fence].
  - unfold strip. now rewrite strip_by_idem.
Qed.

Lemma find_index l c i : index_of c l = Some i -> find l c = Z.of_nat i.
Proof. unfold find. now intros ->. Qed.

Lemma brace_span_cases t :
  (brace_span t = t /\ (~ In lbrace t \/ ~ In rbrace t))
  \/ brace_span t = [] \/ braced (brace_span t).
Proof.
  unfold brace_span, find, rfind.
  destruct (index_of lbrace t) as [i|] eqn:Ei.
  2:{ left. split; [reflexivity|]. left. now apply index_of_none. }
  destruct (rindex_of rbrace t) as [j|] eqn:Ej.
  2:{ left. split; [|right; now apply rindex_of_none].
      now rewrite andb_false_r. }
  right.
  replace (negb (Z.of_nat i =? -1)%Z && negb (Z.of_nat j =? -1)%Z) with true.
  2:{ symmetry. apply andb_true_iff. split; apply negb_true_iff, Z.eqb_neq; lia. }
  unfold slice. rewrite Nat2Z.id.
  apply index_of_some in Ei. apply rindex_of_some in Ej.
  destruct (Nat.le_gt_cases i j) as [Hij|Hij].
  2:{ left. replace (Z.to_nat (Z.of_nat j + 1 - Z.of_nat i)) with 0 by lia.
      reflexivity. }
  right.
  assert (Hne : i <> j).
  { intros ->. rewrite Ei in Ej. discriminate. }
  replace (Z.to_nat (Z.of_nat j + 1 - Z.of_nat i)) with (S (S (j - i - 1))) by lia.
  assert (Hlen : j < List.length t) by (apply nth_error_Some; congruence).
  remember (firstn (S (S (j - i - 1))) (skipn i t)) as m eqn:Hm.
  assert (Hl : List.length m = S (S (j - i - 1))).
  { subst m. rewrite length_firstn, length_skipn. lia. }
  assert (H0 : nth_error m 0 = Some lbrace).
  { subst m. rewrite nth_error_firstn.
    replace (0 <? S (S (j - i - 1))) with true by reflexivity.
    rewrite nth_error_skipn, Nat.add_0_r. exact Ei. }
  assert (H1 : nth_error m (S (j - i - 1)) = Some rbrace).
  { subst m. rewrite nth_error_firstn.
    replace (S (j - i - 1) <? S (S (j - i - 1))) with true
      by (symmetry; apply Nat.ltb_lt; lia).
    rewrite nth_error_skipn. replace (i + S (j - i - 1)) with j by lia.
    exact Ej. }
  destruct m as [|a m]; [discriminate|]. simpl in H0. injection H0 as ->.
  destruct (exists_last (l := m)) as [mid [z Hz]].
  { intros ->. simpl in Hl. lia. }
  subst m. exists mid. f_equal. f_equal.
  simpl in H1, Hl. rewrite length_app in Hl. simpl in Hl.
  replace (j - i - 1) with (List.length mid) in H1 by lia.
  rewrite nth_error_app2, Nat.sub_diag in H1 by lia.
  simpl in H1. congruence.
Qed.

Lemma strip_braced m : braced m -> strip m = m.
Proof. intros [mid ->]. now apply strip_by_enclosed. Qed.

Lemma brace_span_braced m : braced m -> brace_span m = m.
Proof.
  intros [mid ->]. unfold brace_span, find, rfind.
  assert (Hi : index_of lbrace (lbrace :: mid ++ [rbrace]) = Some 0)
    by reflexivity.
  pose proof (rindex_of_last rbrace (lbrace :: mid)) as Hr.
  change ((lbrace :: mid) ++ [rbrace]) with (lbrace :: mid ++ [rbrace]) in Hr.
  rewrite Hi, Hr.
  change (negb (Z.of_nat 0 =? -1)%Z) with true. rewrite andb_true_l.
  replace (negb (Z.of_nat (List.length (lbrace :: mid)) =? -1)%Z) with true
    by (symmetry; apply negb_true_iff, Z.eqb_neq; lia).
  unfold slice.
  replace (Z.to_nat (Z.of_nat (List.length (lbrace :: mid)) + 1 - Z.of_nat 0))
    with (List.length (lbrace :: mid ++ [rbrace]))
    by (simpl; rewrite length_app; simpl; lia).
  apply firstn_all.
Qed.

Lemma clean_braced m : braced m -> clean_chars m = m.
Proof.
  intros Hm. pose proof Hm as [mid E]. unfold clean_chars.
  destruct m as [|a m]; [reflexivity|].
  rewrite (strip_braced _ Hm).
  assert (Hf : strip_fence (a :: m) = a :: m).
  { unfold strip_fence. injection E as -> _. reflexivity. }
  rewrite Hf, (brace_span_braced _ Hm). now apply strip_braced.
Qed.

Lemma brace_span_without t :
  ~ In lbrace t \/ ~ In rbrace t -> brace_span t = t.
Proof.
  unfold brace_span, find, rfind. intros [H|H].
  - apply index_of_none in H. now rewrite H.
  - apply rindex_of_none in H. rewrite H. now rewrite andb_false_r.
Qed.

Lemma clean_chars_idem x : clean_chars (clean_chars x) = clean_chars x.
Proof.
  destruct x as [|a x]; [reflexivity|].
  unfold clean_chars at 2 3.
  set (t := strip_fence (strip (a :: x))).
  destruct (brace_span_cases t) as [[E Hno]|[E|Hb]].
  - rewrite E.
    assert (Hf : startswith (strip t) fence = false) by apply trimmed_no_fence.
    assert (Hno' : ~ In lbrace (strip t) \/ ~ In rbrace (strip t)).
    { destruct Hno as [H|H]; [left|right]; intros Hin; apply H;
        exact (in_strip _ _ _ Hin). }
    unfold clean_chars. destruct (strip t) as [|b y] eqn:Ey; [reflexivity|].
    assert (Hs : strip (b :: y) = b :: y).
    { rewrite <- Ey. apply strip_by_idem. }
    rewrite Hs. unfold strip_fence at 1. rewrite Hf.
    rewrite (brace_span_without _ Hno'). exact Hs.
  - rewrite E. reflexivity.
  - rewrite (strip_braced _ Hb). now apply clean_braced.
Qed.

End SanitizerFacts.

(* ================================================================== *)
(** * The sanitizer: the span between the braces *)
(* ================================================================== *)

Module SanitizerSpan.
Import PyStr PyStrFacts Sanitizer Vocabulary SanitizerFacts.

Lemma index_of_app c pre r :
  ~ In c pre -> index_of c (pre ++ c :: r) = Some (List.length pre).
Proof.
  intros Hn. induction pre as [|x pre IH]; cbn [app index_of List.length].
  - now rewrite eqc_refl.
  - destruct (eqc x c) eqn:E.
    + apply eqc_true in E. exfalso. apply Hn. now left.
    + rewrite IH; [reflexivity|]. intros H. apply Hn. now right.
Qed.

Lemma rindex_of_app c l post :
  ~ In c post -> rindex_of c (l ++ c :: post) = Some (List.length l).
Proof.
  intros Hn. apply rindex_of_none in Hn.
  induction l as [|x l IH]; cbn [app rindex_of List.length].
  - now rewrite Hn, eqc_refl.
  - now rewrite IH.
Qed.

Lemma skipn_length_app {A} (l1 l2 : list A) :
  skipn (List.length l1) (l1 ++ l2) = l2.
Proof. induction l1; [reflexivity | assumption]. Qed.

Lemma firstn_length_app {A} (l1 l2 : list A) :
  firstn (List.length l1) (l1 ++ l2) = l1.
Proof. induction l1 as [|a l1 IH]; [reflexivity | cbn; now rewrite IH]. Qed.

(** With no opening brace before and no closing brace after, the span is
    the object. *)
Lemma brace_span_around pre mid post :
  ~ In lbrace pre -> ~ In rbrace post ->
  brace_span (pre ++ (lbrace :: mid ++ [rbrace]) ++ post)
  = lbrace :: mid ++ [rbrace].
Proof.
  intros Hpre Hpost. unfold brace_span, find, rfind.
  assert (Hi : index_of lbrace (pre ++ (lbrace :: mid ++ [rbrace]) ++ post)
               = Some (List.length pre)).
  { cbn [app]. now apply index_of_app. }
  assert (Hj : rindex_of rbrace (pre ++ (lbrace :: mid ++ [rbrace]) ++ post)
               = Some (List.length (pre ++ lbrace :: mid))).
  { replace (pre ++ (lbrace :: mid ++ [rbrace]) ++ post)
      with ((pre ++ lbrace :: mid) ++ rbrace :: post).
    - now apply rindex_of_app.
    - repeat (progress cbn [app] || rewrite <- app_assoc); reflexivity. }
  rewrite Hi, Hj.
  replace (negb (Z.of_nat (List.length pre) =? -1)%Z
           && negb (Z.of_nat (List.length (pre ++ lbrace :: mid)) =? -1)%Z)
    with true
    by (symmetry; apply andb_true_iff; split;
        apply negb_true_iff, Z.eqb_neq; lia).
  unfold slice. rewrite Nat2Z.id, skipn_length_app.
  replace (Z.to_nat (Z.of_nat (List.length (pre ++ lbrace :: mid)) + 1
                     - Z.of_nat (List.length pre)))
    with (List.length (lbrace :: mid ++ [rbrace])).
  - apply firstn_length_app.
  - rewrite length_app. cbn [List.length]. rewrite length_app.
    cbn [List.length]. lia.
Qed.

(** With the last closing brace before the first opening brace, the span
    is empty. *)
Lemma brace_span_crossed pre mid post :
  ~ In lbrace pre -> ~ In lbrace mid -> ~ In rbrace mid -> ~ In rbrace post ->
  brace_span (pre ++ rbrace :: mid ++ lbrace :: post) = [].
Proof.
  intros H1 H2 H3 H4. unfold brace_span, find, rfind.
  assert (Hi : index_of lbrace (pre ++ rbrace :: mid ++ lbrace :: post)
               = Some (List.length (pre ++ rbrace :: mid))).
  { replace (pre ++ rbrace :: mid ++ lbrace :: post)
      with ((pre ++ rbrace :: mid) ++ lbrace :: post)
      by (rewrite <- app_assoc; reflexivity).
    apply index_of_app. intros H.
    apply in_app_or in H as [H | [H | H]]; [tauto | discriminate H | tauto]. }
  assert (Hj : rindex_of rbrace (pre ++ rbrace :: mid ++ lbrace :: post)
               = Some (List.length pre)).
  { apply rindex_of_app. intros H.
    apply in_app_or in H as [H | [H | H]]; [tauto | discriminate H | tauto]. }
  rewrite Hi, Hj.
  replace (negb (Z.of_nat (List.length (pre ++ rbrace :: mid)) =? -1)%Z
           && negb (Z.of_nat (List.length pre) =? -1)%Z)
    with true
    by (symmetry; apply andb_true_iff; split;
        apply negb_true_iff, Z.eqb_neq; lia).
  unfold slice.
  replace (Z.to_nat (Z.of_nat (List.length pre) + 1
                     - Z.of_nat (List.length (pre ++ rbrace :: mid))))
    with 0.
  - reflexivity.
  - rewrite length_app. cbn [List.length]. lia.
Qed.

(** A text that, once trimmed, does not start with a fence skips lines
    29-33. *)
Lemma clean_chars_unfenced text :
  startswith (strip text) fence = false ->
  clean_chars text = strip (brace_span (strip text)).
Proof.
  intros Hf. unfold clean_chars.
  destruct text as [|a l]; [reflexivity|].
  unfold strip_fence. now rewrite Hf.
Qed.

End SanitizerSpan.

(* ================================================================== *)
(** * The normalization engine: how raw entries reach the document *)
(* ================================================================== *)

Module NormalizerFacts.
Import PyStr Py Schema Normalizer.

Section Traversal.
Context {L : PyLib}.

Lemma bind_ok {A B} (m : result A) (k : A -> result B) b :
  bind m k = Ok b -> exists a, m = Ok a /\ k a = Ok b.
Proof. destruct m as [a|e]; simpl; [now exists a | discriminate]. Qed.

Lemma obind_some {A B} (o : option A) (k : A -> option B) b :
  obind o k = Some b -> exists a, o = Some a /\ k a = Some b.
Proof. destruct o as [a|]; simpl; [now exists a | discriminate]. Qed.

Lemma of_option_ok {A} e (o : option A) a : of_option e o = Ok a -> o = Some a.
Proof. destruct o; simpl; congruence. Qed.

(** The loop visits the items in order: the [i]-th result comes from the
    [i]-th item, at position [start + i]. *)
Lemma for_enumerate_nth {A B} (f : nat -> A -> result B) l : forall start ys,
  for_enumerate f start l = Ok ys ->
  forall i x, nth_error l i = Some x ->
  exists y, nth_error ys i = Some y /\ f (start + i) x = Ok y.
Proof.
  induction l as [|a l IH]; intros start ys H i x Hi.
  - destruct i; discriminate.
  - simpl in H. apply bind_ok in H as [y [Hy H]].
    apply bind_ok in H as [ys' [Hys H]]. injection H as <-.
    destruct i as [|i]; simpl in Hi.
    + injection Hi as ->. exists y. rewrite Nat.add_0_r. now split.
    + destruct (IH _ _ Hys i x Hi) as [z [Hz Hf]].
      exists z. split; [exact Hz|]. now rewrite Nat.add_succ_r.
Qed.

Lemma omap_nth {A B} (f : A -> option B) l : forall ys,
  omap f l = Some ys ->
  forall i x, nth_error l i = Some x ->
  exists y, nth_error ys i = Some y /\ f x = Some y.
Proof.
  induction l as [|a l IH]; intros ys H i x Hi.
  - destruct i; discriminate.
  - simpl in H. apply obind_some in H as [y [Hy H]].
    apply obind_some in H as [ys' [Hys H]]. injection H as <-.
    destruct i as [|i]; simpl in Hi.
    + injection Hi as ->. now exists y.
    + exact (IH _ Hys i x Hi).
Qed.

(** What a successful normalization went through. *)
Lemma normalize_ok_inv raw doc :
  _normalize_to_scene_schema raw = Ok doc ->
  exists d items scenes_,
    raw = VDict d /\
    iter (get d "scenes" (VList [])) = Ok items /\
    for_enumerate normalize_scene 1 items = Ok scenes_ /\
    omap validate_SceneItem scenes_ = Some (scenes doc) /\
    validate_Meta (get d "meta" (VDict [])) = Some (meta doc).
Proof.
  unfold _normalize_to_scene_schema. intros H.
  destruct raw as [| | | | | |d]; try discriminate. simpl in H.
  apply bind_ok in H as [items [Hi H]].
  apply bind_ok in H as [scenes_ [Hs H]].
  apply bind_ok in H as [nd [_ H]]. apply bind_ok in H as [nt [_ H]].
  apply bind_ok in H as [pr [_ H]].
  unfold SceneSchema_init in H. apply of_option_ok in H.
  apply obind_some in H as [ss [Hss H]].
  apply obind_some in H as [m [Hm H]]. injection H as <-.
  exists d, items, scenes_. simpl. repeat split; assumption.
Qed.

(** The scene object of a raw scene holds one row, whose actions are the
    normalized assets. *)
Lemma normalize_scene_ok_inv idx sc scv :
  normalize_scene idx sc = Ok scv ->
  exists s assets actions trans,
    sc = VDict s /\
    iter (get s "assets" (VList [])) = Ok assets /\
    for_enumerate (normalize_asset idx (get s "durationSec" (VInt 3))) 1 assets
      = Ok actions /\
    scv = VDict [("id", get s "id" (VStr ("scene_" ++ str_of_nat idx)));
                 ("title", get s "title" (VStr ("Scene " ++ str_of_nat idx)));
                 ("description", get s "description" (VStr ""));
                 ("rows", VList [
                    VDict [("id", VStr ("row-" ++ str_of_nat idx ++ "-1"));
                           ("kind", VStr "video");
                           ("actions", VList actions);
                           ("transitions", trans)]]);
                 ("durationSec", get s "durationSec" (VInt 3))].
Proof.
  unfold normalize_scene. intros H.
  destruct sc as [| | | | | |s]; try discriminate.
  apply bind_ok in H as [t1 [_ H]]. apply bind_ok in H as [assets [Ha H]].
  apply bind_ok in H as [actions [Hacts H]].
  apply bind_ok in H as [t2 [_ H]]. injection H as <-.
  now exists s, assets, actions, t2.
Qed.

Ltac obind_inv H :=
  repeat (let a := fresh "a" in let E := fresh "E" in
          apply obind_some in H as [a [E H]]).

Lemma validate_scene_rows actions trans rid i1 t1 d1 dur S :
  validate_SceneItem
    (VDict [("id", i1); ("title", t1); ("description", d1);
            ("rows", VList [VDict [("id", rid); ("kind", VStr "video");
                                   ("actions", VList actions);
                                   ("transitions", trans)]]);
            ("durationSec", dur)]) = Some S ->
  exists R, sc_rows S = [R] /\
            omap validate_Action actions = Some (row_actions R).
Proof.
  unfold validate_SceneItem, required, defaulted. simpl dict_get. intros H.
  apply obind_some in H as [i [_ H]]. apply obind_some in H as [t [_ H]].
  apply obind_some in H as [f [_ H]]. apply obind_some in H as [rows [Hr H]].
  injection H as <-. simpl in Hr.
  apply obind_some in Hr as [R [HR Hr]]. simpl in Hr. injection Hr as <-.
  exists R. split; [reflexivity|].
  unfold validate_Row, required, defaulted in HR. simpl dict_get in HR.
  obind_inv HR. injection HR as <-. simpl. eassumption.
Qed.

(** The action the document holds for the [j]-th asset of the [i]-th raw
    scene. *)
Lemma action_of_asset raw doc d scs i s assets j a :
  _normalize_to_scene_schema raw = Ok doc ->
  raw = VDict d ->
  iter (get d "scenes" (VList [])) = Ok scs ->
  nth_error scs i = Some (VDict s) ->
  iter (get s "assets" (VList [])) = Ok assets ->
  nth_error assets j = Some (VDict a) ->
  exists S_ R A av,
    nth_error (scenes doc) i = Some S_ /\
    sc_rows S_ = [R] /\
    nth_error (row_actions R) j = Some A /\
    normalize_asset (S i) (get s "durationSec" (VInt 3)) (S j) (VDict a) = Ok av /\
    validate_Action av = Some A.
Proof.
  intros H -> Hscs Hi Hassets Hj.
  destruct (normalize_ok_inv _ _ H) as (d' & items & scenes_ & E & Hit & Hfor & Hval & _).
  injection E as <-. rewrite Hscs in Hit. injection Hit as <-.
  destruct (for_enumerate_nth _ _ _ _ Hfor i _ Hi) as [scv [Hscv Hn]].
  destruct (omap_nth _ _ _ Hval i _ Hscv) as [S_ [HS HvS]].
  destruct (normalize_scene_ok_inv _ _ _ Hn)
    as (s' & assets' & actions & trans & E & Hit & Hacts & ->).
  injection E as <-. rewrite Hassets in Hit. injection Hit as <-.
  destruct (validate_scene_rows _ _ _ _ _ _ _ _ HvS) as [R [HR Hom]].
  destruct (for_enumerate_nth _ _ _ _ Hacts j _ Hj) as [av [Hav Hna]].
  destruct (omap_nth _ _ _ Hom j _ Hav) as [A [HA HvA]].
  exists S_, R, A, av. repeat split; assumption.
Qed.

(** An asset without [type] gives a video action. *)
Lemma asset_type_default idx dur aidx a av A :
  dict_get "type" a = None ->
  normalize_asset idx dur aidx (VDict a) = Ok av ->
  validate_Action av = Some A ->
  act_type A = "video".
Proof.
  intros Ht H HA. unfold normalize_asset in H.
  assert (Hg : get a "type" (VStr "video") = VStr "video")
    by (unfold get; now rewrite Ht).
  rewrite Hg in H. change (py_lower (VStr "video")) with (Ok "video") in H.
  cbn [bind] in H.
  apply bind_ok in H as [st [_ H]]. apply bind_ok in H as [du [_ H]].
  injection H as <-.
  unfold validate_Action, required, defaulted in HA. simpl dict_get in HA.
  obind_inv HA. injection HA as <-. simpl.
  match goal with E : v_literal _ _ = Some ?x |- ?x = _ =>
    cbv in E; now injection E as <- end.
Qed.

(** The property bag of an action is the asset's [props] when it has one,
    else the asset itself with [src] set. *)
Lemma asset_props idx dur aidx a av A :
  normalize_asset idx dur aidx (VDict a) = Ok av ->
  validate_Action av = Some A ->
  get a "props" (VDict (dict_set "src" (get a "src" (VStr "")) a))
  = VDict (act_props A).
Proof.
  intros H HA. unfold normalize_asset in H.
  apply bind_ok in H as [ty [_ H]].
  apply bind_ok in H as [st [_ H]]. apply bind_ok in H as [du [_ H]].
  injection H as <-.
  unfold validate_Action, required, defaulted in HA. simpl dict_get in HA.
  obind_inv HA. injection HA as <-. simpl.
  match goal with E : v_dict ?p = Some ?x |- ?p = VDict ?x =>
    destruct p; try discriminate; now injection E as <- end.
Qed.

Lemma dict_mem_set k v d : dict_mem k (dict_set k v d) = true.
Proof.
  unfold dict_mem. induction d as [|[k' v'] d IH]; simpl.
  - now rewrite String.eqb_refl.
  - destruct (String.eqb k' k) eqn:E; simpl.
    + now rewrite String.eqb_refl.
    + now rewrite E.
Qed.

Lemma dict_get_set_same k v d : dict_get k (dict_set k v d) = Some v.
Proof.
  induction d as [|[k' v'] d IH]; simpl.
  - now rewrite String.eqb_refl.
  - destruct (String.eqb k' k) eqn:E; simpl.
    + now rewrite String.eqb_refl.
    + now rewrite E.
Qed.

Lemma dict_get_set_other k k' v d :
  k <> k' -> dict_get k' (dict_set k v d) = dict_get k' d.
Proof.
  intros Hk. induction d as [|[k0 v0] d IH]; simpl.
  - destruct (String.eqb k k') eqn:E; [|reflexivity].
    apply String.eqb_eq in E. contradiction.
  - destruct (String.eqb k0 k) eqn:E; simpl.
    + apply String.eqb_eq in E. subst k0.
      destruct (String.eqb k k') eqn:E'; [|reflexivity].
      apply String.eqb_eq in E'. contradiction.
    + now rewrite IH.
Qed.

(** A mapping without [scenes]: the loop runs over nothing, and the
    outcome is that of the [plan] access and of the validation of [meta]. *)
Lemma normalize_no_scenes d :
  iter (get d "scenes" (VList [])) = Ok [] ->
  _normalize_to_scene_schema (VDict d) =
  match get d "plan" (VDict []) with
  | VDict _ =>
      match validate_Meta (get d "meta" (VDict [])) with
      | Some m => Ok {| scenes := []; meta := m |}
      | None => Raise ValidationError
      end
  | _ => Raise AttributeError
  end.
Proof.
  intros Hi. unfold _normalize_to_scene_schema. simpl get_attr_get.
  cbn [bind]. rewrite Hi. cbn [bind for_enumerate].
  destruct (get d "plan" (VDict [])); try reflexivity.
  simpl. unfold SceneSchema_init. simpl.
  now destruct (validate_Meta (get d "meta" (VDict []))).
Qed.

(** The fields of a validated [meta]: the raw value coerced when the key is
    present, the schema's default when it is absent. *)
Lemma validate_Meta_fields m M :
  validate_Meta (VDict m) = Some M ->
  defaulted m "aspectRatio" (v_optional v_str) (Some "16:9") = Some (aspectRatio M) /\
  defaulted m "fps" (v_optional v_int) (Some 30%Z) = Some (fps M) /\
  required m "totalDurationSec" v_float = Some (totalDurationSec M) /\
  defaulted m "generator" (v_optional v_str) (Some "scene-builder-agent")
    = Some (generator M) /\
  defaulted m "version" (v_optional v_str) (Some "1.0.0") = Some (version M).
Proof.
  unfold validate_Meta. intros H.
  apply obind_some in H as [ar [H1 H]]. apply obind_some in H as [fp [H2 H]].
  apply obind_some in H as [td [H3 H]]. apply obind_some in H as [ge [H4 H]].
  apply obind_some in H as [ve [H5 H]]. injection H as <-. simpl.
  repeat split; assumption.
Qed.

End Traversal.

End NormalizerFacts.

(* ================================================================== *)
(** * [json.loads] reads back what [json.dumps] wrote *)
(* ================================================================== *)

Module JsonFacts.
Import PyStr PyStrFacts Py Json Vocabulary.

(** ** strings *)

Lemma scanstring_escape c t :
  scanstring (escape_char c ++ t)
  = match scanstring t with
    | Some (u, r) => Some (c :: u, r)
    | None => None
    end.
Proof. destruct c as [[] [] [] [] [] [] [] []]; reflexivity. Qed.

Lemma scanstring_dumps s rest :
  scanstring (flat_map escape_char s ++ dquote :: rest) = Some (s, rest).
Proof.
  induction s as [|c s IH].
  - reflexivity.
  - simpl flat_map. rewrite <- app_assoc, scanstring_escape. now rewrite IH.
Qed.

(** ** integers *)

Lemma digits_of_uint d :
  Forall (fun c => is_digit c = true) (of_string (NilEmpty.string_of_uint d)).
Proof. induction d; simpl; constructor; (reflexivity || assumption). Qed.

Lemma span_digits_app ds rest :
  Forall (fun c => is_digit c = true) ds ->
  match rest with c :: _ => is_digit c = false | [] => True end ->
  span_digits (ds ++ rest) = (ds, rest).
Proof.
  intros Hd Hr. induction Hd as [|c ds Hc _ IH]; cbn [span_digits app].
  - destruct rest as [|c r]; [reflexivity|].
    cbn [span_digits]. now rewrite Hr.
  - now rewrite Hc, IH.
Qed.

Lemma Z_of_digits_uint d :
  Z_of_digits (of_string (NilEmpty.string_of_uint d)) = Z.of_uint d.
Proof. unfold Z_of_digits. now rewrite to_of_string, NilEmpty.usu. Qed.

(** The decimal digits of a positive number do not start with 0. *)
Lemma pos_to_uint_head p :
  exists c t,
    of_string (NilEmpty.string_of_uint (Pos.to_uint p)) = c :: t /\
    is_digit c = true /\ eqc c "0"%char = false.
Proof.
  pose proof (DecimalPos.Unsigned.to_of (Pos.to_uint p)) as H.
  rewrite DecimalPos.Unsigned.of_to in H. simpl in H.
  pose proof (DecimalPos.Unsigned.to_uint_nonzero p) as Hz.
  destruct (Pos.to_uint p) as [|d|d|d|d|d|d|d|d|d|d] eqn:E;
    try (eexists; eexists; split; [reflexivity | split; reflexivity]).
  - exfalso. now apply (DecimalPos.Unsigned.to_uint_nonnil p).
  - exfalso. rewrite DecimalFacts.unorm_D0 in H.
    assert (Hd : d = Decimal.Nil \/ d <> Decimal.Nil)
      by (destruct d; [left | right ..]; congruence).
    destruct Hd as [-> | Hn]; [now apply Hz|].
    pose proof (DecimalFacts.nb_digits_unorm d Hn) as Hl.
    rewrite <- H in Hl. simpl in Hl. lia.
Qed.

(** What the first character of an integer literal is not. *)
Lemma int_head_class c :
  is_digit c = true \/ c = "-"%char ->
  eqc c dquote = false /\ eqc c "{"%char = false /\ eqc c "["%char = false /\
  eqc c "n"%char = false /\ eqc c "t"%char = false /\ eqc c "f"%char = false /\
  is_ws c = false /\ eqc c "]"%char = false.
Proof.
  destruct c as [[] [] [] [] [] [] [] []]; intros [H|H]; cbv in H;
    try discriminate H; repeat split.
Qed.

Lemma digit_not_minus c : is_digit c = true -> eqc c "-"%char = false.
Proof.
  destruct c as [[] [] [] [] [] [] [] []]; intros H; cbv in H;
    try discriminate H; reflexivity.
Qed.

Lemma scan_number_digits `{PyLib} d ds rest :
  Forall (fun c => is_digit c = true) (d :: ds) ->
  eqc d "0"%char = false \/ ds = [] ->
  ends_number rest ->
  scan_number ((d :: ds) ++ rest) = Some (VInt (Z_of_digits (d :: ds)), rest) /\
  scan_number ("-"%char :: (d :: ds) ++ rest)
  = Some (VInt (- Z_of_digits (d :: ds)), rest).
Proof.
  intros Hall H0 Hend.
  assert (Hd : is_digit d = true) by now inversion Hall.
  assert (Hspan : (if eqc d "0"%char then ([d], ds ++ rest)
                   else span_digits ((d :: ds) ++ rest)) = (d :: ds, rest)).
  { destruct (eqc d "0"%char).
    - destruct H0 as [H0 | ->]; [discriminate | reflexivity].
    - apply span_digits_app; [exact Hall|].
      destruct rest; [exact I | apply Hend]. }
  unfold scan_number.
  change (eqc "-"%char "-"%char) with true. cbv iota.
  cbn [app] in *. rewrite (digit_not_minus _ Hd), Hd, Hspan.
  destruct rest as [|c f]; [split; reflexivity|].
  destruct Hend as (_ & H2 & H3 & H4). rewrite H2, H3, H4.
  split; reflexivity.
Qed.

Lemma scan_number_int `{PyLib} z rest :
  ends_number rest ->
  scan_number (of_string (str_of_Z z) ++ rest) = Some (VInt z, rest).
Proof.
  intros Hend. destruct z as [|p|p].
  - change (of_string (str_of_Z 0)) with ["0"%char].
    refine (proj1 (scan_number_digits "0"%char [] rest _ _ Hend)).
    + repeat constructor.
    + now right.
  - destruct (pos_to_uint_head p) as (c & t & E & Hc & H0).
    assert (Es : of_string (str_of_Z (Z.pos p)) = c :: t).
    { rewrite <- E. unfold str_of_Z. simpl Z.to_int.
      unfold NilZero.string_of_int, NilZero.string_of_uint.
      destruct (Pos.to_uint p) eqn:Ep; try reflexivity.
      exfalso. now apply (DecimalPos.Unsigned.to_uint_nonnil p). }
    rewrite Es.
    assert (Hall : Forall (fun c => is_digit c = true) (c :: t)).
    { rewrite <- E. apply digits_of_uint. }
    rewrite (proj1 (scan_number_digits c t rest Hall (or_introl H0) Hend)).
    rewrite <- E, Z_of_digits_uint. do 2 f_equal.
    unfold Z.of_uint. now rewrite DecimalPos.Unsigned.of_to.
  - destruct (pos_to_uint_head p) as (c & t & E & Hc & H0).
    assert (Es : of_string (str_of_Z (Z.neg p)) = "-"%char :: c :: t).
    { rewrite <- E. unfold str_of_Z. simpl Z.to_int.
      unfold NilZero.string_of_int, NilZero.string_of_uint.
      destruct (Pos.to_uint p) eqn:Ep; try reflexivity.
      exfalso. now apply (DecimalPos.Unsigned.to_uint_nonnil p). }
    rewrite Es.
    assert (Hall : Forall (fun c => is_digit c = true) (c :: t)).
    { rewrite <- E. apply digits_of_uint. }
    change (("-"%char :: c :: t) ++ rest) with ("-"%char :: (c :: t) ++ rest).
    rewrite (proj2 (scan_number_digits c t rest Hall (or_introl H0) Hend)).
    rewrite <- E, Z_of_digits_uint. do 2 f_equal.
    unfold Z.of_uint. now rewrite DecimalPos.Unsigned.of_to.
Qed.

(** An integer literal starts with a digit or a minus sign. *)
Lemma str_of_Z_head z :
  exists c t, of_string (str_of_Z z) = c :: t /\
              (is_digit c = true \/ c = "-"%char).
Proof.
  destruct z as [|p|p].
  - exists "0"%char, []. split; [reflexivity | now left].
  - destruct (pos_to_uint_head p) as (c & t & E & Hc & H0).
    exists c, t. split; [|now left].
    rewrite <- E. unfold str_of_Z. simpl Z.to_int.
    unfold NilZero.string_of_int, NilZero.string_of_uint.
    destruct (Pos.to_uint p) eqn:Ep; try reflexivity.
    exfalso. now apply (DecimalPos.Unsigned.to_uint_nonnil p).
  - eexists "-"%char, _. split; [|now right].
    unfold str_of_Z. simpl Z.to_int. reflexivity.
Qed.

(** ** values *)

Section Roundtrip.
Context {L : PyLib}.

Lemma dumps_list_eq l :
  dumps_chars (VList l) = "["%char :: dumps_items l ++ ["]"%char].
Proof.
  cbn [dumps_chars]. do 2 f_equal.
  induction l as [|x l IH]; [reflexivity|].
  cbn [dumps_items]. now rewrite <- IH.
Qed.

Lemma dumps_dict_eq d :
  dumps_chars (VDict d) = "{"%char :: dumps_members d ++ ["}"%char].
Proof.
  cbn [dumps_chars]. do 2 f_equal.
  induction d as [|[k x] d IH]; [reflexivity|].
  cbn [dumps_members]. now rewrite <- IH.
Qed.

Lemma need_pos v : 1 <= need v.
Proof. destruct v; simpl; lia. Qed.

(** No value's text starts with white space or a closing bracket. *)
Lemma dumps_head v :
  printable v = true ->
  exists c t, dumps_chars v = c :: t /\ is_ws c = false /\
              eqc c "]"%char = false.
Proof.
  intros Hp. destruct v as [|b|z|f|s|l|d].
  - now exists "n"%char, (of_string "ull").
  - destruct b; [now exists "t"%char, (of_string "rue")
                | now exists "f"%char, (of_string "alse")].
  - destruct (str_of_Z_head z) as (c & t & E & Hc).
    exists c, t. split; [exact E|]. apply int_head_class in Hc. tauto.
  - discriminate.
  - eexists dquote, _. split; [reflexivity | split; reflexivity].
  - rewrite dumps_list_eq. eexists _, _. split; [reflexivity | split; reflexivity].
  - rewrite dumps_dict_eq. eexists _, _. split; [reflexivity | split; reflexivity].
Qed.

Lemma skip_ws_dumps v r :
  printable v = true -> skip_ws (dumps_chars v ++ r) = dumps_chars v ++ r.
Proof.
  intros Hp. destruct (dumps_head v Hp) as (c & t & E & Hw & _).
  rewrite E. unfold skip_ws. cbn [app lstrip_by]. now rewrite Hw.
Qed.

Lemma scan_once_str f s rest :
  scan_once (S f) (dumps_str s ++ rest) = Some (VStr s, rest).
Proof.
  unfold dumps_str. cbn [app scan_once].
  change (eqc dquote dquote) with true. cbv iota.
  rewrite <- app_assoc. cbn [app]. rewrite scanstring_dumps.
  now rewrite to_of_string.
Qed.

Lemma scan_once_int f z rest :
  ends_number rest ->
  scan_once (S f) (of_string (str_of_Z z) ++ rest) = Some (VInt z, rest).
Proof.
  intros Hend. pose proof (scan_number_int z rest Hend) as Hs.
  destruct (str_of_Z_head z) as (c & t & E & Hc).
  rewrite E in *. cbn [app] in *.
  apply int_head_class in Hc.
  destruct Hc as (H1 & H2 & H3 & H4 & H5 & H6 & _).
  cbn [scan_once]. now rewrite H1, H2, H3, H4, H5, H6, Hs.
Qed.

Lemma scan_once_list f t :
  scan_once (S f) ("["%char :: t)
  = match skip_ws t with
    | c1 :: r1 =>
        if eqc c1 "]"%char then Some (VList [], r1)
        else
          match scan_items f (c1 :: r1) with
          | Some (l, r2) => Some (VList l, r2)
          | None => None
          end
    | [] => None
    end.
Proof. reflexivity. Qed.

Lemma scan_once_dict f t :
  scan_once (S f) ("{"%char :: t)
  = match skip_ws t with
    | c1 :: r1 =>
        if eqc c1 "}"%char then Some (VDict [], r1)
        else if eqc c1 dquote then
          match scan_members f r1 with
          | Some (kvs, r2) => Some (VDict (dict_of_pairs kvs), r2)
          | None => None
          end
        else None
    | [] => None
    end.
Proof. reflexivity. Qed.

Lemma ends_number_sep r : ends_number (item_sep ++ r).
Proof. repeat split. Qed.

Lemma ends_number_close c r :
  c = "]"%char \/ c = "}"%char -> ends_number (c :: r).
Proof. intros [-> | ->]; repeat split. Qed.

Lemma scan_items_dumps n (IH : reads_back n) : forall l,
  l <> [] -> forallb printable l = true ->
  (forall x, In x l -> need x <= n) ->
  forall f rest,
    list_sum (map (fun x => S (need x)) l) <= f ->
    scan_items f (dumps_items l ++ "]"%char :: rest) = Some (l, rest).
Proof.
  induction l as [|x l IHl]; [contradiction|].
  intros _ Hp Hn f rest Hf.
  cbn [forallb] in Hp. apply andb_true_iff in Hp as [Hpx Hpl].
  cbn [map list_sum fold_right] in Hf. destruct f as [|f]; [lia|].
  cbn [scan_items dumps_items]. rewrite <- app_assoc.
  destruct l as [|y l].
  - cbn [app]. rewrite (IH x); [reflexivity | | exact Hpx | lia | ].
    + apply Hn. now left.
    + apply ends_number_close. now left.
  - rewrite (IH x); [ | | exact Hpx | lia | ].
    + rewrite <- app_assoc.
      change (skip_ws (item_sep ++ dumps_items (y :: l) ++ "]"%char :: rest))
        with (","%char :: " "%char :: dumps_items (y :: l) ++ "]"%char :: rest).
      change (eqc ","%char "]"%char) with false.
      change (eqc ","%char ","%char) with true. cbv iota.
      change (skip_ws (" "%char :: dumps_items (y :: l) ++ "]"%char :: rest))
        with (skip_ws (dumps_items (y :: l) ++ "]"%char :: rest)).
      assert (Hs : skip_ws (dumps_items (y :: l) ++ "]"%char :: rest)
                   = dumps_items (y :: l) ++ "]"%char :: rest).
      { cbn [dumps_items]. rewrite <- app_assoc. apply skip_ws_dumps.
        cbn [forallb] in Hpl. now apply andb_true_iff in Hpl. }
      rewrite Hs, IHl; [reflexivity | discriminate | exact Hpl | | ].
      * intros z Hz. apply Hn. now right.
      * cbn [map list_sum fold_right] in *. lia.
    + apply Hn. now left.
    + rewrite <- app_assoc. apply ends_number_sep.
Qed.

Lemma skip_ws_keep c r : is_ws c = false -> skip_ws (c :: r) = c :: r.
Proof. intros H. unfold skip_ws. cbn [lstrip_by]. now rewrite H. Qed.

Lemma skip_ws_drop c r : is_ws c = true -> skip_ws (c :: r) = skip_ws r.
Proof. intros H. unfold skip_ws. cbn [lstrip_by]. now rewrite H. Qed.

Lemma dumps_members_cons k x d rest :
  dumps_members ((k, x) :: d) ++ rest
  = dquote :: flat_map escape_char (of_string k) ++
    dquote :: ":"%char :: " "%char :: dumps_chars x ++
    match d with
    | [] => rest
    | _ :: _ => ","%char :: " "%char :: dumps_members d ++ rest
    end.
Proof.
  cbn [dumps_members]. unfold dumps_str, key_sep, item_sep.
  cbn [of_string list_ascii_of_string].
  destruct d as [|kv d]; cbn [app];
    repeat (rewrite <- app_assoc; cbn [app]); reflexivity.
Qed.

Lemma scan_members_dumps n (IH : reads_back n) : forall d,
  d <> [] -> forallb (fun kv => printable (snd kv)) d = true ->
  (forall kv, In kv d -> need (snd kv) <= n) ->
  forall f rest t,
    list_sum (map (fun kv => S (need (snd kv))) d) <= f ->
    dumps_members d ++ "}"%char :: rest = dquote :: t ->
    scan_members f t = Some (d, rest).
Proof.
  induction d as [|[k x] d IHd]; [contradiction|].
  intros _ Hp Hn f rest t Hf Et.
  cbn [forallb snd] in Hp. apply andb_true_iff in Hp as [Hpx Hpd].
  cbn [map list_sum fold_right snd] in Hf. destruct f as [|f]; [lia|].
  rewrite dumps_members_cons in Et. injection Et as <-.
  cbn [scan_members]. rewrite scanstring_dumps.
  rewrite (skip_ws_keep ":"%char) by reflexivity.
  change (eqc ":"%char ":"%char) with true. cbv iota.
  rewrite (skip_ws_drop " "%char) by reflexivity.
  rewrite (skip_ws_dumps x _ Hpx).
  rewrite (IH x); [ | apply (Hn (k, x)); now left | exact Hpx | lia | ].
  2:{ destruct d; [apply ends_number_close; now right | repeat split]. }
  destruct d as [|[k' x'] d].
  - rewrite (skip_ws_keep "}"%char) by reflexivity.
    change (eqc "}"%char "}"%char) with true. cbv iota.
    now rewrite to_of_string.
  - rewrite (skip_ws_keep ","%char) by reflexivity.
    change (eqc ","%char "}"%char) with false.
    change (eqc ","%char ","%char) with true. cbv iota.
    rewrite (skip_ws_drop " "%char) by reflexivity.
    pose proof (dumps_members_cons k' x' d ("}"%char :: rest)) as Em.
    rewrite Em. rewrite (skip_ws_keep dquote) by reflexivity.
    change (eqc dquote dquote) with true. cbv iota.
    rewrite (IHd ltac:(discriminate) Hpd) with (rest := rest).
    + now rewrite to_of_string.
    + intros kv Hkv. apply Hn. now right.
    + cbn [map list_sum fold_right snd] in *. lia.
    + exact Em.
Qed.

(** A dict built from pairs with distinct keys keeps them in order. *)
Lemma dict_set_fresh k v acc :
  existsb (String.eqb k) (map fst acc) = false ->
  dict_set k v acc = acc ++ [(k, v)].
Proof.
  induction acc as [|[k' v'] acc IH]; [reflexivity|].
  cbn [map fst existsb dict_set app]. intros H.
  apply orb_false_iff in H as [H1 H2].
  rewrite String.eqb_sym, H1. now rewrite IH.
Qed.

Lemma existsb_app_false {A} (f : A -> bool) l1 l2 :
  existsb f (l1 ++ l2) = false <-> existsb f l1 = false /\ existsb f l2 = false.
Proof. rewrite existsb_app. apply orb_false_iff. Qed.

Lemma fold_dict_set kvs : forall acc,
  uniq_keys (map fst kvs) = true ->
  (forall k, In k (map fst kvs) -> existsb (String.eqb k) (map fst acc) = false) ->
  fold_left (fun d kv => dict_set (fst kv) (snd kv) d) kvs acc = acc ++ kvs.
Proof.
  induction kvs as [|[k v] kvs IH]; intros acc Hu Hd.
  - now rewrite app_nil_r.
  - cbn [map fst uniq_keys] in Hu. apply andb_true_iff in Hu as [Hk Hu].
    apply negb_true_iff in Hk.
    cbn [fold_left fst snd]. rewrite dict_set_fresh by (apply Hd; now left).
    rewrite IH; [now rewrite <- app_assoc | exact Hu |].
    intros k' Hk'. rewrite map_app. apply existsb_app_false. split.
    + apply Hd. now right.
    + cbn [map fst existsb]. rewrite orb_false_r.
      destruct (String.eqb k' k) eqn:E; [|reflexivity].
      apply String.eqb_eq in E. subst k'.
      assert (Hex : existsb (String.eqb k) (map fst kvs) = true).
      { apply existsb_exists. exists k. split; [exact Hk' | apply String.eqb_refl]. }
      congruence.
Qed.

Lemma dict_of_pairs_uniq d :
  uniq_keys (map fst d) = true -> dict_of_pairs d = d.
Proof.
  intros Hu. unfold dict_of_pairs. now rewrite fold_dict_set.
Qed.

Lemma need_list l : need (VList l) = S (list_sum (map (fun x => S (need x)) l)).
Proof. reflexivity. Qed.

Lemma need_dict d :
  need (VDict d) = S (list_sum (map (fun kv => S (need (snd kv))) d)).
Proof. reflexivity. Qed.

Lemma need_child_list x l : In x l -> need x < need (VList l).
Proof.
  rewrite need_list. unfold list_sum.
  induction l as [|y l IH]; [contradiction|].
  cbn [map fold_right]. intros [-> | H]; [lia|].
  specialize (IH H). lia.
Qed.

Lemma need_child_dict kv d : In kv d -> need (snd kv) < need (VDict d).
Proof.
  rewrite need_dict. unfold list_sum.
  induction d as [|y d IH]; [contradiction|].
  cbn [map fold_right]. intros [-> | H]; [lia|].
  specialize (IH H). lia.
Qed.

(** [scan_once] reads back the text of every printable value. *)
Lemma scan_once_dumps n : reads_back n.
Proof.
  induction n as [|n IH]; intros v Hn Hp fuel rest Hf Hr.
  - pose proof (need_pos v). lia.
  - destruct fuel as [|f]; [pose proof (need_pos v); lia|].
    destruct v as [|b|z|fl|s|l|d].
    + reflexivity.
    + destruct b; reflexivity.
    + now apply scan_once_int.
    + discriminate.
    + apply scan_once_str.
    + rewrite dumps_list_eq. cbn [app]. rewrite <- app_assoc. cbn [app].
      rewrite scan_once_list. destruct l as [|x l]; [reflexivity|].
      cbn [printable] in Hp.
      assert (Hs : skip_ws (dumps_items (x :: l) ++ "]"%char :: rest)
                   = dumps_items (x :: l) ++ "]"%char :: rest).
      { cbn [dumps_items]. rewrite <- app_assoc. apply skip_ws_dumps.
        cbn [forallb] in Hp. now apply andb_true_iff in Hp. }
      rewrite Hs.
      assert (Hh : exists c t, dumps_items (x :: l) ++ "]"%char :: rest = c :: t
                               /\ eqc c "]"%char = false).
      { cbn [forallb] in Hp. apply andb_true_iff in Hp as [Hpx _].
        destruct (dumps_head x Hpx) as (c & t & E & _ & Hc).
        cbn [dumps_items]. rewrite E. cbn [app]. now eexists _, _. }
      destruct Hh as (c & t & E & Hc). rewrite E, Hc, <- E.
      rewrite (scan_items_dumps n IH); [reflexivity | discriminate | exact Hp | | ].
      * intros y Hy. pose proof (need_child_list y _ Hy). lia.
      * rewrite need_list in Hf. lia.
    + rewrite dumps_dict_eq. cbn [app]. rewrite <- app_assoc. cbn [app].
      rewrite scan_once_dict. destruct d as [|[k x] d]; [reflexivity|].
      cbn [printable] in Hp. apply andb_true_iff in Hp as [Hu Hp].
      assert (Hh : exists t, dumps_members ((k, x) :: d) ++ "}"%char :: rest
                             = dquote :: t).
      { cbn [dumps_members]. unfold dumps_str. cbn [app]. now eexists. }
      destruct Hh as (t & E). rewrite E.
      change (skip_ws (dquote :: t)) with (dquote :: t).
      change (eqc dquote "}"%char) with false.
      change (eqc dquote dquote) with true. cbv iota.
      rewrite (scan_members_dumps n IH ((k, x) :: d)) with (rest := rest);
        [ | discriminate | exact Hp | | | exact E].
      * now rewrite (dict_of_pairs_uniq _ Hu).
      * intros y Hy. pose proof (need_child_dict y _ Hy). lia.
      * rewrite need_dict in Hf. lia.
Qed.

(** The text's length is fuel enough. *)
Lemma need_items_length l :
  (forall x, In x l -> need x <= List.length (dumps_chars x)) ->
  list_sum (map (fun x => S (need x)) l) <= S (List.length (dumps_items l)).
Proof.
  unfold list_sum. induction l as [|x l IH]; intros Hl.
  - cbn. lia.
  - cbn [map fold_right dumps_items]. rewrite length_app.
    pose proof (Hl x (or_introl eq_refl)) as Hx.
    destruct l as [|y l]; [cbn; lia|].
    rewrite length_app.
    assert (Hi : forall z, In z (y :: l) -> need z <= List.length (dumps_chars z))
      by (intros z Hz; apply Hl; now right).
    specialize (IH Hi). change (List.length item_sep) with 2. lia.
Qed.

Lemma need_members_length d :
  (forall kv, In kv d -> need (snd kv) <= List.length (dumps_chars (snd kv))) ->
  list_sum (map (fun kv => S (need (snd kv))) d)
  <= S (List.length (dumps_members d)).
Proof.
  unfold list_sum. induction d as [|[k x] d IH]; intros Hd.
  - cbn. lia.
  - cbn [map fold_right dumps_members snd]. rewrite !length_app.
    pose proof (Hd (k, x) (or_introl eq_refl)) as Hx. cbn [snd] in Hx.
    destruct d as [|y d]; [cbn; lia|].
    rewrite length_app.
    assert (Hi : forall z, In z (y :: d) ->
                 need (snd z) <= List.length (dumps_chars (snd z)))
      by (intros z Hz; apply Hd; now right).
    specialize (IH Hi). change (List.length key_sep) with 2. lia.
Qed.

Lemma need_le_length n : forall v,
  need v <= n -> printable v = true -> need v <= List.length (dumps_chars v).
Proof.
  induction n as [|n IH]; intros v Hn Hp.
  - pose proof (need_pos v). lia.
  - destruct v as [|b|z|fl|s|l|d].
    + cbn. lia.
    + destruct b; cbn; lia.
    + destruct (str_of_Z_head z) as (c & t & E & _).
      cbn [dumps_chars need]. rewrite E. cbn. lia.
    + discriminate.
    + cbn. lia.
    + rewrite dumps_list_eq, need_list. cbn [List.length].
      rewrite length_app. cbn [List.length].
      assert (H : list_sum (map (fun x => S (need x)) l)
                  <= S (List.length (dumps_items l))).
      { apply need_items_length. intros x Hx. apply IH.
        - pose proof (need_child_list x l Hx). lia.
        - cbn [printable] in Hp. rewrite forallb_forall in Hp. now apply Hp. }
      lia.
    + rewrite dumps_dict_eq, need_dict. cbn [List.length].
      rewrite length_app. cbn [List.length].
      assert (H : list_sum (map (fun kv => S (need (snd kv))) d)
                  <= S (List.length (dumps_members d))).
      { apply need_members_length. intros x Hx. apply IH.
        - pose proof (need_child_dict x d Hx). lia.
        - cbn [printable] in Hp. apply andb_true_iff in Hp as [_ Hp].
          rewrite forallb_forall in Hp. now apply Hp. }
      lia.
Qed.

(** [json.loads(json.dumps(v)) == v]. *)
Theorem loads_dumps v : printable v = true -> loads (dumps v) = Some v.
Proof.
  intros Hp. unfold loads, dumps, loads_chars. rewrite of_to_string.
  pose proof (skip_ws_dumps v [] Hp) as Hs. rewrite app_nil_r in Hs.
  rewrite Hs.
  pose proof (scan_once_dumps (need v) v (Nat.le_refl _) Hp
                (S (List.length (dumps_chars v))) []) as H.
  rewrite app_nil_r in H. rewrite H; [reflexivity | | exact I].
  pose proof (need_le_length (need v) v (Nat.le_refl _) Hp). lia.
Qed.

(** The sanitizer leaves the text of a dict as it is. *)
Lemma clean_dumps_dict d :
  Sanitizer._clean_gemini_json (dumps (VDict d)) = dumps (VDict d).
Proof.
  unfold Sanitizer._clean_gemini_json, dumps. rewrite of_to_string.
  f_equal. apply SanitizerFacts.clean_braced.
  exists (dumps_members d). apply dumps_dict_eq.
Qed.

End Roundtrip.

End JsonFacts.

(* ================================================================== *)
(** * The fallback run *)
(* ================================================================== *)

Module PipelineFacts.
Import PyStr Py Schema Normalizer Pipeline Vocabulary.

Section Fallback.
Context {L : PyLib}.

#[local] Arguments float_range : simpl never.
#[local] Arguments float_of_Z : simpl never.

(** The fallback document passes the engine unless its duration is too
    large for a float. *)
Lemma normalize_mock uuid_hex prompt_ constraints :
  _normalize_to_scene_schema (mock_scene uuid_hex prompt_ constraints)
  = if float_range (fallback_duration constraints)
    then Ok (fallback_document prompt_ constraints)
    else Raise OverflowError.
Proof.
  unfold mock_scene, fallback_document, fallback_duration.
  generalize (field_or constraints c_totalDurationSec nonzero_int 10%Z) as D.
  generalize (field_or constraints c_aspectRatio nonempty_str "16:9") as AR.
  generalize (field_or constraints c_fps nonzero_int 30%Z) as FPS.
  intros FPS AR D.
  unfold _normalize_to_scene_schema. cbn.
  change (float_range 0) with true. cbn.
  destruct (float_range D) eqn:E; cbn.
  - change (float_range 0) with true. cbn. rewrite ?E. cbn.
    unfold SceneSchema_init. cbn.
    change (float_range 0) with true. cbn. rewrite ?E. reflexivity.
  - reflexivity.
Qed.

Lemma printable_mock uuid_hex prompt_ constraints :
  printable (mock_scene uuid_hex prompt_ constraints) = true.
Proof. reflexivity. Qed.

(** Without adapter output the pipeline is the engine applied to the
    fallback document: the text written by [json.dumps] passes the
    sanitizer unchanged and [json.loads] reads the document back. *)
Lemma run_pipeline_fallback raw_output uuid_hex prompt_ constraints :
  no_output raw_output = true ->
  run_pipeline raw_output uuid_hex prompt_ constraints
  = if float_range (fallback_duration constraints)
    then Ok {| plan := _make_plan prompt_ (fallback_document prompt_ constraints);
               scene := fallback_document prompt_ constraints |}
    else Raise OverflowError.
Proof.
  intros Hno. unfold run_pipeline. rewrite Hno.
  assert (Hp : Json.loads (Sanitizer._clean_gemini_json
                 (Json.dumps (mock_scene uuid_hex prompt_ constraints)))
               = Some (mock_scene uuid_hex prompt_ constraints)).
  { unfold mock_scene at 1. rewrite JsonFacts.clean_dumps_dict.
    apply JsonFacts.loads_dumps, printable_mock. }
  rewrite Hp. cbn [of_option bind]. rewrite normalize_mock.
  now destruct (float_range (fallback_duration constraints)).
Qed.

End Fallback.

End PipelineFacts.

(* ================================================================== *)
(** * The model at work *)
(* ================================================================== *)

Module Tests.
Import PyStr Py Schema Normalizer Pipeline Vocabulary.

(** A fenced answer loses its fence and its language tag. *)
Example clean_fenced :
  Sanitizer._clean_gemini_json
    ("```json" ++ newline ++ "{'a':1}" ++ newline ++ "```")%string
  = "{'a':1}".
Proof. reflexivity. Qed.

(** A closing brace before the opening one leaves nothing. *)
Example clean_crossed_braces :
  Sanitizer._clean_gemini_json "} nothing {" = "".
Proof. reflexivity. Qed.

(** The decoder reads back an encoded dict, and refuses a leading zero. *)
Example loads_dumps_small :
  @Json.loads sample_lib
    (@Json.dumps sample_lib (VDict [("a", VInt (-1)); ("b", VList [VNone])]))
  = Some (VDict [("a", VInt (-1)); ("b", VList [VNone])]).
Proof. reflexivity. Qed.

Example loads_leading_zero : @Json.loads sample_lib "[01]" = None.
Proof. reflexivity. Qed.

(** ["music"] becomes ["audio"], whatever its case; a bare transition
    mapping is wrapped and named after its [type], an empty one is named
    ["unknown"]. *)
Example normalize_music_and_transitions :
  @_normalize_to_scene_schema sample_lib
    (VDict [("scenes", VList [
               VDict [("assets", VList [
                         VDict [("type", VStr "Music"); ("src", VStr "x.mp3")]]);
                      ("transitions", VDict [("type", VStr "fade")]);
                      ("durationSec", VInt 4)];
               VDict [("transitions", VList [VDict []])]]);
            ("meta", VDict [("totalDurationSec", VInt 7)])])
  = Ok {| scenes := [
            {| sc_id := "scene_1"; sc_title := Some "Scene 1";
               sc_durationSec := float_of_Z 4;
               sc_rows := [
                 {| row_id := "row-1-1"; row_kind := "video";
                    row_actions := [
                      {| act_id := "action-1-1"; act_type := "audio";
                         act_startSec := float_of_Z 0;
                         act_durationSec := float_of_Z 4;
                         act_props := [("type", VStr "Music");
                                       ("src", VStr "x.mp3")];
                         act_effects := Some [] |}];
                    row_transitions :=
                      Some [{| eff_name := "fade"; eff_props := [] |}] |}] |};
            {| sc_id := "scene_2"; sc_title := Some "Scene 2";
               sc_durationSec := float_of_Z 3;
               sc_rows := [
                 {| row_id := "row-2-1"; row_kind := "video";
                    row_actions := [];
                    row_transitions :=
                      Some [{| eff_name := "unknown"; eff_props := [] |}] |}] |}];
          meta := {| aspectRatio := Some "16:9"; fps := Some 30%Z;
                     totalDurationSec := float_of_Z 7;
                     generator := Some "scene-builder-agent";
                     version := Some "1.0.0" |} |}.
Proof. vm_compute. reflexivity. Qed.

(** An input that is not a mapping, and a scene that is not one. *)
Example normalize_not_a_mapping :
  @_normalize_to_scene_schema sample_lib (VList []) = Raise AttributeError /\
  @_normalize_to_scene_schema sample_lib
    (VDict [("scenes", VList [VStr "scene"])]) = Raise AttributeError /\
  @_normalize_to_scene_schema sample_lib
    (VDict [("scenes", VInt 1)]) = Raise TypeError.
Proof. repeat split. Qed.

(** The whole fallback run, computed: the text is written, sanitized,
    parsed, normalized and validated. *)
Example run_fallback :
  @run_pipeline sample_lib None "0123456789abcdef0123456789abcdef"
    "Create a short intro video"
    (Some {| c_totalDurationSec := Some 15%Z; c_aspectRatio := Some "16:9";
             c_fps := Some 30%Z; c_language := Some "en";
             c_deterministic := Some true |})
  = Ok {| plan := {| scenesCount := 1;
                     notes := "Generated 1 scene(s) from prompt";
                     prompt := "Create a short intro video" |};
          scene := fallback_document "Create a short intro video"
                     (Some {| c_totalDurationSec := Some 15%Z;
                              c_aspectRatio := Some "16:9";
                              c_fps := Some 30%Z; c_language := Some "en";
                              c_deterministic := Some true |}) |}.
Proof. vm_compute. reflexivity. Qed.

End Tests.

(* ================================================================== *)
(** * The claims *)
(* ================================================================== *)

Import PyStr Py Schema Normalizer Pipeline Vocabulary.

(** ** C1 *)

(** C1, as stated, fails: a mapping without [scenes] (here one that holds
    only a [meta] with a total duration) is normalized to a document with
    no scene; no error is raised. *)
Lemma C1_missing_scenes_accepted :
  dict_get "scenes" [("meta", VDict [("totalDurationSec", VInt 10)])] = None /\
  @_normalize_to_scene_schema sample_lib
    (VDict [("meta", VDict [("totalDurationSec", VInt 10)])])
  = Ok {| scenes := [];
          meta := {| aspectRatio := Some "16:9"; fps := Some 30%Z;
                     totalDurationSec := float_of_Z 10;
                     generator := Some "scene-builder-agent";
                     version := Some "1.0.0" |} |}.
Proof. split; reflexivity. Qed.

(** C1, amended: for every mapping without a [scenes] key the engine runs
    as on the same mapping with [scenes] set to the empty list. The missing
    key raises nothing: the outcome is an [AttributeError] when [plan] is
    present and not a mapping, else a [ValidationError] when [meta] (the
    empty mapping when absent) fails the Meta schema, else a document with
    no scene. *)
Theorem C1_missing_scenes_is_empty_list (L : PyLib) (d : dict) :
  dict_get "scenes" d = None ->
  _normalize_to_scene_schema (VDict d)
  = _normalize_to_scene_schema (VDict (dict_set "scenes" (VList []) d))
  /\
  _normalize_to_scene_schema (VDict d)
  = match get d "plan" (VDict []) with
    | VDict _ =>
        match validate_Meta (get d "meta" (VDict [])) with
        | Some m => Ok {| scenes := []; meta := m |}
        | None => Raise ValidationError
        end
    | _ => Raise AttributeError
    end.
Proof.
  intros Hd.
  assert (H1 : iter (get d "scenes" (VList [])) = Ok []).
  { unfold get. now rewrite Hd. }
  assert (H2 : iter (get (dict_set "scenes" (VList []) d) "scenes" (VList []))
               = Ok []).
  { unfold get. now rewrite NormalizerFacts.dict_get_set_same. }
  rewrite (NormalizerFacts.normalize_no_scenes _ H1).
  rewrite (NormalizerFacts.normalize_no_scenes _ H2).
  split; [|reflexivity].
  unfold get.
  rewrite !NormalizerFacts.dict_get_set_other by discriminate.
  reflexivity.
Qed.

(** The raw input [{}]: the validation of the empty [meta] fails. *)
Lemma C1_missing_scenes_is_empty_list_witness :
  dict_get "scenes" [] = None /\
  @_normalize_to_scene_schema sample_lib (VDict []) = Raise ValidationError.
Proof.
  split; [reflexivity|].
  rewrite (proj2 (C1_missing_scenes_is_empty_list sample_lib [] eq_refl)).
  reflexivity.
Defined.

(** ** C2 *)

(** C2, as stated, fails: on [{"scenes": []}] the empty [meta] lacks the
    required [totalDurationSec] and the validation raises. *)
Lemma C2_empty_scenes_alone_rejected :
  @_normalize_to_scene_schema sample_lib (VDict [("scenes", VList [])])
  = Raise ValidationError.
Proof. reflexivity. Qed.

(** C2, amended: [{"scenes": [], "meta": m}] is normalized to a document
    with no scene exactly when [m] passes the Meta schema, and raises
    [ValidationError] otherwise; [{"scenes": []}] alone raises it. *)
Theorem C2_empty_scenes_needs_meta (L : PyLib) (m : value) :
  _normalize_to_scene_schema (VDict [("scenes", VList []); ("meta", m)])
  = match validate_Meta m with
    | Some M => Ok {| scenes := []; meta := M |}
    | None => Raise ValidationError
    end
  /\
  _normalize_to_scene_schema (VDict [("scenes", VList [])])
  = Raise ValidationError.
Proof.
  split.
  - rewrite NormalizerFacts.normalize_no_scenes by reflexivity. reflexivity.
  - reflexivity.
Qed.

(** ** C3 *)

(** C3, as stated, fails: the output's [meta] has lost the raw
    [language] and gained [generator]. *)
Lemma C3_meta_not_passed_through :
  exists doc,
    @_normalize_to_scene_schema sample_lib
      (VDict [("scenes", VList []);
              ("meta", VDict [("totalDurationSec", VInt 10);
                              ("language", VStr "en")])]) = Ok doc /\
    dict_mem "language" [("totalDurationSec", VInt 10); ("language", VStr "en")]
      = true /\
    dict_mem "language" (dump_Meta (meta doc)) = false /\
    dict_mem "generator" [("totalDurationSec", VInt 10); ("language", VStr "en")]
      = false /\
    dict_get "generator" (dump_Meta (meta doc))
      = Some (VStr "scene-builder-agent").
Proof. eexists. repeat split. Qed.

(** C3, amended: when the normalization succeeds, the output's [meta] is
    the raw [meta] (the empty mapping when absent) validated against the
    Meta schema: it holds the five declared fields and no other key, each
    field coerced from the raw value when the key is present and set to the
    schema's default when it is absent; [totalDurationSec] has no default. *)
Theorem C3_meta_is_validated (L : PyLib) (raw : value) (doc : SceneSchema) :
  _normalize_to_scene_schema raw = Ok doc ->
  exists d m,
    raw = VDict d /\
    get d "meta" (VDict []) = VDict m /\
    validate_Meta (VDict m) = Some (meta doc) /\
    map fst (dump_Meta (meta doc))
      = ["aspectRatio"; "fps"; "totalDurationSec"; "generator"; "version"] /\
    defaulted m "aspectRatio" (v_optional v_str) (Some "16:9")
      = Some (aspectRatio (meta doc)) /\
    defaulted m "fps" (v_optional v_int) (Some 30%Z) = Some (fps (meta doc)) /\
    required m "totalDurationSec" v_float = Some (totalDurationSec (meta doc)) /\
    defaulted m "generator" (v_optional v_str) (Some "scene-builder-agent")
      = Some (generator (meta doc)) /\
    defaulted m "version" (v_optional v_str) (Some "1.0.0")
      = Some (version (meta doc)).
Proof.
  intros H.
  destruct (NormalizerFacts.normalize_ok_inv _ _ H)
    as (d & items & scenes_ & -> & _ & _ & _ & Hm).
  destruct (get d "meta" (VDict [])) as [| | | | | |m] eqn:E; try discriminate.
  exists d, m. split; [reflexivity|]. split; [exact E|].
  split; [exact Hm|]. split; [reflexivity|].
  exact (NormalizerFacts.validate_Meta_fields _ _ Hm).
Qed.

Lemma C3_meta_is_validated_witness :
  exists d m,
    VDict [("scenes", VList []); ("meta", VDict [("totalDurationSec", VInt 10)])]
      = VDict d /\
    get d "meta" (VDict []) = VDict m /\
    @validate_Meta sample_lib (VDict m)
      = Some {| aspectRatio := Some "16:9"; fps := Some 30%Z;
                totalDurationSec := float_of_Z 10;
                generator := Some "scene-builder-agent";
                version := Some "1.0.0" |} /\
    (["aspectRatio"; "fps"; "totalDurationSec"; "generator"; "version"]
      = ["aspectRatio"; "fps"; "totalDurationSec"; "generator"; "version"]) /\
    @defaulted (option string) m "aspectRatio" (v_optional v_str) (Some "16:9")
      = Some (Some "16:9") /\
    defaulted m "fps" (@v_optional Z (@v_int sample_lib)) (Some 30%Z)
      = Some (Some 30%Z) /\
    required m "totalDurationSec" (@v_float sample_lib) = Some (float_of_Z 10) /\
    @defaulted (option string) m "generator" (v_optional v_str)
      (Some "scene-builder-agent") = Some (Some "scene-builder-agent") /\
    @defaulted (option string) m "version" (v_optional v_str) (Some "1.0.0")
      = Some (Some "1.0.0").
Proof.
  exact (C3_meta_is_validated sample_lib
           (VDict [("scenes", VList []);
                   ("meta", VDict [("totalDurationSec", VInt 10)])])
           {| scenes := [];
              meta := {| aspectRatio := Some "16:9"; fps := Some 30%Z;
                         totalDurationSec := float_of_Z 10;
                         generator := Some "scene-builder-agent";
                         version := Some "1.0.0" |} |}
           eq_refl).
Defined.

(** ** C4 *)

(** C4: the sanitizer is idempotent, on every string. *)
Theorem C4_sanitizer_idempotent (x : string) :
  Sanitizer._clean_gemini_json (Sanitizer._clean_gemini_json x)
  = Sanitizer._clean_gemini_json x.
Proof.
  unfold Sanitizer._clean_gemini_json.
  rewrite PyStrFacts.of_to_string. now rewrite SanitizerFacts.clean_chars_idem.
Qed.

(** ** C5 *)

(** C5, as stated, fails: a text without any backtick is cut down to its
    brace span, not merely trimmed. *)
Lemma C5_prose_around_braces_dropped :
  contains (of_string "Here it is: {'a': 1} done") Sanitizer.fence = false /\
  to_string (strip (of_string "Here it is: {'a': 1} done"))
    = "Here it is: {'a': 1} done" /\
  Sanitizer._clean_gemini_json "Here it is: {'a': 1} done" = "{'a': 1}".
Proof. repeat split. Qed.

(** C5, amended: a text that, once trimmed, does not start with a fence is
    cut to the span from its first opening brace to its last closing brace
    when the opening brace comes first; it gives the empty string when the
    last closing brace comes before the first opening brace; it is returned
    merely trimmed when it has no opening or no closing brace. *)
Theorem C5_unfenced_text (text : string) :
  startswith (strip (of_string text)) Sanitizer.fence = false ->
  (forall pre mid post : chars,
     strip (of_string text) = pre ++ "{"%char :: mid ++ "}"%char :: post ->
     ~ In "{"%char pre -> ~ In "}"%char post ->
     Sanitizer._clean_gemini_json text
     = to_string ("{"%char :: mid ++ ["}"%char]))
  /\
  (forall pre mid post : chars,
     strip (of_string text) = pre ++ "}"%char :: mid ++ "{"%char :: post ->
     ~ In "{"%char pre -> ~ In "{"%char mid ->
     ~ In "}"%char mid -> ~ In "}"%char post ->
     Sanitizer._clean_gemini_json text = "")
  /\
  (~ In "{"%char (strip (of_string text))
   \/ ~ In "}"%char (strip (of_string text)) ->
   Sanitizer._clean_gemini_json text = to_string (strip (of_string text))).
Proof.
  intros Hf. unfold Sanitizer._clean_gemini_json.
  rewrite (SanitizerSpan.clean_chars_unfenced _ Hf).
  split; [|split].
  - intros pre mid post Ht Hpre Hpost. rewrite Ht. f_equal.
    replace (pre ++ "{"%char :: mid ++ "}"%char :: post)
      with (pre ++ (Sanitizer.lbrace :: mid ++ [Sanitizer.rbrace]) ++ post)
      by (cbn [app]; now rewrite <- app_assoc).
    rewrite (SanitizerSpan.brace_span_around _ _ _ Hpre Hpost).
    apply SanitizerFacts.strip_braced. now exists mid.
  - intros pre mid post Ht H1 H2 H3 H4. rewrite Ht.
    pose proof (SanitizerSpan.brace_span_crossed _ _ _ H1 H2 H3 H4) as E.
    unfold Sanitizer.lbrace, Sanitizer.rbrace in E. now rewrite E.
  - intros Hb. f_equal.
    assert (Hs : Sanitizer.brace_span (strip (of_string text))
                 = strip (of_string text)).
    { unfold Sanitizer.brace_span, find, rfind.
      destruct Hb as [Hb | Hb].
      - apply PyStrFacts.index_of_none in Hb.
        unfold Sanitizer.lbrace. now rewrite Hb.
      - apply PyStrFacts.rindex_of_none in Hb.
        unfold Sanitizer.rbrace. rewrite Hb. now rewrite andb_false_r. }
    rewrite Hs. apply PyStrFacts.strip_by_idem.
Qed.

Lemma C5_unfenced_text_witness :
  Sanitizer._clean_gemini_json "Here it is: {'a': 1} done" = "{'a': 1}" /\
  Sanitizer._clean_gemini_json "  } crossed {  " = "" /\
  Sanitizer._clean_gemini_json "  plain text, no braces  "
  = "plain text, no braces".
Proof.
  split; [|split].
  - apply (proj1 (C5_unfenced_text "Here it is: {'a': 1} done" eq_refl)
             (of_string "Here it is: ") (of_string "'a': 1")
             (of_string " done")).
    + reflexivity.
    + cbv. intuition discriminate.
    + cbv. intuition discriminate.
  - apply (proj1 (proj2 (C5_unfenced_text "  } crossed {  " eq_refl))
             [] (of_string " crossed ") []).
    + reflexivity.
    + cbv. intuition discriminate.
    + cbv. intuition discriminate.
    + cbv. intuition discriminate.
    + cbv. intuition discriminate.
  - apply (proj2 (proj2 (C5_unfenced_text "  plain text, no braces  "
                           eq_refl))).
    left. cbv. intuition discriminate.
Defined.

(** ** C6 *)

(** C6, as stated, fails: an asset that brings its own [props] without
    [src] gives an action whose property bag has no [src]. *)
Lemma C6_explicit_props_without_src :
  exists doc S_ R A,
    @_normalize_to_scene_schema sample_lib
      (VDict [("scenes", VList [
                 VDict [("assets", VList [
                           VDict [("type", VStr "video");
                                  ("src", VStr "clip.mp4");
                                  ("props", VDict [("width", VInt 1920)])]])]]);
              ("meta", VDict [("totalDurationSec", VInt 3)])]) = Ok doc /\
    scenes doc = [S_] /\ sc_rows S_ = [R] /\ row_actions R = [A] /\
    act_props A = [("width", VInt 1920)] /\
    dict_mem "src" (act_props A) = false.
Proof. do 4 eexists. repeat split. Qed.

(** C6, amended: in every successfully normalized document, the action of
    an asset that has no [props] key carries the asset mapping with [src]
    set (the asset's own [src], else the empty string), so it holds a
    [src]; the action of an asset with a [props] mapping carries that
    mapping as it is, with a [src] only if the mapping has one. *)
Theorem C6_props_of_action (L : PyLib) (raw : value) (doc : SceneSchema)
  (d : dict) (scs : list value) (i : nat) (s : dict) (assets : list value)
  (j : nat) (a : dict) :
  _normalize_to_scene_schema raw = Ok doc ->
  raw = VDict d ->
  iter (get d "scenes" (VList [])) = Ok scs ->
  nth_error scs i = Some (VDict s) ->
  iter (get s "assets" (VList [])) = Ok assets ->
  nth_error assets j = Some (VDict a) ->
  exists S_ R A,
    nth_error (scenes doc) i = Some S_ /\
    sc_rows S_ = [R] /\
    nth_error (row_actions R) j = Some A /\
    (dict_get "props" a = None ->
       act_props A = dict_set "src" (get a "src" (VStr "")) a /\
       dict_mem "src" (act_props A) = true) /\
    (forall p, dict_get "props" a = Some p ->
       p = VDict (act_props A) /\
       dict_mem "src" (act_props A)
       = match p with VDict q => dict_mem "src" q | _ => false end).
Proof.
  intros H Hraw Hscs Hi Hassets Hj.
  destruct (NormalizerFacts.action_of_asset _ _ _ _ _ _ _ _ _ H Hraw Hscs Hi Hassets Hj)
    as (S_ & R & A & av & HS & HR & HA & Hn & Hv).
  exists S_, R, A. split; [exact HS|]. split; [exact HR|]. split; [exact HA|].
  pose proof (NormalizerFacts.asset_props _ _ _ _ _ _ Hn Hv) as Hp.
  unfold get in Hp at 1. split.
  - intros Hnone. rewrite Hnone in Hp. injection Hp as Hp. rewrite <- Hp.
    split; [reflexivity | apply NormalizerFacts.dict_mem_set].
  - intros p Hsome. rewrite Hsome in Hp. subst p. now split.
Qed.

Lemma C6_props_of_action_witness :
  exists S_ R A,
    nth_error
      (scenes {| scenes := [
         {| sc_id := "scene_1"; sc_title := Some "Scene 1";
            sc_durationSec := float_of_Z 3;
            sc_rows := [
              {| row_id := "row-1-1"; row_kind := "video";
                 row_actions := [
                   {| act_id := "action-1-1"; act_type := "audio";
                      act_startSec := float_of_Z 0;
                      act_durationSec := float_of_Z 3;
                      act_props := [("type", VStr "music"); ("src", VStr "")];
                      act_effects := Some [] |}];
                 row_transitions := Some [] |}] |}];
         meta := {| aspectRatio := Some "16:9"; fps := Some 30%Z;
                    totalDurationSec := float_of_Z 3;
                    generator := Some "scene-builder-agent";
                    version := Some "1.0.0" |} |}) 0 = Some S_ /\
    sc_rows S_ = [R] /\
    nth_error (row_actions R) 0 = Some A /\
    (dict_get "props" [("type", VStr "music")] = None ->
       act_props A
       = dict_set "src" (get [("type", VStr "music")] "src" (VStr ""))
           [("type", VStr "music")] /\
       dict_mem "src" (act_props A) = true) /\
    (forall p, dict_get "props" [("type", VStr "music")] = Some p ->
       p = VDict (act_props A) /\
       dict_mem "src" (act_props A)
       = match p with VDict q => dict_mem "src" q | _ => false end).
Proof.
  exact (C6_props_of_action sample_lib
           (VDict [("scenes", VList [
                      VDict [("assets", VList [VDict [("type", VStr "music")]])]]);
                   ("meta", VDict [("totalDurationSec", VInt 3)])])
           _ _ _ 0 _ _ 0 [("type", VStr "music")]
           eq_refl eq_refl eq_refl eq_refl eq_refl eq_refl).
Defined.

(** ** C7 *)

(** C7, as stated, fails: a requested total duration of 0 is replaced by
    the default 10. *)
Lemma C7_zero_duration_replaced :
  at_path
    (mock_scene "0123456789abcdef0123456789abcdef" "A short clip"
       (Some {| c_totalDurationSec := Some 0%Z; c_aspectRatio := Some "16:9";
                c_fps := Some 30%Z; c_language := Some "en";
                c_deterministic := Some false |}))
    [Key "scenes"; Idx 0; Key "durationSec"] = Some (VInt 10) /\
  at_path
    (mock_scene "0123456789abcdef0123456789abcdef" "A short clip"
       (Some {| c_totalDurationSec := Some 0%Z; c_aspectRatio := Some "16:9";
                c_fps := Some 30%Z; c_language := Some "en";
                c_deterministic := Some false |}))
    [Key "meta"; Key "totalDurationSec"] = Some (VInt 10).
Proof. split; reflexivity. Qed.

(** C7, amended: the fallback document has one scene, whose duration is
    [constraints.totalDurationSec] when that field is given and is not 0,
    and 10 when it is absent, [None] or 0; [meta.totalDurationSec] is the
    same number. *)
Theorem C7_fallback_duration (uuid_hex prompt_ : string)
  (constraints : option SceneInputConstraints) :
  exists sc,
    at_path (mock_scene uuid_hex prompt_ constraints) [Key "scenes"]
      = Some (VList [sc]) /\
    at_path sc [Key "durationSec"]
      = Some (VInt match constraints with
                   | Some c =>
                       match c_totalDurationSec c with
                       | Some t => if (t =? 0)%Z then 10%Z else t
                       | None => 10%Z
                       end
                   | None => 10%Z
                   end) /\
    at_path (mock_scene uuid_hex prompt_ constraints)
      [Key "meta"; Key "totalDurationSec"]
      = at_path sc [Key "durationSec"].
Proof.
  eexists. split; [reflexivity|]. split; [|reflexivity].
  simpl. unfold field_or, nonzero_int.
  destruct constraints as [c|]; [|reflexivity].
  destruct (c_totalDurationSec c) as [t|]; [|reflexivity].
  now destruct (t =? 0)%Z.
Qed.

(** ** C8 *)

(** C8: without adapter output, the prompt "Create a 10s motivational
    video" with [totalDurationSec = 10] and [deterministic = True] (the
    other constraints at their defaults) gives one scene with one row of
    two actions, a video and a text, a scene duration of 10, and a plan
    that counts one scene. *)
Theorem C8_fallback_scenario (L : PyLib) (raw_output : option string)
  (uuid_hex : string) :
  no_output raw_output = true ->
  exists out S_ R A1 A2,
    run_pipeline raw_output uuid_hex "Create a 10s motivational video"
      (Some {| c_totalDurationSec := Some 10%Z; c_aspectRatio := Some "16:9";
               c_fps := Some 30%Z; c_language := Some "en";
               c_deterministic := Some true |}) = Ok out /\
    scenes (scene out) = [S_] /\
    sc_rows S_ = [R] /\
    row_actions R = [A1; A2] /\
    act_type A1 = "video" /\ act_type A2 = "text" /\
    sc_durationSec S_ = float_of_Z 10 /\
    scenesCount (plan out) = 1.
Proof.
  intros Hno. rewrite (PipelineFacts.run_pipeline_fallback _ _ _ _ Hno).
  assert (E : float_range
                (fallback_duration
                   (Some {| c_totalDurationSec := Some 10%Z;
                            c_aspectRatio := Some "16:9";
                            c_fps := Some 30%Z; c_language := Some "en";
                            c_deterministic := Some true |})) = true)
    by (vm_compute; reflexivity).
  rewrite E. do 5 eexists. repeat split.
Qed.

Lemma C8_fallback_scenario_witness :
  exists out S_ R A1 A2,
    @run_pipeline sample_lib None "0123456789abcdef0123456789abcdef"
      "Create a 10s motivational video"
      (Some {| c_totalDurationSec := Some 10%Z; c_aspectRatio := Some "16:9";
               c_fps := Some 30%Z; c_language := Some "en";
               c_deterministic := Some true |}) = Ok out /\
    scenes (scene out) = [S_] /\
    sc_rows S_ = [R] /\
    row_actions R = [A1; A2] /\
    act_type A1 = "video" /\ act_type A2 = "text" /\
    sc_durationSec S_ = float_of_Z 10 /\
    scenesCount (plan out) = 1.
Proof.
  exact (C8_fallback_scenario sample_lib None
           "0123456789abcdef0123456789abcdef" eq_refl).
Defined.

(** ** C9 *)

(** C9: for a fixed prompt and fixed constraints, two runs without adapter
    output, whatever their process ids, end alike: the same scene count and
    the same scene durations, or the same exception. When the duration fits
    a float both return one scene of that duration. *)
Theorem C9_fallback_deterministic (L : PyLib) (raw1 raw2 : option string)
  (uuid1 uuid2 prompt_ : string) (constraints : option SceneInputConstraints) :
  no_output raw1 = true -> no_output raw2 = true ->
  observed (run_pipeline raw1 uuid1 prompt_ constraints)
  = observed (run_pipeline raw2 uuid2 prompt_ constraints)
  /\
  (float_range (fallback_duration constraints) = true ->
   observed (run_pipeline raw1 uuid1 prompt_ constraints)
   = Ok (1, [float_of_Z (fallback_duration constraints)])).
Proof.
  intros H1 H2.
  rewrite (PipelineFacts.run_pipeline_fallback _ uuid1 _ _ H1).
  rewrite (PipelineFacts.run_pipeline_fallback _ uuid2 _ _ H2).
  split; [reflexivity|]. now intros ->.
Qed.

Lemma C9_fallback_deterministic_witness :
  observed (@run_pipeline sample_lib None "0123456789abcdef0123456789abcdef"
              "A day at the sea" None)
  = observed (@run_pipeline sample_lib (Some "") "fedcba9876543210fedcba9876543210"
                "A day at the sea" None)
  /\
  (float_range (fallback_duration None) = true ->
   observed (@run_pipeline sample_lib None "0123456789abcdef0123456789abcdef"
               "A day at the sea" None)
   = Ok (1, [float_of_Z (fallback_duration None)])).
Proof.
  exact (C9_fallback_deterministic sample_lib None (Some "")
           "0123456789abcdef0123456789abcdef" "fedcba9876543210fedcba9876543210"
           "A day at the sea" None eq_refl eq_refl).
Defined.

(** ** C10 *)

(** C10: in every successfully normalized document, the action of an
    asset that has no [type] key has the type ["video"]. *)
Theorem C10_missing_type_is_video (L : PyLib) (raw : value) (doc : SceneSchema)
  (d : dict) (scs : list value) (i : nat) (s : dict) (assets : list value)
  (j : nat) (a : dict) :
  _normalize_to_scene_schema raw = Ok doc ->
  raw = VDict d ->
  iter (get d "scenes" (VList [])) = Ok scs ->
  nth_error scs i = Some (VDict s) ->
  iter (get s "assets" (VList [])) = Ok assets ->
  nth_error assets j = Some (VDict a) ->
  dict_get "type" a = None ->
  exists S_ R A,
    nth_error (scenes doc) i = Some S_ /\
    sc_rows S_ = [R] /\
    nth_error (row_actions R) j = Some A /\
    act_type A = "video".
Proof.
  intros H Hraw Hscs Hi Hassets Hj Ht.
  destruct (NormalizerFacts.action_of_asset _ _ _ _ _ _ _ _ _ H Hraw Hscs Hi Hassets Hj)
    as (S_ & R & A & av & HS & HR & HA & Hn & Hv).
  exists S_, R, A. repeat split; try assumption.
  exact (NormalizerFacts.asset_type_default _ _ _ _ _ _ Ht Hn Hv).
Qed.

Lemma C10_missing_type_is_video_witness :
  exists S_ R A,
    nth_error
      (scenes {| scenes := [
         {| sc_id := "intro"; sc_title := Some "Scene 1";
            sc_durationSec := float_of_Z 4;
            sc_rows := [
              {| row_id := "row-1-1"; row_kind := "video";
                 row_actions := [
                   {| act_id := "action-1-1"; act_type := "video";
                      act_startSec := float_of_Z 0;
                      act_durationSec := float_of_Z 4;
                      act_props := [("src", VStr "clip.mp4")];
                      act_effects := Some [] |}];
                 row_transitions := Some [] |}] |}];
         meta := {| aspectRatio := Some "16:9"; fps := Some 30%Z;
                    totalDurationSec := float_of_Z 4;
                    generator := Some "scene-builder-agent";
                    version := Some "1.0.0" |} |}) 0 = Some S_ /\
    sc_rows S_ = [R] /\
    nth_error (row_actions R) 0 = Some A /\
    act_type A = "video".
Proof.
  exact (C10_missing_type_is_video sample_lib
           (VDict [("scenes", VList [
                      VDict [("id", VStr "intro");
                             ("durationSec", VInt 4);
                             ("assets", VList [VDict [("src", VStr "clip.mp4")]])]]);
                   ("meta", VDict [("totalDurationSec", VInt 4)])])
           _ _ _ 0 _ _ 0 [("src", VStr "clip.mp4")]
           eq_refl eq_refl eq_refl eq_refl eq_refl eq_refl eq_refl).
Defined.

(* ================================================================== *)
(** * More on the sanitizer *)
(* ================================================================== *)

Module SanitizerShape.
Import PyStr PyStrFacts Sanitizer Vocabulary SanitizerFacts SanitizerSpan.

Ltac app_eq :=
  repeat (progress cbn [app] || rewrite <- app_assoc); reflexivity.

Lemma braced_no_fence m : braced m -> startswith m fence = false.
Proof. intros [mid ->]. reflexivity. Qed.

(** The three forms of a sanitized text. *)
Lemma clean_chars_cases x :
  clean_chars x = []
  \/ braced (clean_chars x)
  \/ (clean_chars x = strip (clean_chars x) /\
      startswith (clean_chars x) fence = false /\
      (~ In lbrace (clean_chars x) \/ ~ In rbrace (clean_chars x))).
Proof.
  destruct x as [|a x]; [now left|].
  unfold clean_chars.
  set (t := strip_fence (strip (a :: x))).
  destruct (brace_span_cases t) as [[E Hno]|[E|Hb]].
  - right. right. rewrite E. split; [|split].
    + symmetry. apply strip_by_idem.
    + apply trimmed_no_fence.
    + destruct Hno as [H|H]; [left|right]; intros Hin; apply H;
        exact (in_strip _ _ _ Hin).
  - left. now rewrite E.
  - right. left. now rewrite (strip_braced _ Hb).
Qed.

Lemma clean_chars_trimmed x : strip (clean_chars x) = clean_chars x.
Proof.
  destruct (clean_chars_cases x) as [E|[Hb|[E _]]].
  - now rewrite E.
  - now apply strip_braced.
  - now symmetry.
Qed.

Lemma clean_chars_no_fence x : startswith (clean_chars x) fence = false.
Proof.
  destruct (clean_chars_cases x) as [E|[Hb|[_ [E _]]]].
  - now rewrite E.
  - now apply braced_no_fence.
  - exact E.
Qed.

(** ** A fenced object *)

Lemma startswith_fence_head c l :
  c <> backtick -> startswith (c :: l) fence = false.
Proof.
  intros Hc. rewrite startswith_fence_lead. cbn [lead].
  destruct (eqc c backtick) eqn:E; [|reflexivity].
  apply eqc_true in E. contradiction.
Qed.

Lemma contains_cons_other c l :
  c <> backtick -> contains (c :: l) fence = contains l fence.
Proof.
  intros Hc. cbn [contains]. now rewrite (startswith_fence_head c l Hc).
Qed.

Lemma lead_app_other l c :
  c <> backtick -> lead (l ++ [c]) = lead l.
Proof.
  intros Hc. induction l as [|x l IH]; cbn [app lead].
  - destruct (eqc c backtick) eqn:E; [|reflexivity].
    apply eqc_true in E. contradiction.
  - now rewrite IH.
Qed.

Lemma contains_app_other l c :
  c <> backtick -> contains (l ++ [c]) fence = contains l fence.
Proof.
  intros Hc. induction l as [|x l IH].
  - cbn [app]. rewrite (contains_cons_other c [] Hc). reflexivity.
  - change ((x :: l) ++ [c]) with (x :: (l ++ [c])).
    cbn [contains]. rewrite IH. f_equal.
    rewrite !startswith_fence_lead.
    change (x :: l ++ [c]) with ((x :: l) ++ [c]).
    now rewrite lead_app_other.
Qed.

Lemma replace_absent l :
  contains l fence = false -> replace l fence [] = l.
Proof.
  induction l as [|c l IH]; [reflexivity|].
  intros H. cbn [contains] in H. apply orb_false_iff in H as [H1 H2].
  rewrite (replace_fence_miss _ _ H1). now rewrite IH.
Qed.

Lemma rstrip_drops p l bs :
  Forall (fun b => p b = true) bs -> rstrip_by p (l ++ bs) = rstrip_by p l.
Proof.
  intros Hbs. induction l as [|c l IH]; cbn [app].
  - induction Hbs as [|b bs Hb _ IHb]; [reflexivity|].
    cbn [rstrip_by]. rewrite IHb. cbn [rstrip_by]. now rewrite Hb.
  - cbn [rstrip_by]. now rewrite IH.
Qed.

Lemma rindex_of_app_other c l x :
  x <> c -> rindex_of c (l ++ [x]) = rindex_of c l.
Proof.
  intros Hx. induction l as [|y l IH]; cbn [app rindex_of].
  - destruct (eqc x c) eqn:E; [|reflexivity].
    apply eqc_true in E. contradiction.
  - now rewrite IH.
Qed.

(** ** Trimming around an object *)

Lemma lstrip_app_kept p l1 l2 :
  head_kept p l2 -> l2 <> [] ->
  lstrip_by p (l1 ++ l2) = lstrip_by p l1 ++ l2.
Proof.
  intros Hk Hne. induction l1 as [|c l1 IH]; cbn [app lstrip_by].
  - now apply lstrip_fixed.
  - destruct (p c); [exact IH | reflexivity].
Qed.

Lemma rstrip_app_kept p l c post :
  p c = false ->
  rstrip_by p ((l ++ [c]) ++ post) = (l ++ [c]) ++ rstrip_by p post.
Proof.
  intros Hc. induction l as [|x l IH].
  - cbn [app rstrip_by]. destruct (rstrip_by p post); [now rewrite Hc|reflexivity].
  - change (((x :: l) ++ [c]) ++ post) with (x :: ((l ++ [c]) ++ post)).
    cbn [rstrip_by]. rewrite IH.
    destruct ((l ++ [c]) ++ rstrip_by p post) eqn:E.
    + exfalso. destruct l; discriminate.
    + cbn [app]. now rewrite E.
Qed.

Lemma strip_around pre mid post :
  strip (pre ++ (lbrace :: mid ++ [rbrace]) ++ post)
  = lstrip_by is_space pre ++ (lbrace :: mid ++ [rbrace])
    ++ rstrip_by is_space post.
Proof.
  unfold strip, strip_by.
  rewrite lstrip_app_kept; [| reflexivity | discriminate].
  replace (lstrip_by is_space pre ++ (lbrace :: mid ++ [rbrace]) ++ post)
    with (((lstrip_by is_space pre ++ lbrace :: mid) ++ [rbrace]) ++ post)
    by app_eq.
  rewrite rstrip_app_kept by reflexivity. app_eq.
Qed.

(** Text around a JSON object is dropped: when no opening brace comes
    before the object, no closing brace after it, and the trimmed text does
    not start with a fence, the sanitizer returns the object. *)
Lemma clean_around pre mid post :
  ~ In lbrace pre -> ~ In rbrace post ->
  startswith (strip (pre ++ (lbrace :: mid ++ [rbrace]) ++ post)) fence = false ->
  clean_chars (pre ++ (lbrace :: mid ++ [rbrace]) ++ post)
  = lbrace :: mid ++ [rbrace].
Proof.
  intros Hpre Hpost Hf. unfold clean_chars.
  destruct (pre ++ (lbrace :: mid ++ [rbrace]) ++ post) eqn:E.
  { destruct pre; discriminate. }
  rewrite <- E in *. unfold strip_fence. rewrite Hf.
  rewrite strip_around, brace_span_around.
  - apply strip_braced. now exists mid.
  - intros H. apply Hpre. exact (in_lstrip _ _ _ H).
  - intros H. apply Hpost. exact (in_rstrip _ _ _ H).
Qed.

(** ** A fenced object *)

Lemma space_class c :
  is_space c = true ->
  c <> backtick /\ c <> lbrace /\ c <> rbrace /\
  eqc "j"%char (lower_char c) = false.
Proof.
  destruct c as [[] [] [] [] [] [] [] []]; intros H; cbv in H;
    try discriminate H; repeat split; discriminate.
Qed.

Lemma lower_j_not_tick c : lower_char c = "j"%char -> c <> backtick.
Proof. intros H ->. discriminate H. Qed.

Lemma json_tag_class tag :
  lower tag = of_string "json" ->
  List.length tag = 4 /\ Forall (fun c => c <> backtick) tag.
Proof.
  destruct tag as [|a [|b [|c [|d [|e tag]]]]]; try discriminate.
  intros H. injection H as Ha Hb Hc Hd. split; [reflexivity|].
  repeat constructor; intros ->; discriminate.
Qed.

Lemma tick_false c : c <> backtick -> tick c = false.
Proof.
  intros H. unfold tick. cbn [existsb]. rewrite orb_false_r.
  destruct (eqc c backtick) eqn:E; [|reflexivity].
  apply eqc_true in E. contradiction.
Qed.

Lemma rstrip_all_kept p l :
  Forall (fun c => p c = false) l -> rstrip_by p l = l.
Proof.
  induction 1 as [|c l Hc _ IH]; [reflexivity|].
  cbn [rstrip_by]. rewrite IH. destruct l; [now rewrite Hc | reflexivity].
Qed.

Lemma head_kept_app p l1 l2 :
  Forall (fun c => p c = false) l1 -> head_kept p l2 -> head_kept p (l1 ++ l2).
Proof. intros H1 H2. destruct H1; [exact H2 | assumption]. Qed.

Lemma contains_pre ws l :
  Forall (fun c => c <> backtick) ws ->
  contains (ws ++ l) fence = contains l fence.
Proof.
  induction 1 as [|c ws Hc _ IH]; [reflexivity|].
  cbn [app]. now rewrite contains_cons_other.
Qed.

Lemma contains_post ws : forall l,
  Forall (fun c => c <> backtick) ws ->
  contains (l ++ ws) fence = contains l fence.
Proof.
  induction ws as [|c ws IH]; intros l H.
  - now rewrite app_nil_r.
  - inversion H as [|? ? Hc Hws]; subst.
    replace (l ++ c :: ws) with ((l ++ [c]) ++ ws) by app_eq.
    rewrite IH by exact Hws. now apply contains_app_other.
Qed.

Lemma spaces_no_tick ws :
  Forall (fun c => is_space c = true) ws -> Forall (fun c => c <> backtick) ws.
Proof.
  intros H. eapply Forall_impl; [|exact H]. intros c Hc.
  now apply space_class in Hc.
Qed.

(** The text left after the fence branch: the tag is gone. *)
Lemma strip_fence_tagged tag ws1 mid ws2 :
  tag = [] \/ lower tag = of_string "json" ->
  Forall (fun c => is_space c = true) ws1 ->
  Forall (fun c => is_space c = true) ws2 ->
  contains (lbrace :: mid ++ [rbrace]) fence = false ->
  strip_fence
    (fence ++ tag ++ ws1 ++ (lbrace :: mid ++ [rbrace]) ++ ws2 ++ fence)
  = ws1 ++ (lbrace :: mid ++ [rbrace]) ++ ws2.
Proof.
  intros Htag H1 H2 Hc.
  pose proof (spaces_no_tick _ H1) as T1.
  pose proof (spaces_no_tick _ H2) as T2.
  assert (Tt : Forall (fun c => c <> backtick) tag).
  { destruct Htag as [-> | Ht]; [constructor | now apply json_tag_class]. }
  unfold strip_fence.
  change (startswith (fence ++ ?x) fence) with true. cbv iota.
  set (J := lbrace :: mid ++ [rbrace]).
  (* the backticks at both ends *)
  assert (Hs : strip_chars [backtick]
                 (fence ++ tag ++ ws1 ++ J ++ ws2 ++ fence)
               = tag ++ ws1 ++ J ++ ws2).
  { unfold strip_chars, strip_by. fold tick.
    change (lstrip_by tick (fence ++ ?x)) with (lstrip_by tick x).
    rewrite lstrip_fixed.
    2:{ replace (tag ++ ws1 ++ J ++ ws2 ++ fence)
          with ((tag ++ ws1) ++ J ++ ws2 ++ fence) by app_eq.
        apply head_kept_app; [|reflexivity].
        apply Forall_app. split; (eapply Forall_impl; [|eassumption]);
          intros c; apply tick_false. }
    replace (tag ++ ws1 ++ J ++ ws2 ++ fence)
      with (((tag ++ ws1 ++ lbrace :: mid) ++ [rbrace]) ++ ws2 ++ fence)
      by (subst J; app_eq).
    rewrite rstrip_app_kept by reflexivity.
    rewrite rstrip_drops by (repeat constructor).
    rewrite rstrip_all_kept
      by (eapply Forall_impl; [|exact T2]; intros c; apply tick_false).
    subst J. app_eq. }
  rewrite Hs.
  (* the tag *)
  assert (Ht : (if startswith (lower (tag ++ ws1 ++ J ++ ws2)) (of_string "json")
                then skipn 4 (tag ++ ws1 ++ J ++ ws2)
                else tag ++ ws1 ++ J ++ ws2) = ws1 ++ J ++ ws2).
  { destruct Htag as [-> | Ht].
    - cbn [app].
      assert (Hn : startswith (lower (ws1 ++ J ++ ws2)) (of_string "json") = false).
      { destruct H1 as [|g ws1 Hg _]; [reflexivity|].
        apply space_class in Hg. destruct Hg as (_ & _ & _ & Hg).
        cbn [app lower map]. cbn [of_string list_ascii_of_string startswith].
        now rewrite Hg. }
      now rewrite Hn.
    - destruct (json_tag_class _ Ht) as [Hl _].
      unfold lower. rewrite map_app. fold lower. rewrite Ht.
      rewrite startswith_app by reflexivity.
      rewrite <- Hl. apply skipn_length_app. }
  rewrite Ht.
  (* nothing to replace *)
  apply replace_absent.
  rewrite contains_pre by exact T1.
  rewrite contains_post by exact T2. exact Hc.
Qed.

(** A fenced JSON object, with or without the [json] tag (in any case),
    with any white space around the object, is unwrapped when the object
    itself holds no fence. *)
Lemma fenced_trimmed body :
  strip (fence ++ body ++ fence) = fence ++ body ++ fence.
Proof.
  replace (fence ++ body ++ fence)
    with (backtick :: (backtick :: backtick :: body ++ [backtick; backtick])
                      ++ [backtick])
    by (unfold fence; cbn [of_string list_ascii_of_string]; app_eq).
  now apply strip_by_enclosed.
Qed.

Lemma clean_fenced_object tag ws1 mid ws2 :
  tag = [] \/ lower tag = of_string "json" ->
  Forall (fun c => is_space c = true) ws1 ->
  Forall (fun c => is_space c = true) ws2 ->
  contains (lbrace :: mid ++ [rbrace]) fence = false ->
  clean_chars
    (fence ++ tag ++ ws1 ++ (lbrace :: mid ++ [rbrace]) ++ ws2 ++ fence)
  = lbrace :: mid ++ [rbrace].
Proof.
  intros Htag H1 H2 Hc.
  remember (fence ++ tag ++ ws1 ++ (lbrace :: mid ++ [rbrace]) ++ ws2 ++ fence)
    as text eqn:Et.
  assert (Hs : strip text = text).
  { subst text.
    replace (fence ++ tag ++ ws1 ++ (lbrace :: mid ++ [rbrace]) ++ ws2 ++ fence)
      with (backtick :: (backtick :: backtick :: tag ++ ws1
                         ++ (lbrace :: mid ++ [rbrace]) ++ ws2
                         ++ [backtick; backtick]) ++ [backtick])
      by (unfold fence; cbn [of_string list_ascii_of_string]; app_eq).
    now apply strip_by_enclosed. }
  assert (Hf : strip_fence text = ws1 ++ (lbrace :: mid ++ [rbrace]) ++ ws2).
  { subst text. now apply strip_fence_tagged. }
  unfold clean_chars. destruct text as [|a l]; [discriminate Et|].
  rewrite Hs, Hf, brace_span_around.
  - apply strip_braced. now exists mid.
  - intros Hin. rewrite Forall_forall in H1.
    apply H1, space_class in Hin. tauto.
  - intros Hin. rewrite Forall_forall in H2.
    apply H2, space_class in Hin. tauto.
Qed.

End SanitizerShape.

(* ================================================================== *)
(** * More on the normalization engine *)
(* ================================================================== *)

Module NormalizerMore.
Import PyStr Py Schema Normalizer Vocabulary NormalizerFacts.

Section Engine.
Context {L : PyLib}.

Lemma for_enumerate_length {A B} (f : nat -> A -> result B) l :
  forall start ys, for_enumerate f start l = Ok ys ->
  List.length ys = List.length l.
Proof.
  induction l as [|a l IH]; intros start ys H.
  - injection H as <-. reflexivity.
  - simpl in H. apply bind_ok in H as [y [_ H]].
    apply bind_ok in H as [ys' [Hys H]]. injection H as <-.
    simpl. f_equal. exact (IH _ _ Hys).
Qed.

Lemma omap_length {A B} (f : A -> option B) l :
  forall ys, omap f l = Some ys -> List.length ys = List.length l.
Proof.
  induction l as [|a l IH]; intros ys H.
  - injection H as <-. reflexivity.
  - simpl in H. apply obind_some in H as [y [_ H]].
    apply obind_some in H as [ys' [Hys H]]. injection H as <-.
    simpl. f_equal. exact (IH _ Hys).
Qed.

(** ** The transitions *)

Lemma dict_set_twice k v d : dict_set k v (dict_set k v d) = dict_set k v d.
Proof.
  induction d as [|[k' v'] d IH]; simpl.
  - now rewrite String.eqb_refl.
  - destruct (String.eqb k' k) eqn:E; simpl.
    + now rewrite String.eqb_refl.
    + now rewrite E, IH.
Qed.

Lemma name_transition_again t t' :
  name_transition t = Ok t' -> name_transition t' = Ok t'.
Proof.
  destruct t as [| | | |s|l|d]; simpl; try discriminate.
  - destruct (contains _ _); discriminate.
  - destruct (existsb _ l); discriminate.
  - destruct (negb (dict_mem "name" d) || negb (truthy (get d "name" VNone)))
      eqn:E; intros [= <-].
    + simpl. unfold dict_mem, get.
      rewrite dict_get_set_same. rewrite dict_get_set_other by discriminate.
      simpl negb. rewrite orb_false_l.
      fold (get d "type" (VStr "unknown")).
      destruct (negb (truthy (get d "type" (VStr "unknown"))));
        [|reflexivity].
      now rewrite dict_set_twice.
    + simpl. now rewrite E.
Qed.

Lemma for_each_again {A} (f : A -> result A) l : forall l',
  (forall x y, f x = Ok y -> f y = Ok y) ->
  for_each f l = Ok l' -> for_each f l' = Ok l'.
Proof.
  unfold for_each. generalize 0 as start.
  induction l as [|a l IH]; intros start l' Hf H.
  - injection H as <-. reflexivity.
  - simpl in H. apply bind_ok in H as [y [Hy H]].
    apply bind_ok in H as [ys [Hys H]]. injection H as <-.
    simpl. rewrite (Hf _ _ Hy). simpl.
    now rewrite (IH (S start) ys Hf Hys).
Qed.

(** The loop over the transitions changes nothing when it is run again. *)
Lemma name_transitions_again ts ts' :
  name_transitions ts = Ok ts' -> name_transitions ts' = Ok ts'.
Proof.
  destruct ts as [| | | |s|l|d]; try discriminate.
  - unfold name_transitions. intros H.
    apply bind_ok in H as [items [Hi H]].
    apply bind_ok in H as [r [Hr H]]. injection H as <-.
    rewrite Hi. simpl. now rewrite Hr.
  - unfold name_transitions at 1. intros H.
    apply bind_ok in H as [l' [Hl H]]. injection H as <-.
    unfold name_transitions.
    now rewrite (for_each_again _ _ _ name_transition_again Hl).
  - unfold name_transitions. intros H.
    apply bind_ok in H as [items [Hi H]].
    apply bind_ok in H as [r [Hr H]]. injection H as <-.
    rewrite Hi. simpl. now rewrite Hr.
Qed.

(** ** What a scene goes through *)

Lemma normalize_scene_inv idx sc scv :
  normalize_scene idx sc = Ok scv ->
  exists s assets actions trans,
    sc = VDict s /\
    iter (get s "assets" (VList [])) = Ok assets /\
    for_enumerate (normalize_asset idx (get s "durationSec" (VInt 3))) 1 assets
      = Ok actions /\
    name_transitions (wrap_dict (get s "transitions" (VList []))) = Ok trans /\
    scv = VDict [("id", get s "id" (VStr ("scene_" ++ str_of_nat idx)));
                 ("title", get s "title" (VStr ("Scene " ++ str_of_nat idx)));
                 ("description", get s "description" (VStr ""));
                 ("rows", VList [
                    VDict [("id", VStr ("row-" ++ str_of_nat idx ++ "-1"));
                           ("kind", VStr "video");
                           ("actions", VList actions);
                           ("transitions", trans)]]);
                 ("durationSec", get s "durationSec" (VInt 3))].
Proof.
  unfold normalize_scene. intros H.
  destruct sc as [| | | | | |s]; try discriminate.
  apply bind_ok in H as [t1 [Ht1 H]]. apply bind_ok in H as [assets [Ha H]].
  apply bind_ok in H as [actions [Hacts H]].
  apply bind_ok in H as [t2 [Ht2 H]]. injection H as <-.
  rewrite (name_transitions_again _ _ Ht1) in Ht2. injection Ht2 as <-.
  now exists s, assets, actions, t1.
Qed.

(** The scene of the document for a scene object of the engine. *)
Lemma validate_scene_inv actions trans rid i1 t1 d1 dur S :
  validate_SceneItem
    (VDict [("id", i1); ("title", t1); ("description", d1);
            ("rows", VList [VDict [("id", VStr rid); ("kind", VStr "video");
                                   ("actions", VList actions);
                                   ("transitions", trans)]]);
            ("durationSec", dur)]) = Some S ->
  v_str i1 = Some (sc_id S) /\
  v_optional v_str t1 = Some (sc_title S) /\
  v_float dur = Some (sc_durationSec S) /\
  exists R, sc_rows S = [R] /\ row_id R = rid /\ row_kind R = "video" /\
            omap validate_Action actions = Some (row_actions R) /\
            v_optional (v_list validate_Effect) trans = Some (row_transitions R).
Proof.
  unfold validate_SceneItem, required, defaulted. simpl dict_get. intros H.
  apply obind_some in H as [i [Hi H]]. apply obind_some in H as [t [Ht H]].
  apply obind_some in H as [f [Hf H]]. apply obind_some in H as [rows [Hr H]].
  injection H as <-. simpl.
  split; [exact Hi|]. split; [exact Ht|]. split; [exact Hf|].
  simpl in Hr.
  apply obind_some in Hr as [R [HR Hr]]. simpl in Hr. injection Hr as <-.
  exists R. split; [reflexivity|].
  unfold validate_Row, required, defaulted in HR. simpl dict_get in HR.
  simpl v_str in HR. cbn [obind] in HR.
  change (v_literal row_kinds (VStr "video")) with (Some "video") in HR.
  cbn [obind] in HR.
  apply obind_some in HR as [acts [Hacts HR]].
  apply obind_some in HR as [tr [Htr HR]]. injection HR as <-. simpl.
  repeat split; assumption.
Qed.

(** The [i]-th scene of the document and the raw scene it comes from. *)
Lemma scene_of_raw raw doc d scs i sc :
  _normalize_to_scene_schema raw = Ok doc ->
  raw = VDict d ->
  iter (get d "scenes" (VList [])) = Ok scs ->
  nth_error scs i = Some sc ->
  exists s assets actions trans S_ R,
    sc = VDict s /\
    iter (get s "assets" (VList [])) = Ok assets /\
    for_enumerate (normalize_asset (S i) (get s "durationSec" (VInt 3))) 1 assets
      = Ok actions /\
    name_transitions (wrap_dict (get s "transitions" (VList []))) = Ok trans /\
    nth_error (scenes doc) i = Some S_ /\
    v_str (get s "id" (VStr ("scene_" ++ str_of_nat (S i)))) = Some (sc_id S_) /\
    v_optional v_str (get s "title" (VStr ("Scene " ++ str_of_nat (S i))))
      = Some (sc_title S_) /\
    v_float (get s "durationSec" (VInt 3)) = Some (sc_durationSec S_) /\
    sc_rows S_ = [R] /\
    row_id R = ("row-" ++ str_of_nat (S i) ++ "-1")%string /\
    row_kind R = "video" /\
    omap validate_Action actions = Some (row_actions R) /\
    v_optional (v_list validate_Effect) trans = Some (row_transitions R).
Proof.
  intros H -> Hscs Hi.
  destruct (normalize_ok_inv _ _ H)
    as (d' & items & scenes_ & E & Hit & Hfor & Hval & _).
  injection E as <-. rewrite Hscs in Hit. injection Hit as <-.
  destruct (for_enumerate_nth _ _ _ _ Hfor i _ Hi) as [scv [Hscv Hn]].
  destruct (omap_nth _ _ _ Hval i _ Hscv) as [S_ [HS HvS]].
  destruct (normalize_scene_inv _ _ _ Hn)
    as (s & assets & actions & trans & -> & Hit & Hacts & Htr & ->).
  destruct (validate_scene_inv _ _ _ _ _ _ _ _ HvS)
    as (H1 & H2 & H3 & R & H4 & H5 & H6 & H7 & H8).
  exists s, assets, actions, trans, S_, R.
  repeat split; assumption.
Qed.

Lemma scenes_length raw doc d scs :
  _normalize_to_scene_schema raw = Ok doc ->
  raw = VDict d ->
  iter (get d "scenes" (VList [])) = Ok scs ->
  List.length (scenes doc) = List.length scs.
Proof.
  intros H -> Hscs.
  destruct (normalize_ok_inv _ _ H)
    as (d' & items & scenes_ & E & Hit & Hfor & Hval & _).
  injection E as <-. rewrite Hscs in Hit. injection Hit as <-.
  rewrite (omap_length _ _ _ Hval). exact (for_enumerate_length _ _ _ _ Hfor).
Qed.

(** ** What an asset goes through *)

Lemma v_literal_in allowed v s :
  v_literal allowed v = Some s -> v = VStr s /\ In s allowed.
Proof.
  destruct v; simpl; try discriminate.
  destruct (existsb (String.eqb s0) allowed) eqn:E; [|discriminate].
  intros [= <-]. split; [reflexivity|].
  apply existsb_exists in E as [x [Hx E]]. apply String.eqb_eq in E.
  now subst x.
Qed.

Lemma asset_fields idx dur aidx a av A :
  normalize_asset idx dur aidx (VDict a) = Ok av ->
  validate_Action av = Some A ->
  v_str (get a "id" (VStr ("action-" ++ str_of_nat idx ++ "-" ++ str_of_nat aidx)))
    = Some (act_id A) /\
  (exists t, get a "type" (VStr "video") = VStr t /\
             act_type A = coerced_type t /\ In (act_type A) action_types) /\
  py_float (get a "startSec" (VInt 0)) = Ok (act_startSec A) /\
  py_float (get a "durationSec" dur) = Ok (act_durationSec A) /\
  v_optional (v_list validate_Effect) (asset_effects a) = Some (act_effects A).
Proof.
  intros H HA. unfold normalize_asset in H.
  apply bind_ok in H as [ty [Hty H]].
  apply bind_ok in H as [st [Hst H]]. apply bind_ok in H as [du [Hdu H]].
  injection H as <-.
  unfold validate_Action, required, defaulted in HA. simpl dict_get in HA.
  apply obind_some in HA as [id [Hid HA]].
  apply obind_some in HA as [type [Htype HA]].
  apply obind_some in HA as [st' [Hst' HA]].
  apply obind_some in HA as [du' [Hdu' HA]].
  apply obind_some in HA as [props [Hprops HA]].
  apply obind_some in HA as [effs [Heffs HA]]. injection HA as <-. simpl.
  simpl in Hst', Hdu'. injection Hst' as <-. injection Hdu' as <-.
  split; [exact Hid|]. split; [|repeat split; assumption].
  destruct (get a "type" (VStr "video")) as [| | | |t| |] eqn:Et;
    try discriminate.
  simpl in Hty. injection Hty as <-. exists t. split; [reflexivity|].
  apply v_literal_in in Htype as [Htype Hin]. injection Htype as Htype.
  split; [now rewrite <- Htype | exact Hin].
Qed.

(** ** The names of the transitions *)

Lemma name_transition_dict td t' :
  name_transition (VDict td) = Ok t' ->
  exists td', t' = VDict td' /\ dict_get "name" td' = Some (transition_name td).
Proof.
  simpl. unfold transition_name.
  destruct (dict_mem "name" td) eqn:Em; simpl.
  - destruct (truthy (get td "name" VNone)) eqn:Et; simpl; intros [= <-].
    + exists td. split; [reflexivity|]. unfold get, dict_mem in *.
      now destruct (dict_get "name" td).
    + eexists. split; [reflexivity|]. apply dict_get_set_same.
  - intros [= <-]. eexists. split; [reflexivity|]. apply dict_get_set_same.
Qed.

Lemma named_effect td' n E :
  dict_get "name" td' = Some n ->
  validate_Effect (VDict td') = Some E -> n = VStr (eff_name E).
Proof.
  intros Hn H. unfold validate_Effect, required in H. rewrite Hn in H.
  apply obind_some in H as [name [Hname H]].
  apply obind_some in H as [props [_ H]]. injection H as <-. simpl.
  destruct n; try discriminate. simpl in Hname. congruence.
Qed.

Lemma transition_of_raw ts trans effs j td :
  name_transitions (VList ts) = Ok trans ->
  v_optional (v_list validate_Effect) trans = Some effs ->
  nth_error ts j = Some (VDict td) ->
  exists l E, effs = Some l /\ List.length l = List.length ts /\
              nth_error l j = Some E /\
              transition_name td = VStr (eff_name E).
Proof.
  unfold name_transitions. intros H Hv Hj.
  apply bind_ok in H as [ts' [Hts H]]. injection H as <-.
  simpl in Hv. destruct (omap validate_Effect ts') as [l|] eqn:Hl;
    [|discriminate].
  injection Hv as <-.
  destruct (for_enumerate_nth _ _ _ _ Hts j _ Hj) as [t' [Ht' Hn]].
  destruct (name_transition_dict _ _ Hn) as [td' [-> Hname]].
  destruct (omap_nth _ _ _ Hl j _ Ht') as [E [HE HvE]].
  exists l, E. split; [reflexivity|]. split; [|split; [exact HE|]].
  - rewrite (omap_length _ _ _ Hl).
    exact (for_enumerate_length _ _ _ _ Hts).
  - exact (named_effect _ _ _ Hname HvE).
Qed.

(** ** What the engine does not read *)

Lemma get_set_other k k' v d default :
  k <> k' -> get (dict_set k v d) k' default = get d k' default.
Proof. intros H. unfold get. now rewrite dict_get_set_other. Qed.

Lemma get_set_same k v d default : get (dict_set k v d) k default = v.
Proof. unfold get. now rewrite dict_get_set_same. Qed.

End Engine.

End NormalizerMore.

(* ================================================================== *)
(** * The schema: dumping and validating again *)
(* ================================================================== *)

Module SchemaFacts.
Import Py Schema Normalizer Vocabulary NormalizerFacts NormalizerMore.

Section Validation.
Context {L : PyLib}.

Lemma omap_map {A B} (f : A -> option B) (g : B -> A) l :
  (forall x, In x l -> f (g x) = Some x) -> omap f (map g l) = Some l.
Proof.
  induction l as [|x l IH]; intros H; [reflexivity|].
  simpl. rewrite (H x (or_introl eq_refl)). simpl.
  rewrite IH; [reflexivity|]. intros y Hy. apply H. now right.
Qed.

Lemma omap_forallb {A B} (f : A -> option B) (P : B -> bool) l : forall ys,
  (forall x y, f x = Some y -> P y = true) ->
  omap f l = Some ys -> forallb P ys = true.
Proof.
  induction l as [|a l IH]; intros ys HP H.
  - injection H as <-. reflexivity.
  - simpl in H. apply obind_some in H as [y [Hy H]].
    apply obind_some in H as [ys' [Hys H]]. injection H as <-.
    simpl. rewrite (HP _ _ Hy). exact (IH _ HP Hys).
Qed.

(** ** Dumped models validate to themselves *)

Lemma validate_dump_Effect e : validate_Effect (VDict (dump_Effect e)) = Some e.
Proof. now destruct e. Qed.

Lemma validate_dump_effects o :
  v_optional (v_list validate_Effect) (dump_optional dump_effects o) = Some o.
Proof.
  destruct o as [l|]; [|reflexivity]. simpl.
  rewrite omap_map; [reflexivity|]. intros e _. apply validate_dump_Effect.
Qed.

Lemma existsb_literal s allowed :
  existsb (String.eqb s) allowed = true -> v_literal allowed (VStr s) = Some s.
Proof. simpl. now intros ->. Qed.

Lemma validate_dump_Action a :
  action_typed a = true -> validate_Action (VDict (dump_Action a)) = Some a.
Proof.
  intros H. destruct a as [id ty st du pr ef].
  unfold action_typed in H. cbn [act_type] in H.
  unfold validate_Action, required, defaulted, dump_Action. simpl dict_get.
  cbn [act_id act_type act_startSec act_durationSec act_props act_effects].
  rewrite (existsb_literal _ _ H). cbn [v_str v_float v_dict obind].
  now rewrite validate_dump_effects.
Qed.

Lemma validate_dump_Row r :
  row_typed r = true -> validate_Row (VDict (dump_Row r)) = Some r.
Proof.
  intros H. destruct r as [id kind acts tr].
  unfold row_typed in H. cbn [row_kind row_actions] in H.
  apply andb_true_iff in H as [Hk Ha].
  unfold validate_Row, required, defaulted, dump_Row. simpl dict_get.
  cbn [row_id row_kind row_actions row_transitions].
  rewrite (existsb_literal _ _ Hk). cbn [v_str v_list obind].
  rewrite omap_map.
  - cbn [obind]. now rewrite validate_dump_effects.
  - intros a Hin. apply validate_dump_Action.
    rewrite forallb_forall in Ha. now apply Ha.
Qed.

Lemma validate_dump_SceneItem s :
  scene_typed s = true -> validate_SceneItem (VDict (dump_SceneItem s)) = Some s.
Proof.
  intros H. destruct s as [id title dur rows].
  unfold scene_typed in H. cbn [sc_rows] in H.
  unfold validate_SceneItem, required, defaulted, dump_SceneItem. simpl dict_get.
  cbn [sc_id sc_title sc_durationSec sc_rows].
  cbn [v_str v_float v_list obind].
  assert (Ht : v_optional v_str (dump_optional VStr title) = Some title)
    by now destruct title.
  rewrite Ht. cbn [obind]. rewrite omap_map; [reflexivity|].
  intros r Hin. apply validate_dump_Row.
  rewrite forallb_forall in H. now apply H.
Qed.

Lemma validate_dump_Meta m : validate_Meta (VDict (dump_Meta m)) = Some m.
Proof.
  destruct m as [ar fp td ge ve].
  unfold validate_Meta, required, defaulted, dump_Meta. simpl dict_get.
  cbn [aspectRatio fps totalDurationSec generator version].
  destruct ar, fp, ge, ve; reflexivity.
Qed.

Lemma parse_dump doc :
  well_typed doc = true -> parse_obj (VDict (dump_SceneSchema doc)) = Ok doc.
Proof.
  intros H. destruct doc as [ss m]. unfold well_typed in H. cbn [scenes] in H.
  unfold parse_obj, required, dump_SceneSchema. simpl dict_get.
  cbn [scenes meta v_list]. rewrite omap_map.
  - cbn [obind]. now rewrite validate_dump_Meta.
  - intros s Hin. apply validate_dump_SceneItem.
    rewrite forallb_forall in H. now apply H.
Qed.

(** ** Validated documents are well typed *)

Lemma literal_existsb allowed v s :
  v_literal allowed v = Some s -> existsb (String.eqb s) allowed = true.
Proof.
  destruct v; simpl; try discriminate.
  destruct (existsb (String.eqb s0) allowed) eqn:E; [|discriminate].
  now intros [= <-].
Qed.

Lemma validated_Action v a : validate_Action v = Some a -> action_typed a = true.
Proof.
  destruct v as [| | | | | |d]; try discriminate.
  unfold validate_Action. intros H.
  apply obind_some in H as [id [_ H]]. apply obind_some in H as [ty [Hty H]].
  apply obind_some in H as [st [_ H]]. apply obind_some in H as [du [_ H]].
  apply obind_some in H as [pr [_ H]]. apply obind_some in H as [ef [_ H]].
  injection H as <-. unfold action_typed. simpl.
  unfold required in Hty. destruct (dict_get "type" d); [|discriminate].
  exact (literal_existsb _ _ _ Hty).
Qed.

Lemma validated_Row v r : validate_Row v = Some r -> row_typed r = true.
Proof.
  destruct v as [| | | | | |d]; try discriminate.
  unfold validate_Row. intros H.
  apply obind_some in H as [id [_ H]]. apply obind_some in H as [ki [Hki H]].
  apply obind_some in H as [acts [Hacts H]].
  apply obind_some in H as [tr [_ H]]. injection H as <-.
  unfold row_typed. simpl. apply andb_true_iff. split.
  - unfold required in Hki. destruct (dict_get "kind" d); [|discriminate].
    exact (literal_existsb _ _ _ Hki).
  - unfold required in Hacts. destruct (dict_get "actions" d) as [v|];
      [|discriminate].
    destruct v; try discriminate. simpl in Hacts.
    exact (omap_forallb _ _ _ _ validated_Action Hacts).
Qed.

Lemma validated_SceneItem v s :
  validate_SceneItem v = Some s -> scene_typed s = true.
Proof.
  destruct v as [| | | | | |d]; try discriminate.
  unfold validate_SceneItem. intros H.
  apply obind_some in H as [id [_ H]]. apply obind_some in H as [ti [_ H]].
  apply obind_some in H as [du [_ H]]. apply obind_some in H as [rows [Hr H]].
  injection H as <-. unfold scene_typed. simpl.
  unfold required in Hr. destruct (dict_get "rows" d) as [v|]; [|discriminate].
  destruct v; try discriminate. simpl in Hr.
  exact (omap_forallb _ _ _ _ validated_Row Hr).
Qed.

Lemma validated_scenes l ss :
  omap validate_SceneItem l = Some ss -> forallb scene_typed ss = true.
Proof. exact (omap_forallb _ _ _ _ validated_SceneItem). Qed.

Lemma parsed_well_typed v doc : parse_obj v = Ok doc -> well_typed doc = true.
Proof.
  unfold parse_obj. intros H. apply of_option_ok in H.
  destruct v as [| | | | | |d]; try discriminate.
  apply obind_some in H as [ss [Hss H]]. apply obind_some in H as [m [_ H]].
  injection H as <-. unfold well_typed. simpl.
  unfold required in Hss. destruct (dict_get "scenes" d) as [v|]; [|discriminate].
  destruct v; try discriminate. exact (validated_scenes _ _ Hss).
Qed.

Lemma normalized_well_typed raw doc :
  _normalize_to_scene_schema raw = Ok doc -> well_typed doc = true.
Proof.
  intros H.
  destruct (normalize_ok_inv _ _ H) as (d & items & scenes_ & _ & _ & _ & Hv & _).
  exact (validated_scenes _ _ Hv).
Qed.

End Validation.

End SchemaFacts.

(* ================================================================== *)
(** * The pipeline and the endpoint *)
(* ================================================================== *)

Module PipelineMore.
Import PyStr Sanitizer Py Schema Normalizer Pipeline Api Vocabulary.
Import NormalizerFacts.

Section Runs.
Context {L : PyLib}.

(** What the pipeline does with an answer of the adapter. *)
Lemma run_pipeline_answered raw_output uuid_hex prompt_ constraints :
  no_output (Some raw_output) = false ->
  run_pipeline (Some raw_output) uuid_hex prompt_ constraints
  = bind (of_option ValueError
            (Json.loads (_clean_gemini_json raw_output)))
      (fun parsed =>
       bind (_normalize_to_scene_schema parsed)
         (fun normalized =>
          Ok {| plan := _make_plan prompt_ normalized;
                scene := normalized |})).
Proof. intros Hno. unfold run_pipeline. now rewrite Hno. Qed.

(** What a successful run went through. *)
Lemma run_pipeline_inv raw_output uuid_hex prompt_ constraints out :
  run_pipeline raw_output uuid_hex prompt_ constraints = Ok out ->
  exists parsed,
    _normalize_to_scene_schema parsed = Ok (scene out) /\
    plan out = _make_plan prompt_ (scene out).
Proof.
  unfold run_pipeline. intros H.
  apply bind_ok in H as [parsed [_ H]].
  apply bind_ok in H as [normalized [Hn H]].
  injection H as <-. exists parsed. now split.
Qed.

(** A text between two fences counts as an answer. *)
Lemma no_output_fenced s body :
  of_string s = fence ++ body ++ fence -> no_output (Some s) = false.
Proof.
  intros E. unfold no_output. rewrite E.
  pose proof (SanitizerShape.fenced_trimmed body) as Hs.
  destruct (fence ++ body ++ fence) as [|a l] eqn:Ef; [discriminate Ef|].
  now rewrite Hs.
Qed.

(** So does a text from brace to brace. *)
Lemma no_output_braced s :
  braced (of_string s) -> no_output (Some s) = false.
Proof.
  intros Hb. unfold no_output.
  pose proof (SanitizerFacts.strip_braced _ Hb) as Hs.
  destruct Hb as [mid E]. rewrite E in *. now rewrite Hs.
Qed.

(** Validating the dump of the pipeline's scene gives the scene back. *)
Lemma revalidated raw_output uuid_hex prompt_ constraints out :
  run_pipeline raw_output uuid_hex prompt_ constraints = Ok out ->
  parse_obj (VDict (dump_SceneSchema (scene out))) = Ok (scene out).
Proof.
  intros H. destruct (run_pipeline_inv _ _ _ _ _ H) as [parsed [Hn _]].
  apply SchemaFacts.parse_dump. exact (SchemaFacts.normalized_well_typed _ _ Hn).
Qed.

Lemma generate_scene_eq raw_output uuid_hex request :
  generate_scene raw_output uuid_hex request
  = match run_pipeline raw_output uuid_hex (req_prompt request)
            (req_constraints request) with
    | Ok out => Respond {| resp_plan := plan out; resp_scene := scene out |}
    | Raise _ => HTTPException 422
    end.
Proof.
  unfold generate_scene.
  destruct (run_pipeline raw_output uuid_hex (req_prompt request)
              (req_constraints request)) as [out|e] eqn:E; [|reflexivity].
  now rewrite (revalidated _ _ _ _ _ E).
Qed.

(** An answer whose sanitized text is the text of a JSON object reaches
    the engine as that object. *)
Lemma run_pipeline_reads raw_output d uuid_hex prompt_ constraints :
  no_output (Some raw_output) = false ->
  _clean_gemini_json raw_output = Json.dumps (VDict d) ->
  printable (VDict d) = true ->
  run_pipeline (Some raw_output) uuid_hex prompt_ constraints
  = bind (_normalize_to_scene_schema (VDict d))
      (fun normalized =>
       Ok {| plan := _make_plan prompt_ normalized; scene := normalized |}).
Proof.
  intros Hno Hc Hp. rewrite (run_pipeline_answered _ _ _ _ Hno), Hc.
  now rewrite (JsonFacts.loads_dumps _ Hp).
Qed.

End Runs.

End PipelineMore.

(* ================================================================== *)
(** * Further properties of the code *)
(* ================================================================== *)

Lemma of_string_app (a b : string) :
  of_string (a ++ b)%string = of_string a ++ of_string b.
Proof. induction a as [|c a IH]; [reflexivity | cbn; now rewrite IH]. Qed.

Lemma sample_normalized :
  @_normalize_to_scene_schema sample_lib (VDict sample_top) = Ok sample_doc.
Proof. vm_compute. reflexivity. Qed.

(** ** The sanitizer ([_clean_gemini_json]) *)

(** X1: the sanitized text has no white space at either end and does not
    start with a fence. *)
Theorem X1_sanitizer_output_trimmed (x : string) :
  to_string (strip (of_string (Sanitizer._clean_gemini_json x)))
  = Sanitizer._clean_gemini_json x
  /\ startswith (of_string (Sanitizer._clean_gemini_json x)) Sanitizer.fence
     = false.
Proof.
  unfold Sanitizer._clean_gemini_json. rewrite PyStrFacts.of_to_string.
  rewrite SanitizerShape.clean_chars_trimmed. split; [reflexivity|].
  apply SanitizerShape.clean_chars_no_fence.
Qed.

(** X2: the sanitized text is empty, or runs from an opening brace to a
    closing brace, or has no opening brace or no closing brace; so a result
    that holds both braces starts with the one and ends with the other. *)
Theorem X2_sanitizer_output_shape (x : string) :
  Sanitizer._clean_gemini_json x = ""
  \/ (exists mid,
        Sanitizer._clean_gemini_json x = String "{" (mid ++ "}"))
  \/ ~ In "{"%char (of_string (Sanitizer._clean_gemini_json x))
  \/ ~ In "}"%char (of_string (Sanitizer._clean_gemini_json x)).
Proof.
  unfold Sanitizer._clean_gemini_json. rewrite PyStrFacts.of_to_string.
  destruct (SanitizerShape.clean_chars_cases (of_string x))
    as [E|[[mid E]|(_ & _ & [H|H])]].
  - left. now rewrite E.
  - right. left. exists (to_string mid). rewrite E.
    change (to_string (Sanitizer.lbrace :: mid ++ [Sanitizer.rbrace]))
      with (String "{" (to_string (mid ++ [Sanitizer.rbrace]))).
    f_equal. rewrite <- (PyStrFacts.to_of_string (to_string mid ++ "}")).
    now rewrite of_string_app, PyStrFacts.of_to_string.
  - right. right. now left.
  - right. right. now right.
Qed.

(** X3: text around a JSON object is dropped. When no opening brace comes
    before the object, no closing brace after it, and the trimmed text does
    not start with a fence, the sanitizer returns the object alone. *)
Theorem X3_sanitizer_drops_text_around_object (pre mid post : string) :
  ~ In "{"%char (of_string pre) ->
  ~ In "}"%char (of_string post) ->
  startswith (strip (of_string (pre ++ String "{" (mid ++ "}") ++ post)))
    Sanitizer.fence = false ->
  Sanitizer._clean_gemini_json (pre ++ String "{" (mid ++ "}") ++ post)
  = String "{" (mid ++ "}").
Proof.
  intros Hpre Hpost Hf.
  assert (E : of_string (pre ++ String "{" (mid ++ "}") ++ post)
              = of_string pre
                ++ (Sanitizer.lbrace :: of_string mid ++ [Sanitizer.rbrace])
                ++ of_string post).
  { rewrite !of_string_app. cbn [of_string list_ascii_of_string].
    fold (of_string (mid ++ "}")). now rewrite of_string_app. }
  unfold Sanitizer._clean_gemini_json. rewrite E in *.
  rewrite (SanitizerShape.clean_around _ _ _ Hpre Hpost Hf).
  change (to_string (Sanitizer.lbrace :: of_string mid ++ [Sanitizer.rbrace]))
    with (String "{" (to_string (of_string mid ++ [Sanitizer.rbrace]))).
  f_equal. rewrite <- (PyStrFacts.to_of_string (mid ++ "}")).
  now rewrite of_string_app.
Qed.

Lemma X3_sanitizer_drops_text_around_object_witness :
  Sanitizer._clean_gemini_json
    ("Here you go: " ++ String "{" ("'a': 1" ++ "}") ++ " Enjoy!")
  = String "{" ("'a': 1" ++ "}").
Proof.
  apply (X3_sanitizer_drops_text_around_object
           "Here you go: " "'a': 1" " Enjoy!").
  - cbv. intuition discriminate.
  - cbv. intuition discriminate.
  - reflexivity.
Defined.

(** X4: a fenced JSON object is unwrapped. With the fence at both ends, no
    tag or the tag [json] in any case, any white space around the object,
    and no fence inside the object, the sanitizer returns the object. *)
Theorem X4_sanitizer_unwraps_fenced_object (tag ws1 mid ws2 : string) :
  tag = "" \/ lower (of_string tag) = of_string "json" ->
  Forall (fun c => is_space c = true) (of_string ws1) ->
  Forall (fun c => is_space c = true) (of_string ws2) ->
  contains (of_string (String "{" (mid ++ "}"))) Sanitizer.fence = false ->
  Sanitizer._clean_gemini_json
    ("```" ++ tag ++ ws1 ++ String "{" (mid ++ "}") ++ ws2 ++ "```")
  = String "{" (mid ++ "}").
Proof.
  intros Htag H1 H2 Hc.
  assert (Eo : of_string (String "{" (mid ++ "}"))
               = Sanitizer.lbrace :: of_string mid ++ [Sanitizer.rbrace]).
  { cbn [of_string list_ascii_of_string]. fold (of_string (mid ++ "}")).
    now rewrite of_string_app. }
  assert (E : of_string ("```" ++ tag ++ ws1 ++ String "{" (mid ++ "}")
                         ++ ws2 ++ "```")
              = Sanitizer.fence ++ of_string tag ++ of_string ws1
                ++ (Sanitizer.lbrace :: of_string mid ++ [Sanitizer.rbrace])
                ++ of_string ws2 ++ Sanitizer.fence).
  { rewrite !of_string_app, Eo. reflexivity. }
  unfold Sanitizer._clean_gemini_json. rewrite E. rewrite Eo in Hc.
  rewrite SanitizerShape.clean_fenced_object; try assumption.
  - now rewrite <- Eo, PyStrFacts.to_of_string.
  - destruct Htag as [-> | Ht]; [now left | now right].
Qed.

Lemma X4_sanitizer_unwraps_fenced_object_witness :
  Sanitizer._clean_gemini_json
    ("```" ++ "JSON" ++ newline ++ String "{" ("'a': 1" ++ "}") ++ newline
     ++ "```")
  = String "{" ("'a': 1" ++ "}").
Proof.
  apply (X4_sanitizer_unwraps_fenced_object "JSON" newline "'a': 1" newline).
  - right. reflexivity.
  - repeat constructor.
  - repeat constructor.
  - reflexivity.
Defined.

(** ** The normalization engine ([_normalize_to_scene_schema]) *)

(** X5: the document has as many scenes as the raw input, in the same
    order, and each scene has exactly one row, of kind ["video"] and id
    [row-<n>-1], with as many actions as the raw scene has assets. *)
Theorem X5_one_row_per_scene (L : PyLib) (raw : value) (doc : SceneSchema)
  (d : dict) (scs : list value) (i : nat) (sc : value) :
  _normalize_to_scene_schema raw = Ok doc ->
  raw = VDict d ->
  iter (get d "scenes" (VList [])) = Ok scs ->
  nth_error scs i = Some sc ->
  List.length (scenes doc) = List.length scs /\
  exists s assets S_ R,
    sc = VDict s /\
    iter (get s "assets" (VList [])) = Ok assets /\
    nth_error (scenes doc) i = Some S_ /\
    sc_rows S_ = [R] /\
    row_id R = ("row-" ++ str_of_nat (S i) ++ "-1")%string /\
    row_kind R = "video" /\
    List.length (row_actions R) = List.length assets.
Proof.
  intros H Hraw Hscs Hi.
  split; [exact (NormalizerMore.scenes_length _ _ _ _ H Hraw Hscs)|].
  destruct (NormalizerMore.scene_of_raw _ _ _ _ _ _ H Hraw Hscs Hi)
    as (s & assets & actions & trans & S_ & R & -> & Ha & Hf & _ & HS & _ & _
        & _ & HR & Hid & Hk & Hom & _).
  exists s, assets, S_, R. repeat split; try assumption.
  rewrite (NormalizerMore.omap_length _ _ _ Hom).
  exact (NormalizerMore.for_enumerate_length _ _ _ _ Hf).
Qed.

Lemma X5_one_row_per_scene_witness :
  List.length (scenes sample_doc) = List.length [VDict sample_scene] /\
  exists s assets S_ R,
    VDict sample_scene = VDict s /\
    iter (get s "assets" (VList [])) = Ok assets /\
    nth_error (scenes sample_doc) 0 = Some S_ /\
    sc_rows S_ = [R] /\
    row_id R = ("row-" ++ str_of_nat 1 ++ "-1")%string /\
    row_kind R = "video" /\
    List.length (row_actions R) = List.length assets.
Proof.
  exact (X5_one_row_per_scene sample_lib (VDict sample_top) sample_doc
           sample_top [VDict sample_scene] 0 (VDict sample_scene)
           sample_normalized eq_refl eq_refl eq_refl).
Defined.

(** X6: the fields of a scene. Its id is the raw [id], else [scene_<n>];
    its title the raw [title], else [Scene <n>]; its duration the raw
    [durationSec] as a float, else 3. A raw value wins over the default. *)
Theorem X6_scene_fields_and_defaults (L : PyLib) (raw : value)
  (doc : SceneSchema) (d : dict) (scs : list value) (i : nat) (s : dict) :
  _normalize_to_scene_schema raw = Ok doc ->
  raw = VDict d ->
  iter (get d "scenes" (VList [])) = Ok scs ->
  nth_error scs i = Some (VDict s) ->
  exists S_,
    nth_error (scenes doc) i = Some S_ /\
    match dict_get "id" s with
    | Some v => v = VStr (sc_id S_)
    | None => sc_id S_ = ("scene_" ++ str_of_nat (S i))%string
    end /\
    match dict_get "title" s with
    | Some v => v_optional v_str v = Some (sc_title S_)
    | None => sc_title S_ = Some ("Scene " ++ str_of_nat (S i))%string
    end /\
    match dict_get "durationSec" s with
    | Some v => v_float v = Some (sc_durationSec S_)
    | None => sc_durationSec S_ = float_of_Z 3
    end.
Proof.
  intros H Hraw Hscs Hi.
  destruct (NormalizerMore.scene_of_raw _ _ _ _ _ _ H Hraw Hscs Hi)
    as (s' & assets & actions & trans & S_ & R & E & _ & _ & _ & HS & Hid & Ht
        & Hd & _).
  injection E as <-. exists S_. split; [exact HS|].
  unfold get in Hid, Ht, Hd. repeat split.
  - destruct (dict_get "id" s) as [v|].
    + destruct v; try discriminate. cbn [v_str] in Hid. congruence.
    + cbn [v_str] in Hid. now injection Hid.
  - destruct (dict_get "title" s) as [v|]; [exact Ht|].
    cbn [v_optional v_str option_map] in Ht. now injection Ht.
  - destruct (dict_get "durationSec" s) as [v|]; [exact Hd|].
    cbn [v_float] in Hd. change (float_range 3) with true in Hd.
    now injection Hd.
Qed.

Lemma X6_scene_fields_and_defaults_witness :
  exists S_,
    nth_error (scenes sample_doc) 0 = Some S_ /\
    match dict_get "id" sample_scene with
    | Some v => v = VStr (sc_id S_)
    | None => sc_id S_ = ("scene_" ++ str_of_nat 1)%string
    end /\
    match dict_get "title" sample_scene with
    | Some v => @v_optional string v_str v = Some (sc_title S_)
    | None => sc_title S_ = Some ("Scene " ++ str_of_nat 1)%string
    end /\
    match dict_get "durationSec" sample_scene with
    | Some v => @v_float sample_lib v = Some (sc_durationSec S_)
    | None => sc_durationSec S_ = float_of_Z 3
    end.
Proof.
  exact (X6_scene_fields_and_defaults sample_lib (VDict sample_top) sample_doc
           sample_top [VDict sample_scene] 0 sample_scene
           sample_normalized eq_refl eq_refl eq_refl).
Defined.

(** X7: the fields of an action. Its id is the asset's [id], else
    [action-<n>-<m>]; its start is [float] of the asset's [startSec], else
    0; its duration is [float] of the asset's [durationSec], else of the
    parent scene's duration (itself 3 when the scene gives none). *)
Theorem X7_action_fields_and_defaults (L : PyLib) (raw : value)
  (doc : SceneSchema) (d : dict) (scs : list value) (i : nat) (s : dict)
  (assets : list value) (j : nat) (a : dict) :
  _normalize_to_scene_schema raw = Ok doc ->
  raw = VDict d ->
  iter (get d "scenes" (VList [])) = Ok scs ->
  nth_error scs i = Some (VDict s) ->
  iter (get s "assets" (VList [])) = Ok assets ->
  nth_error assets j = Some (VDict a) ->
  exists S_ R A,
    nth_error (scenes doc) i = Some S_ /\
    sc_rows S_ = [R] /\
    nth_error (row_actions R) j = Some A /\
    match dict_get "id" a with
    | Some v => v = VStr (act_id A)
    | None =>
        act_id A
        = ("action-" ++ str_of_nat (S i) ++ "-" ++ str_of_nat (S j))%string
    end /\
    match dict_get "startSec" a with
    | Some v => py_float v = Ok (act_startSec A)
    | None => act_startSec A = float_of_Z 0
    end /\
    match dict_get "durationSec" a with
    | Some v => py_float v = Ok (act_durationSec A)
    | None => py_float (get s "durationSec" (VInt 3)) = Ok (act_durationSec A)
    end.
Proof.
  intros H Hraw Hscs Hi Hassets Hj.
  destruct (NormalizerFacts.action_of_asset _ _ _ _ _ _ _ _ _ H Hraw Hscs Hi Hassets Hj)
    as (S_ & R & A & av & HS & HR & HA & Hn & Hv).
  exists S_, R, A. split; [exact HS|]. split; [exact HR|]. split; [exact HA|].
  destruct (NormalizerMore.asset_fields _ _ _ _ _ _ Hn Hv)
    as (Hid & _ & Hst & Hdu & _).
  unfold get in Hid, Hst, Hdu at 1. repeat split.
  - destruct (dict_get "id" a) as [v|].
    + destruct v; try discriminate. cbn [v_str] in Hid. congruence.
    + cbn [v_str] in Hid. now injection Hid.
  - destruct (dict_get "startSec" a) as [v|]; [exact Hst|].
    cbn [py_float] in Hst. change (float_range 0) with true in Hst.
    now injection Hst.
  - destruct (dict_get "durationSec" a) as [v|]; exact Hdu.
Qed.

Lemma X7_action_fields_and_defaults_witness :
  exists S_ R A,
    nth_error (scenes sample_doc) 0 = Some S_ /\
    sc_rows S_ = [R] /\
    nth_error (row_actions R) 0 = Some A /\
    match dict_get "id" sample_asset with
    | Some v => v = VStr (act_id A)
    | None =>
        act_id A
        = ("action-" ++ str_of_nat 1 ++ "-" ++ str_of_nat 1)%string
    end /\
    match dict_get "startSec" sample_asset with
    | Some v => @py_float sample_lib v = Ok (act_startSec A)
    | None => act_startSec A = float_of_Z 0
    end /\
    match dict_get "durationSec" sample_asset with
    | Some v => @py_float sample_lib v = Ok (act_durationSec A)
    | None =>
        @py_float sample_lib (get sample_scene "durationSec" (VInt 3))
        = Ok (act_durationSec A)
    end.
Proof.
  exact (X7_action_fields_and_defaults sample_lib (VDict sample_top) sample_doc
           sample_top [VDict sample_scene] 0 sample_scene
           [VDict sample_asset] 0 sample_asset
           sample_normalized eq_refl eq_refl eq_refl eq_refl eq_refl).
Defined.

(** X8: the type of an action is the asset's [type] in lower case, with
    ["music"] turned into ["audio"]; in a document that came out it is one
    of video, image, audio and text (any other type fails the whole
    normalization). *)
Theorem X8_action_type_coercion (L : PyLib) (raw : value)
  (doc : SceneSchema) (d : dict) (scs : list value) (i : nat) (s : dict)
  (assets : list value) (j : nat) (a : dict) (t : string) :
  _normalize_to_scene_schema raw = Ok doc ->
  raw = VDict d ->
  iter (get d "scenes" (VList [])) = Ok scs ->
  nth_error scs i = Some (VDict s) ->
  iter (get s "assets" (VList [])) = Ok assets ->
  nth_error assets j = Some (VDict a) ->
  dict_get "type" a = Some (VStr t) ->
  exists S_ R A,
    nth_error (scenes doc) i = Some S_ /\
    sc_rows S_ = [R] /\
    nth_error (row_actions R) j = Some A /\
    act_type A
    = (if String.eqb (to_string (lower (of_string t))) "music"
       then "audio" else to_string (lower (of_string t))) /\
    In (act_type A) ["video"; "image"; "audio"; "text"].
Proof.
  intros H Hraw Hscs Hi Hassets Hj Ht.
  destruct (NormalizerFacts.action_of_asset _ _ _ _ _ _ _ _ _ H Hraw Hscs Hi Hassets Hj)
    as (S_ & R & A & av & HS & HR & HA & Hn & Hv).
  exists S_, R, A. split; [exact HS|]. split; [exact HR|]. split; [exact HA|].
  destruct (NormalizerMore.asset_fields _ _ _ _ _ _ Hn Hv)
    as (_ & (t' & Hg & Hty & Hin) & _).
  unfold get in Hg. rewrite Ht in Hg. injection Hg as <-.
  split; [exact Hty | exact Hin].
Qed.

Lemma X8_action_type_coercion_witness :
  exists S_ R A,
    nth_error (scenes sample_doc) 0 = Some S_ /\
    sc_rows S_ = [R] /\
    nth_error (row_actions R) 0 = Some A /\
    act_type A
    = (if String.eqb (to_string (lower (of_string "Music"))) "music"
       then "audio" else to_string (lower (of_string "Music"))) /\
    In (act_type A) ["video"; "image"; "audio"; "text"].
Proof.
  exact (X8_action_type_coercion sample_lib (VDict sample_top) sample_doc
           sample_top [VDict sample_scene] 0 sample_scene
           [VDict sample_asset] 0 sample_asset "Music"
           sample_normalized eq_refl eq_refl eq_refl eq_refl eq_refl eq_refl).
Defined.

(** X9: the effects of an action. An asset without [effects], or with
    [effects: null], gives an empty list; a single effect mapping is wrapped
    into a list of one; in every case the action's effects are the
    validated value of lines 72-76. *)
Theorem X9_action_effects (L : PyLib) (raw : value)
  (doc : SceneSchema) (d : dict) (scs : list value) (i : nat) (s : dict)
  (assets : list value) (j : nat) (a : dict) :
  _normalize_to_scene_schema raw = Ok doc ->
  raw = VDict d ->
  iter (get d "scenes" (VList [])) = Ok scs ->
  nth_error scs i = Some (VDict s) ->
  iter (get s "assets" (VList [])) = Ok assets ->
  nth_error assets j = Some (VDict a) ->
  exists S_ R A,
    nth_error (scenes doc) i = Some S_ /\
    sc_rows S_ = [R] /\
    nth_error (row_actions R) j = Some A /\
    match dict_get "effects" a with
    | None | Some VNone => act_effects A = Some []
    | Some (VDict e) =>
        exists E, validate_Effect (VDict e) = Some E /\ act_effects A = Some [E]
    | Some v => v_optional (v_list validate_Effect) v = Some (act_effects A)
    end.
Proof.
  intros H Hraw Hscs Hi Hassets Hj.
  destruct (NormalizerFacts.action_of_asset _ _ _ _ _ _ _ _ _ H Hraw Hscs Hi Hassets Hj)
    as (S_ & R & A & av & HS & HR & HA & Hn & Hv).
  exists S_, R, A. split; [exact HS|]. split; [exact HR|]. split; [exact HA|].
  destruct (NormalizerMore.asset_fields _ _ _ _ _ _ Hn Hv)
    as (_ & _ & _ & _ & He).
  unfold asset_effects, get in He.
  destruct (dict_get "effects" a) as [v|].
  - destruct v as [| | | | | |e]; try exact He.
    + cbn in He. now injection He.
    + cbn [is_dict v_optional v_list omap option_map] in He.
      destruct (validate_Effect (VDict e)) as [E|]; [|discriminate].
      exists E. split; [reflexivity|]. cbn in He. now injection He.
  - cbn in He. now injection He.
Qed.

Lemma X9_action_effects_witness :
  exists S_ R A,
    nth_error (scenes sample_doc) 0 = Some S_ /\
    sc_rows S_ = [R] /\
    nth_error (row_actions R) 0 = Some A /\
    match dict_get "effects" sample_asset with
    | None | Some VNone => act_effects A = Some []
    | Some (VDict e) =>
        exists E, validate_Effect (VDict e) = Some E /\ act_effects A = Some [E]
    | Some v => v_optional (v_list validate_Effect) v = Some (act_effects A)
    end.
Proof.
  exact (X9_action_effects sample_lib (VDict sample_top) sample_doc
           sample_top [VDict sample_scene] 0 sample_scene
           [VDict sample_asset] 0 sample_asset
           sample_normalized eq_refl eq_refl eq_refl eq_refl eq_refl).
Defined.

(** X10: the transitions of a row. The scene's [transitions], a list or a
    single mapping taken as a list of one, give the row as many
    transitions, in order, and the name of each is the raw [name] when that
    is true as a bool, else the raw [type], else ["unknown"]. *)
Theorem X10_transition_names (L : PyLib) (raw : value)
  (doc : SceneSchema) (d : dict) (scs : list value) (i : nat) (s : dict)
  (ts : list value) (j : nat) (td : dict) :
  _normalize_to_scene_schema raw = Ok doc ->
  raw = VDict d ->
  iter (get d "scenes" (VList [])) = Ok scs ->
  nth_error scs i = Some (VDict s) ->
  wrap_dict (get s "transitions" (VList [])) = VList ts ->
  nth_error ts j = Some (VDict td) ->
  exists S_ R l E,
    nth_error (scenes doc) i = Some S_ /\
    sc_rows S_ = [R] /\
    row_transitions R = Some l /\
    List.length l = List.length ts /\
    nth_error l j = Some E /\
    VStr (eff_name E)
    = (if dict_mem "name" td && truthy (get td "name" VNone)
       then get td "name" VNone
       else get td "type" (VStr "unknown")).
Proof.
  intros H Hraw Hscs Hi Hw Hj.
  destruct (NormalizerMore.scene_of_raw _ _ _ _ _ _ H Hraw Hscs Hi)
    as (s' & assets & actions & trans & S_ & R & E & _ & _ & Htr & HS & _ & _
        & _ & HR & _ & _ & _ & Hv).
  injection E as <-. rewrite Hw in Htr.
  destruct (NormalizerMore.transition_of_raw _ _ _ _ _ Htr Hv Hj)
    as (l & Ef & Hl & Hlen & Hn & Hname).
  exists S_, R, l, Ef.
  split; [exact HS|]. split; [exact HR|]. split; [exact Hl|].
  split; [exact Hlen|]. split; [exact Hn|].
  symmetry. exact Hname.
Qed.

Lemma X10_transition_names_witness :
  exists S_ R l E,
    nth_error (scenes sample_doc) 0 = Some S_ /\
    sc_rows S_ = [R] /\
    row_transitions R = Some l /\
    List.length l = List.length [VDict sample_transition] /\
    nth_error l 0 = Some E /\
    VStr (eff_name E)
    = (if dict_mem "name" sample_transition
          && truthy (get sample_transition "name" VNone)
       then get sample_transition "name" VNone
       else get sample_transition "type" (VStr "unknown")).
Proof.
  exact (X10_transition_names sample_lib (VDict sample_top) sample_doc
           sample_top [VDict sample_scene] 0 sample_scene
           [VDict sample_transition] 0 sample_transition
           sample_normalized eq_refl eq_refl eq_refl eq_refl eq_refl).
Defined.

(** X11: what a raw scene holds under a key the loop does not read never
    reaches its scene object. The scene-level [effects], wrapped into a
    list on lines 53-56 and then left, are among them, like [script]: only
    [assets], [transitions], [durationSec], [id], [title] and [description]
    count. *)
Theorem X11_unread_scene_keys (L : PyLib) (idx : nat) (k : string)
  (v : value) (s : dict) :
  ~ In k ["assets"; "transitions"; "durationSec"; "id"; "title"; "description"] ->
  normalize_scene idx (VDict (dict_set k v s))
  = normalize_scene idx (VDict s).
Proof.
  intros H. unfold normalize_scene.
  rewrite !NormalizerMore.get_set_other
    by (intros E; apply H; rewrite E; simpl; tauto).
  reflexivity.
Qed.

Lemma X11_unread_scene_keys_witness :
  @normalize_scene sample_lib 1
    (VDict (dict_set "effects" (VList [VDict [("name", VStr "blue_tint")]])
              sample_scene))
  = @normalize_scene sample_lib 1 (VDict sample_scene).
Proof.
  apply (X11_unread_scene_keys sample_lib 1 "effects"
           (VList [VDict [("name", VStr "blue_tint")]]) sample_scene).
  cbv. intuition discriminate.
Defined.

(** X12: the second loop over the transitions (lines 93-95) changes
    nothing: once the first loop has named them, naming them again returns
    them as they are. *)
Theorem X12_second_transition_loop_is_idle (ts ts' : value) :
  name_transitions ts = Ok ts' -> name_transitions ts' = Ok ts'.
Proof. apply NormalizerMore.name_transitions_again. Qed.

Lemma X12_second_transition_loop_is_idle_witness :
  name_transitions
    (VList [VDict [("type", VStr "fade"); ("name", VStr "fade")];
            VDict [("name", VStr "unknown")]])
  = Ok (VList [VDict [("type", VStr "fade"); ("name", VStr "fade")];
               VDict [("name", VStr "unknown")]]).
Proof.
  exact (X12_second_transition_loop_is_idle
           (VList [VDict [("type", VStr "fade")]; VDict []])
           (VList [VDict [("type", VStr "fade"); ("name", VStr "fade")];
                   VDict [("name", VStr "unknown")]])
           eq_refl).
Defined.

(** X13: the contents of [plan] never reach the document: for an input
    whose [plan] is absent or a mapping, replacing it by any mapping gives
    the same result. *)
Theorem X13_plan_never_reaches_document (L : PyLib) (p d : dict) :
  is_dict (get d "plan" (VDict [])) = true ->
  _normalize_to_scene_schema (VDict (dict_set "plan" (VDict p) d))
  = _normalize_to_scene_schema (VDict d).
Proof.
  intros Hp. unfold _normalize_to_scene_schema. simpl get_attr_get.
  cbn [bind]. rewrite !NormalizerMore.get_set_other by discriminate.
  rewrite NormalizerMore.get_set_same.
  destruct (iter (get d "scenes" (VList []))) as [items|e]; [|reflexivity].
  cbn [bind].
  destruct (for_enumerate normalize_scene 1 items) as [scs|e]; [|reflexivity].
  cbn [bind].
  rewrite !NormalizerMore.get_set_other by discriminate.
  destruct (get d "plan" (VDict [])); try discriminate. reflexivity.
Qed.

Lemma X13_plan_never_reaches_document_witness :
  @_normalize_to_scene_schema sample_lib
    (VDict (dict_set "plan" (VDict [("summary", VStr "A story")]) sample_top))
  = @_normalize_to_scene_schema sample_lib (VDict sample_top).
Proof.
  exact (X13_plan_never_reaches_document sample_lib
           [("summary", VStr "A story")] sample_top eq_refl).
Defined.

(** ** The schema ([SceneSchema.parse_obj]) *)

(** X14: validating the dump of a document whose enumerated fields hold
    allowed values returns the document itself: no field is lost, changed
    or defaulted anew. *)
Theorem X14_parse_obj_of_dump (L : PyLib) (doc : SceneSchema) :
  well_typed doc = true ->
  parse_obj (VDict (dump_SceneSchema doc)) = Ok doc.
Proof. apply SchemaFacts.parse_dump. Qed.

Lemma X14_parse_obj_of_dump_witness :
  @parse_obj sample_lib (VDict (dump_SceneSchema sample_doc)) = Ok sample_doc.
Proof. exact (X14_parse_obj_of_dump sample_lib sample_doc eq_refl). Defined.

(** X15: a validated document holds only allowed enumerations: the kind of
    every row is one of video, image, audio, text, captions, and the type
    of every action is one of video, image, audio, text. *)
Theorem X15_validated_enumerations (L : PyLib) (obj : value)
  (doc : SceneSchema) (S_ : SceneItem) (R : Row) :
  parse_obj obj = Ok doc ->
  In S_ (scenes doc) ->
  In R (sc_rows S_) ->
  In (row_kind R) ["video"; "image"; "audio"; "text"; "captions"] /\
  Forall (fun A => In (act_type A) ["video"; "image"; "audio"; "text"])
    (row_actions R).
Proof.
  intros H HS HR. apply SchemaFacts.parsed_well_typed in H.
  unfold well_typed in H. rewrite forallb_forall in H.
  specialize (H _ HS). unfold scene_typed in H. rewrite forallb_forall in H.
  specialize (H _ HR). unfold row_typed in H.
  apply andb_prop in H as [Hk Ha]. split.
  - apply existsb_exists in Hk as (k & Hin & Hk).
    apply String.eqb_eq in Hk. now subst k.
  - apply Forall_forall. intros A HA. rewrite forallb_forall in Ha.
    specialize (Ha _ HA). unfold action_typed in Ha.
    apply existsb_exists in Ha as (t & Hin & Ht).
    apply String.eqb_eq in Ht. now subst t.
Qed.

Lemma X15_validated_enumerations_witness :
  In (row_kind sample_row) ["video"; "image"; "audio"; "text"; "captions"] /\
  Forall (fun A => In (act_type A) ["video"; "image"; "audio"; "text"])
    (row_actions sample_row).
Proof.
  apply (X15_validated_enumerations sample_lib
           (VDict (dump_SceneSchema sample_doc)) sample_doc sample_item
           sample_row).
  - vm_compute. reflexivity.
  - now left.
  - now left.
Defined.

(** ** The pipeline ([run_pipeline]) and the endpoint ([generate_scene]) *)

(** X16: the endpoint answers with exactly what the pipeline returned. The
    validation of the dumped scene never fails and gives the pipeline's
    scene back, so a request ends in the response holding the pipeline's
    plan and scene, or, when the pipeline raises, in a 422. *)
Theorem X16_endpoint_mirrors_pipeline (L : PyLib) (raw_output : option string)
  (uuid_hex : string) (request : Api.SceneRequest) :
  Api.generate_scene raw_output uuid_hex request
  = match run_pipeline raw_output uuid_hex (Api.req_prompt request)
            (Api.req_constraints request) with
    | Ok out =>
        Api.Respond {| Api.resp_plan := plan out; Api.resp_scene := scene out |}
    | Raise _ => Api.HTTPException 422
    end.
Proof.
  unfold Api.generate_scene.
  destruct (run_pipeline raw_output uuid_hex (Api.req_prompt request)
              (Api.req_constraints request)) as [out|e] eqn:E; [|reflexivity].
  now rewrite (PipelineMore.revalidated _ _ _ _ _ E).
Qed.

(** X17: without adapter output the endpoint answers with the fallback
    document and its plan, whatever the prompt; only a total duration too
    large for a float ends in a 422. *)
Theorem X17_endpoint_without_adapter (L : PyLib) (raw_output : option string)
  (uuid_hex : string) (request : Api.SceneRequest) :
  no_output raw_output = true ->
  Api.generate_scene raw_output uuid_hex request
  = if float_range (fallback_duration (Api.req_constraints request))
    then Api.Respond
           {| Api.resp_plan :=
                {| scenesCount := 1;
                   notes := "Generated 1 scene(s) from prompt";
                   prompt := Api.req_prompt request |};
              Api.resp_scene :=
                fallback_document (Api.req_prompt request)
                  (Api.req_constraints request) |}
    else Api.HTTPException 422.
Proof.
  intros Hno. rewrite PipelineMore.generate_scene_eq.
  rewrite (PipelineFacts.run_pipeline_fallback _ _ _ _ Hno).
  now destruct (float_range (fallback_duration (Api.req_constraints request))).
Qed.

Lemma X17_endpoint_without_adapter_witness :
  @Api.generate_scene sample_lib None "0123456789abcdef0123456789abcdef"
    {| Api.req_prompt := "A day at the sea"; Api.req_constraints := None |}
  = if float_range (fallback_duration None)
    then Api.Respond
           {| Api.resp_plan :=
                {| scenesCount := 1;
                   notes := "Generated 1 scene(s) from prompt";
                   prompt := "A day at the sea" |};
              Api.resp_scene := fallback_document "A day at the sea" None |}
    else Api.HTTPException 422.
Proof.
  exact (X17_endpoint_without_adapter sample_lib None
           "0123456789abcdef0123456789abcdef"
           {| Api.req_prompt := "A day at the sea";
              Api.req_constraints := None |} eq_refl).
Defined.

(** X18: the text [json.dumps] writes for a mapping passes the sanitizer
    and [json.loads] unchanged: the pipeline reads back the very mapping
    that was written. *)
Theorem X18_written_object_is_read_back (L : PyLib) (d : dict) :
  printable (VDict d) = true ->
  Json.loads (Sanitizer._clean_gemini_json (Json.dumps (VDict d)))
  = Some (VDict d).
Proof.
  intros Hp. rewrite JsonFacts.clean_dumps_dict.
  now apply JsonFacts.loads_dumps.
Qed.

Lemma X18_written_object_is_read_back_witness :
  @Json.loads sample_lib
    (Sanitizer._clean_gemini_json (@Json.dumps sample_lib (VDict sample_top)))
  = Some (VDict sample_top).
Proof.
  exact (X18_written_object_is_read_back sample_lib sample_top eq_refl).
Defined.

(** X19: the duration budget of a fallback run. The document has one
    scene, whose duration is the total duration of [meta], and every action
    starts at 0 and lasts the whole scene. *)
Theorem X19_fallback_duration_budget (L : PyLib) (raw_output : option string)
  (uuid_hex prompt_ : string) (constraints : option SceneInputConstraints)
  (out : Output) :
  no_output raw_output = true ->
  run_pipeline raw_output uuid_hex prompt_ constraints = Ok out ->
  exists S_ R,
    scenes (scene out) = [S_] /\
    sc_durationSec S_ = totalDurationSec (meta (scene out)) /\
    sc_rows S_ = [R] /\
    Forall (fun A => act_startSec A = float_of_Z 0 /\
                     act_durationSec A = sc_durationSec S_) (row_actions R).
Proof.
  intros Hno H. rewrite (PipelineFacts.run_pipeline_fallback _ _ _ _ Hno) in H.
  destruct (float_range (fallback_duration constraints)); [|discriminate].
  injection H as <-. cbn [scene]. unfold fallback_document.
  eexists. eexists. cbn [scenes meta sc_durationSec totalDurationSec sc_rows].
  split; [reflexivity|]. split; [reflexivity|]. split; [reflexivity|].
  cbn [row_actions]. repeat constructor.
Qed.

Lemma X19_fallback_duration_budget_witness :
  exists S_ R,
    scenes (fallback_document "A day at the sea" None) = [S_] /\
    sc_durationSec S_
    = totalDurationSec (meta (fallback_document "A day at the sea" None)) /\
    sc_rows S_ = [R] /\
    Forall (fun A => act_startSec A = float_of_Z 0 /\
                     act_durationSec A = sc_durationSec S_) (row_actions R).
Proof.
  apply (X19_fallback_duration_budget sample_lib None
           "0123456789abcdef0123456789abcdef" "A day at the sea" None
           {| plan := _make_plan "A day at the sea"
                        (fallback_document "A day at the sea" None);
              scene := fallback_document "A day at the sea" None |}).
  - reflexivity.
  - vm_compute. reflexivity.
Defined.

(** X20: in a fallback run the props of every action hold the asset's
    [type] and [src] and nothing else; there is no [license] among them. *)
Theorem X20_fallback_props_have_no_license (L : PyLib)
  (raw_output : option string) (uuid_hex prompt_ : string)
  (constraints : option SceneInputConstraints) (out : Output)
  (S_ : SceneItem) (R : Row) (A : Action) :
  no_output raw_output = true ->
  run_pipeline raw_output uuid_hex prompt_ constraints = Ok out ->
  In S_ (scenes (scene out)) ->
  In R (sc_rows S_) ->
  In A (row_actions R) ->
  map fst (act_props A) = ["type"; "src"] /\
  dict_get "license" (act_props A) = None.
Proof.
  intros Hno H HS HR HA.
  rewrite (PipelineFacts.run_pipeline_fallback _ _ _ _ Hno) in H.
  destruct (float_range (fallback_duration constraints)); [|discriminate].
  injection H as <-. cbn [scene] in HS. unfold fallback_document in HS.
  cbn [scenes] in HS. destruct HS as [<- | []].
  cbn [sc_rows] in HR. destruct HR as [<- | []].
  cbn [row_actions] in HA.
  destruct HA as [<- | [<- | []]]; split; reflexivity.
Qed.

Lemma X20_fallback_props_have_no_license_witness :
  map fst (act_props
             (fallback_action "action-1-2" "text" "A day at the sea"
                (fallback_duration None)))
  = ["type"; "src"] /\
  dict_get "license"
    (act_props (fallback_action "action-1-2" "text" "A day at the sea"
                  (fallback_duration None))) = None.
Proof.
  apply (X20_fallback_props_have_no_license sample_lib None
           "0123456789abcdef0123456789abcdef" "A day at the sea" None
           {| plan := _make_plan "A day at the sea"
                        (fallback_document "A day at the sea" None);
              scene := fallback_document "A day at the sea" None |}
           (hd sample_item (scenes (fallback_document "A day at the sea" None)))
           (hd sample_row
              (sc_rows
                 (hd sample_item
                    (scenes (fallback_document "A day at the sea" None)))))).
  - reflexivity.
  - vm_compute. reflexivity.
  - now left.
  - now left.
  - right. now left.
Defined.

(** X21: once the adapter has answered, neither the constraints nor the
    process id play a part: the same answer and prompt give the same
    result, or the same exception, under any constraints. *)
Theorem X21_constraints_unused_on_answer (L : PyLib) (raw_output : string)
  (uuid1 uuid2 prompt_ : string)
  (constraints1 constraints2 : option SceneInputConstraints) :
  no_output (Some raw_output) = false ->
  run_pipeline (Some raw_output) uuid1 prompt_ constraints1
  = run_pipeline (Some raw_output) uuid2 prompt_ constraints2.
Proof.
  intros Hno. now rewrite !(PipelineMore.run_pipeline_answered _ _ _ _ Hno).
Qed.

Lemma X21_constraints_unused_on_answer_witness :
  @run_pipeline sample_lib (Some (@Json.dumps sample_lib (VDict sample_top)))
    "0123456789abcdef0123456789abcdef" "A day at the sea" None
  = @run_pipeline sample_lib (Some (@Json.dumps sample_lib (VDict sample_top)))
      "fedcba9876543210fedcba9876543210" "A day at the sea"
      (Some {| c_totalDurationSec := Some 15%Z; c_aspectRatio := Some "9:16";
               c_fps := Some 24%Z; c_language := Some "en";
               c_deterministic := Some true |}).
Proof.
  apply (X21_constraints_unused_on_answer sample_lib
           (@Json.dumps sample_lib (VDict sample_top))).
  vm_compute. reflexivity.
Defined.

(** X22: the plan of a run on an answer counts the scenes of the answer,
    which are those of the document; its notes say so, whatever the
    answer's own plan held, and it echoes the prompt. *)
Theorem X22_plan_counts_scenes (L : PyLib) (raw_output : string)
  (uuid_hex prompt_ : string) (constraints : option SceneInputConstraints)
  (out : Output) (d : dict) (scs : list value) :
  no_output (Some raw_output) = false ->
  run_pipeline (Some raw_output) uuid_hex prompt_ constraints = Ok out ->
  Json.loads (Sanitizer._clean_gemini_json raw_output) = Some (VDict d) ->
  iter (get d "scenes" (VList [])) = Ok scs ->
  scenesCount (plan out) = List.length scs /\
  List.length (scenes (scene out)) = List.length scs /\
  notes (plan out)
  = ("Generated " ++ str_of_nat (List.length scs) ++ " scene(s) from prompt")%string /\
  prompt (plan out) = prompt_.
Proof.
  intros Hno H Hl Hscs.
  rewrite (PipelineMore.run_pipeline_answered _ _ _ _ Hno), Hl in H.
  cbn [of_option bind] in H.
  destruct (_normalize_to_scene_schema (VDict d)) as [doc|e] eqn:Hn;
    [|discriminate].
  cbn [bind] in H. injection H as <-.
  pose proof (NormalizerMore.scenes_length _ _ _ _ Hn eq_refl Hscs) as Hlen.
  cbn [plan scene]. unfold _make_plan.
  cbn [scenesCount notes prompt]. rewrite Hlen. repeat split.
Qed.

Lemma X22_plan_counts_scenes_witness :
  scenesCount (_make_plan "A day at the sea" sample_doc)
  = List.length [VDict sample_scene] /\
  List.length (scenes sample_doc) = List.length [VDict sample_scene] /\
  notes (_make_plan "A day at the sea" sample_doc)
  = ("Generated " ++ str_of_nat (List.length [VDict sample_scene])
     ++ " scene(s) from prompt")%string /\
  prompt (_make_plan "A day at the sea" sample_doc) = "A day at the sea".
Proof.
  apply (X22_plan_counts_scenes sample_lib
           (@Json.dumps sample_lib (VDict sample_top))
           "0123456789abcdef0123456789abcdef" "A day at the sea" None
           {| plan := _make_plan "A day at the sea" sample_doc;
              scene := sample_doc |} sample_top [VDict sample_scene]).
  - vm_compute. reflexivity.
  - vm_compute. reflexivity.
  - vm_compute. reflexivity.
  - reflexivity.
Defined.

(** X23: an answer wrapped in a fence is read like the bare answer. For a
    mapping written by [json.dumps] with no fence inside, the fenced text,
    with no tag or the tag [json] and any white space around the object,
    and the bare text both give what the engine makes of the mapping, with
    the plan of that document. *)
Theorem X23_fenced_answer_is_read (L : PyLib) (tag ws1 ws2 : string)
  (d : dict) (uuid_hex prompt_ : string)
  (constraints : option SceneInputConstraints) :
  tag = "" \/ lower (of_string tag) = of_string "json" ->
  Forall (fun c => is_space c = true) (of_string ws1) ->
  Forall (fun c => is_space c = true) (of_string ws2) ->
  printable (VDict d) = true ->
  contains (of_string (Json.dumps (VDict d))) Sanitizer.fence = false ->
  run_pipeline
    (Some ("```" ++ tag ++ ws1 ++ Json.dumps (VDict d) ++ ws2 ++ "```")%string)
    uuid_hex prompt_ constraints
  = bind (_normalize_to_scene_schema (VDict d))
      (fun normalized =>
       Ok {| plan := _make_plan prompt_ normalized; scene := normalized |})
  /\
  run_pipeline (Some (Json.dumps (VDict d))) uuid_hex prompt_ constraints
  = bind (_normalize_to_scene_schema (VDict d))
      (fun normalized =>
       Ok {| plan := _make_plan prompt_ normalized; scene := normalized |}).
Proof.
  intros Htag H1 H2 Hp Hc.
  assert (Eo : of_string (Json.dumps (VDict d))
               = Sanitizer.lbrace :: dumps_members d ++ [Sanitizer.rbrace]).
  { unfold Json.dumps. rewrite PyStrFacts.of_to_string.
    apply JsonFacts.dumps_dict_eq. }
  split.
  - apply PipelineMore.run_pipeline_reads; [| |exact Hp].
    + apply (PipelineMore.no_output_fenced _
               (of_string tag ++ of_string ws1
                ++ of_string (Json.dumps (VDict d)) ++ of_string ws2)).
      rewrite !of_string_app. unfold Sanitizer.fence.
      now rewrite <- !app_assoc.
    + unfold Sanitizer._clean_gemini_json.
      rewrite !of_string_app, Eo.
      change (of_string "```") with Sanitizer.fence.
      rewrite Eo in Hc.
      rewrite SanitizerShape.clean_fenced_object; try assumption.
      * rewrite <- Eo. apply PyStrFacts.to_of_string.
      * destruct Htag as [-> | Ht]; [now left | now right].
  - apply PipelineMore.run_pipeline_reads; [| |exact Hp].
    + apply PipelineMore.no_output_braced. rewrite Eo.
      now exists (dumps_members d).
    + apply JsonFacts.clean_dumps_dict.
Qed.

Lemma X23_fenced_answer_is_read_witness :
  @run_pipeline sample_lib
    (Some ("```" ++ "json" ++ newline
           ++ @Json.dumps sample_lib (VDict sample_top) ++ newline
           ++ "```")%string)
    "0123456789abcdef0123456789abcdef" "A day at the sea" None
  = bind (@_normalize_to_scene_schema sample_lib (VDict sample_top))
      (fun normalized =>
       Ok {| plan := _make_plan "A day at the sea" normalized;
             scene := normalized |})
  /\
  @run_pipeline sample_lib (Some (@Json.dumps sample_lib (VDict sample_top)))
    "0123456789abcdef0123456789abcdef" "A day at the sea" None
  = bind (@_normalize_to_scene_schema sample_lib (VDict sample_top))
      (fun normalized =>
       Ok {| plan := _make_plan "A day at the sea" normalized;
             scene := normalized |}).
Proof.
  apply (X23_fenced_answer_is_read sample_lib "json" newline newline
           sample_top "0123456789abcdef0123456789abcdef" "A day at the sea"
           None).
  - right. reflexivity.
  - repeat constructor.
  - repeat constructor.
  - reflexivity.
  - vm_compute. reflexivity.
Defined.



(** X25: the [meta] of a fallback run. The aspect ratio and the frame rate
    are those of the constraints when given and not empty or 0, else 16:9
    and 30; generator and version are the schema's defaults; the language
    of the fallback mapping is not part of the document. *)
Theorem X25_fallback_meta (L : PyLib) (raw_output : option string)
  (uuid_hex prompt_ : string) (constraints : option SceneInputConstraints)
  (out : Output) :
  no_output raw_output = true ->
  run_pipeline raw_output uuid_hex prompt_ constraints = Ok out ->
  aspectRatio (meta (scene out))
  = Some match constraints with
         | Some c =>
             match c_aspectRatio c with
             | Some a => if String.eqb a "" then "16:9" else a
             | None => "16:9"
             end
         | None => "16:9"
         end /\
  fps (meta (scene out))
  = Some match constraints with
         | Some c =>
             match c_fps c with
             | Some f => if (f =? 0)%Z then 30%Z else f
             | None => 30%Z
             end
         | None => 30%Z
         end /\
  generator (meta (scene out)) = Some "scene-builder-agent" /\
  version (meta (scene out)) = Some "1.0.0".
Proof.
  intros Hno H. rewrite (PipelineFacts.run_pipeline_fallback _ _ _ _ Hno) in H.
  destruct (float_range (fallback_duration constraints)); [|discriminate].
  injection H as <-. cbn [scene]. unfold fallback_document.
  cbn [meta aspectRatio fps generator version].
  unfold field_or, nonempty_str, nonzero_int.
  repeat split.
  - destruct constraints as [c|]; [|reflexivity].
    destruct (c_aspectRatio c) as [a|]; [|reflexivity].
    now destruct (String.eqb a "").
  - destruct constraints as [c|]; [|reflexivity].
    destruct (c_fps c) as [f|]; [|reflexivity].
    now destruct (f =? 0)%Z.
Qed.

Lemma X25_fallback_meta_witness :
  aspectRatio (meta (fallback_document "A day at the sea" None))
  = Some "16:9" /\
  fps (meta (fallback_document "A day at the sea" None)) = Some 30%Z /\
  generator (meta (fallback_document "A day at the sea" None))
  = Some "scene-builder-agent" /\
  version (meta (fallback_document "A day at the sea" None)) = Some "1.0.0".
Proof.
  apply (X25_fallback_meta sample_lib None
           "0123456789abcdef0123456789abcdef" "A day at the sea" None
           {| plan := _make_plan "A day at the sea"
                        (fallback_document "A day at the sea" None);
              scene := fallback_document "A day at the sea" None |}).
  - reflexivity.
  - vm_compute. reflexivity.
Defined.

(** X26: what the raw answer holds under a top-level key other than
    [plan], [scenes] and [meta], such as [processId], never reaches the
    document. *)
Theorem X26_unread_top_level_keys (L : PyLib) (k : string) (v : value)
  (d : dict) :
  ~ In k ["plan"; "scenes"; "meta"] ->
  _normalize_to_scene_schema (VDict (dict_set k v d))
  = _normalize_to_scene_schema (VDict d).
Proof.
  intros H. unfold _normalize_to_scene_schema. simpl get_attr_get.
  cbn [bind].
  rewrite !NormalizerMore.get_set_other
    by (intros E; apply H; rewrite E; simpl; tauto).
  reflexivity.
Qed.

Lemma X26_unread_top_level_keys_witness :
  @_normalize_to_scene_schema sample_lib
    (VDict (dict_set "processId" (VStr "proc-01234567") sample_top))
  = @_normalize_to_scene_schema sample_lib (VDict sample_top).
Proof.
  apply (X26_unread_top_level_keys sample_lib "processId"
           (VStr "proc-01234567") sample_top).
  cbv. intuition discriminate.
Defined.
